(** * Retrieval-and-indexing core of the RAG service: a shallow embedding

    The development follows the Python sources under [backend/rag]:
    [text_processor.py] (chunking), [index_builder.py] (vector index and its
    persistence), [retriever.py] (query cache, filtered retrieval),
    [llm_gateway.py] (retrying generation call) and [pipeline.py] (the
    orchestrator).  Python values are modelled as follows.

    - [str] is a list of Unicode code points ([N]); [len], slicing, [strip]
      and [rfind] follow CPython on such sequences.
    - [int] is [Z]; the only float comparison of the chunker,
      [last_punct > chunk_size * 0.5], is written [chunk_size < 2 * last_punct].
    - similarity scores are rationals ([Q]), which contain every finite float.
    - a [dict] read by key is a [gmap]; the query cache, whose eviction relies
      on insertion order, is an association list in insertion order.
    - a [while] loop that may run forever takes fuel and returns [None] when
      the fuel runs out.
    - exceptions are the [Raise] results of [result]. *)

From Stdlib Require Import ZArith QArith String Ascii Lia DecimalString.
From stdpp Require Import list gmap sorting.

Local Open Scope Z_scope.

(** A Python string literal with ASCII content. *)
Definition py (s : string) : list N := N_of_ascii <$> list_ascii_of_string s.

(** ** Python primitives *)

Module Py.

Definition len {A} (s : list A) : Z := Z.of_nat (length s).

(** Bound adjustment of a slice with step 1 (CPython's
    [PySlice_AdjustIndices]): a negative bound counts from the end, and
    both bounds are clamped to [0, n]. *)
Definition adjust (n i : Z) : Z :=
  if i <? 0 then Z.max 0 (i + n) else Z.min i n.

(** [s[start:stop]] *)
Definition slice {A} (s : list A) (start stop : Z) : list A :=
  let a := adjust (len s) start in
  let b := adjust (len s) stop in
  take (Z.to_nat (b - a)) (drop (Z.to_nat a) s).

(** [s[i]] with Python's negative indexing; [None] stands for IndexError. *)
Definition index {A} (s : list A) (i : Z) : option A :=
  if i <? 0
  then (if 0 <=? i + len s then s !! Z.to_nat (i + len s) else None)
  else s !! Z.to_nat i.

(** [str.isspace] on one code point (CPython's [_PyUnicode_IsWhitespace]). *)
Definition isspace (c : N) : bool :=
  ((9 <=? c) && (c <=? 13) || (28 <=? c) && (c <=? 32)
   || (c =? 133) || (c =? 160) || (c =? 5760)
   || (8192 <=? c) && (c <=? 8202)
   || (c =? 8232) || (c =? 8233) || (c =? 8239) || (c =? 8287)
   || (c =? 12288))%N.

Fixpoint lstrip (s : list N) : list N :=
  match s with
  | c :: s' => if isspace c then lstrip s' else s
  | [] => []
  end.

Definition rstrip (s : list N) : list N := rev (lstrip (rev s)).

(** [s.strip()] *)
Definition strip (s : list N) : list N := rstrip (lstrip s).

(** [s.startswith(sub)] *)
Fixpoint startswith (sub s : list N) : bool :=
  match sub, s with
  | [], _ => true
  | _ :: _, [] => false
  | a :: sub', b :: s' => (a =? b)%N && startswith sub' s'
  end.

(** [rfind_from sub s i]: [s] is the part of the string that starts at
    index [i]; the result is the highest index of an occurrence of [sub],
    or -1. *)
Fixpoint rfind_from (sub s : list N) (i : Z) : Z :=
  match s with
  | [] => if startswith sub [] then i else -1
  | _ :: s' =>
      let r := rfind_from sub s' (i + 1) in
      if 0 <=? r then r else if startswith sub s then i else -1
  end.

(** [s.rfind(sub)] *)
Definition rfind (s sub : list N) : Z := rfind_from sub s 0.

(** [sub] occurs in [s] at index [i]; [rfind] is specified against it. *)
Definition occurs_at (s sub : list N) (i : Z) : Prop :=
  0 <= i <= len s /\ startswith sub (drop (Z.to_nat i) s) = true.

(** Truthiness of a string: non-empty. *)
Definition truthy (s : list N) : bool :=
  match s with [] => false | _ => true end.

(** [str(n)] for an int. *)
Definition str_of_int (z : Z) : list N := py (NilZero.string_of_int (Z.to_int z)).

(** Values stored in metadata records and filters: JSON scalars (floats and
    nested containers are left out). *)
Inductive value :=
| VNone
| VBool (b : bool)
| VInt (z : Z)
| VStr (s : list N).

Definition num (v : value) : option Z :=
  match v with
  | VBool b => Some (if b then 1 else 0)
  | VInt z => Some z
  | _ => None
  end.

(** [a == b]: [True == 1] and [False == 0] hold in Python. *)
Definition eq (a b : value) : bool :=
  match a, b with
  | VNone, VNone => true
  | VStr s, VStr t => bool_decide (s = t)
  | _, _ =>
      match num a, num b with
      | Some x, Some y => x =? y
      | _, _ => false
      end
  end.

(** [str(v)], as an f-string formats it. *)
Definition str_of (v : value) : list N :=
  match v with
  | VNone => py "None"
  | VBool true => py "True"
  | VBool false => py "False"
  | VInt z => str_of_int z
  | VStr s => s
  end.

(** [d.get(key)] and [d.get(key, default)] *)
Definition get (d : gmap (list N) value) (key : list N) : value :=
  default VNone (d !! key).

Definition get_default (d : gmap (list N) value) (key : list N) (dflt : value) : value :=
  default dflt (d !! key).

(** The exceptions the modelled code distinguishes. *)
Inductive exn :=
| ValueError (msg : list N)
| IndexError
| TypeError
| AssertionError
| FileNotFoundError
| PermissionError
| JSONDecodeError
| KeyError
| AttributeError
| UnicodeEncodeError
| RuntimeError (msg : list N).

Inductive result (A : Type) :=
| Ok (a : A)
| Raise (e : exn).
Arguments Ok {A} a.
Arguments Raise {A} e.

Definition bind {A B} (m : result A) (f : A -> result B) : result B :=
  match m with
  | Ok a => f a
  | Raise e => Raise e
  end.

(** [str(e)] for the exceptions above, as used in f-strings. *)
Definition str_of_exn (e : exn) : list N :=
  match e with
  | ValueError msg | RuntimeError msg => msg
  | IndexError => py "list index out of range"
  | _ => []
  end.

End Py.

Notation "'let*' x := m 'in' k" := (Py.bind m (fun x => k))
  (at level 10, x pattern, m at level 100, k at level 200).

(** ** hashlib.md5 (RFC 1321) and UTF-8 encoding *)

Module Hashlib.

(** [str.encode()]: UTF-8; [None] stands for UnicodeEncodeError (a lone
    surrogate). *)
Definition encode_char (c : N) : option (list Z) :=
  let c := Z.of_N c in
  if c <? 0x80 then Some [c]
  else if c <? 0x800 then
    Some [Z.lor 0xC0 (Z.shiftr c 6); Z.lor 0x80 (Z.land c 0x3F)]
  else if c <? 0x10000 then
    if (0xD800 <=? c) && (c <=? 0xDFFF) then None
    else Some [Z.lor 0xE0 (Z.shiftr c 12);
               Z.lor 0x80 (Z.land (Z.shiftr c 6) 0x3F);
               Z.lor 0x80 (Z.land c 0x3F)]
  else if c <? 0x110000 then
    Some [Z.lor 0xF0 (Z.shiftr c 18);
          Z.lor 0x80 (Z.land (Z.shiftr c 12) 0x3F);
          Z.lor 0x80 (Z.land (Z.shiftr c 6) 0x3F);
          Z.lor 0x80 (Z.land c 0x3F)]
  else None.

Fixpoint encode (s : list N) : option (list Z) :=
  match s with
  | [] => Some []
  | c :: s' =>
      match encode_char c, encode s' with
      | Some b, Some bs => Some (b ++ bs)
      | _, _ => None
      end
  end.

Definition mask32 (x : Z) : Z := Z.land x 0xFFFFFFFF.

Definition rotl32 (x : Z) (c : Z) : Z :=
  mask32 (Z.lor (Z.shiftl x c) (Z.shiftr x (32 - c))).

Definition not32 (x : Z) : Z := Z.lxor x 0xFFFFFFFF.

Definition shifts : list Z :=
  [7; 12; 17; 22; 7; 12; 17; 22; 7; 12; 17; 22; 7; 12; 17; 22;
   5; 9; 14; 20; 5; 9; 14; 20; 5; 9; 14; 20; 5; 9; 14; 20;
   4; 11; 16; 23; 4; 11; 16; 23; 4; 11; 16; 23; 4; 11; 16; 23;
   6; 10; 15; 21; 6; 10; 15; 21; 6; 10; 15; 21; 6; 10; 15; 21].

Definition sines : list Z :=
  [0xd76aa478; 0xe8c7b756; 0x242070db; 0xc1bdceee; 0xf57c0faf; 0x4787c62a; 0xa8304613; 0xfd469501;
   0x698098d8; 0x8b44f7af; 0xffff5bb1; 0x895cd7be; 0x6b901122; 0xfd987193; 0xa679438e; 0x49b40821;
   0xf61e2562; 0xc040b340; 0x265e5a51; 0xe9b6c7aa; 0xd62f105d; 0x02441453; 0xd8a1e681; 0xe7d3fbc8;
   0x21e1cde6; 0xc33707d6; 0xf4d50d87; 0x455a14ed; 0xa9e3e905; 0xfcefa3f8; 0x676f02d9; 0x8d2a4c8a;
   0xfffa3942; 0x8771f681; 0x6d9d6122; 0xfde5380c; 0xa4beea44; 0x4bdecfa9; 0xf6bb4b60; 0xbebfbc70;
   0x289b7ec6; 0xeaa127fa; 0xd4ef3085; 0x04881d05; 0xd9d4d039; 0xe6db99e5; 0x1fa27cf8; 0xc4ac5665;
   0xf4292244; 0x432aff97; 0xab9423a7; 0xfc93a039; 0x655b59c3; 0x8f0ccc92; 0xffeff47d; 0x85845dd1;
   0x6fa87e4f; 0xfe2ce6e0; 0xa3014314; 0x4e0811a1; 0xf7537e82; 0xbd3af235; 0x2ad7d2bb; 0xeb86d391].

(** Little-endian bytes of a word, and back. *)
Fixpoint le_bytes (n : nat) (x : Z) : list Z :=
  match n with
  | O => []
  | S n' => Z.land x 0xFF :: le_bytes n' (Z.shiftr x 8)
  end.

Fixpoint le_word (bs : list Z) : Z :=
  match bs with
  | [] => 0
  | b :: bs' => Z.lor b (Z.shiftl (le_word bs') 8)
  end.

(** The message followed by 0x80, zeros up to 56 mod 64, and the bit length
    in 8 bytes. *)
Definition pad (msg : list Z) : list Z :=
  let n := Z.of_nat (length msg) in
  let zeros := Z.to_nat ((55 - n) mod 64) in
  msg ++ [0x80] ++ replicate zeros 0 ++ le_bytes 8 (Z.land (8 * n) 0xFFFFFFFFFFFFFFFF).

Fixpoint words (n : nat) (bs : list Z) : list Z :=
  match n with
  | O => []
  | S n' => le_word (take 4 bs) :: words n' (drop 4 bs)
  end.

Definition round (M : list Z) (st : Z * Z * Z * Z) (i : nat) : Z * Z * Z * Z :=
  let '(A, B, C, D) := st in
  let iz := Z.of_nat i in
  let '(F, g) :=
    if iz <? 16 then (Z.lor (Z.land B C) (Z.land (not32 B) D), iz)
    else if iz <? 32 then (Z.lor (Z.land D B) (Z.land (not32 D) C), (5 * iz + 1) mod 16)
    else if iz <? 48 then (Z.lxor (Z.lxor B C) D, (3 * iz + 5) mod 16)
    else (Z.lxor C (Z.lor B (not32 D)), (7 * iz) mod 16) in
  let F' := mask32 (F + A + nth i sines 0 + nth (Z.to_nat g) M 0) in
  (D, mask32 (B + rotl32 F' (nth i shifts 0)), B, C).

Definition process_block (st : Z * Z * Z * Z) (block : list Z) : Z * Z * Z * Z :=
  let M := words 16 block in
  let '(A, B, C, D) := fold_left (round M) (seq 0 64) st in
  let '(a0, b0, c0, d0) := st in
  (mask32 (a0 + A), mask32 (b0 + B), mask32 (c0 + C), mask32 (d0 + D)).

Fixpoint process (n : nat) (st : Z * Z * Z * Z) (bs : list Z) : Z * Z * Z * Z :=
  match n with
  | O => st
  | S n' => process n' (process_block st (take 64 bs)) (drop 64 bs)
  end.

Definition md5_digest (msg : list Z) : list Z :=
  let padded := pad msg in
  let '(a, b, c, d) :=
    process (length padded / 64) (0x67452301, 0xefcdab89, 0x98badcfe, 0x10325476) padded in
  le_bytes 4 a ++ le_bytes 4 b ++ le_bytes 4 c ++ le_bytes 4 d.

Definition hex_digit (x : Z) : N :=
  if x <? 10 then Z.to_N (48 + x) else Z.to_N (87 + x).

Definition hexdigest (digest : list Z) : list N :=
  flat_map (fun b => [hex_digit (Z.shiftr b 4); hex_digit (Z.land b 0xF)]) digest.

End Hashlib.

(** ** text_processor.py *)

Module TextProcessor.

Record t := { chunk_size : Z; chunk_overlap : Z }.

(** [TextProcessor.__init__] defaults. *)
Definition default : t := {| chunk_size := 512; chunk_overlap := 128 |}.

(** The boundary markers, in the order the loop tries them. *)
Definition boundary_markers : list (list N) :=
  [py ". "; py "! "; py "? "; [10%N]].

(** The [for punct in ...] loop with its [break]: the first marker whose
    last occurrence in [chunk] is beyond half of [chunk_size] cuts the
    chunk just after the first character of that occurrence. *)
Fixpoint break_at_boundary (cs : Z) (chunk : list N) (puncts : list (list N))
  : option (list N) :=
  match puncts with
  | [] => None
  | punct :: rest =>
      let last_punct := Py.rfind chunk punct in
      if cs <? 2 * last_punct
      then Some (Py.slice chunk 0 (last_punct + 1))
      else break_at_boundary cs chunk rest
  end.

(** One iteration's window: the chunk that is emitted and the value of
    [end] after the boundary search. *)
Definition window (self : t) (text : list N) (start : Z) : list N * Z :=
  let end_ := start + chunk_size self in
  let chunk := Py.slice text start end_ in
  if end_ <? Py.len text
  then match break_at_boundary (chunk_size self) chunk boundary_markers with
       | Some chunk' => (chunk', start + Py.len chunk')
       | None => (chunk, end_)
       end
  else (chunk, end_).

(** The [while start < len(text)] loop. *)
Fixpoint chunk_loop (fuel : nat) (self : t) (text : list N) (start : Z)
    (chunks : list (list N)) : option (list (list N)) :=
  match fuel with
  | O => None
  | S fuel' =>
      if start <? Py.len text then
        let '(chunk, end_) := window self text start in
        let stripped_chunk := Py.strip chunk in
        let chunks' :=
          if Py.truthy stripped_chunk then chunks ++ [stripped_chunk] else chunks in
        if Py.len text <=? end_ then Some chunks'
        else chunk_loop fuel' self text (end_ - chunk_overlap self) chunks'
      else Some chunks
  end.

(** [TextProcessor.chunk_text]; [None] means the loop did not finish
    within [fuel] iterations. *)
Definition chunk_text (fuel : nat) (self : t) (text : list N)
  : option (list (list N)) :=
  let text := Py.strip text in
  if Py.len text <=? chunk_size self
  then Some (if Py.truthy text then [text] else [])
  else chunk_loop fuel self text 0 [].

(** [TextProcessor.compute_hash]: the first 12 hex digits of the MD5 of the
    UTF-8 encoding. *)
Definition compute_hash (text : list N) : Py.result (list N) :=
  match Hashlib.encode text with
  | Some bytes => Py.Ok (Py.slice (Hashlib.hexdigest (Hashlib.md5_digest bytes)) 0 12)
  | None => Py.Raise Py.UnicodeEncodeError
  end.

(** The window as the specification words it (used only to compare with
    [window]): the last occurrence among all four markers, cut after the
    whole marker, accepted when it lies at or after half of [chunk_size]. *)
Definition last_marker (chunk : list N) : Z * list N :=
  fold_right
    (fun m acc => let p := Py.rfind chunk m in if fst acc <? p then (p, m) else acc)
    (-1, []) boundary_markers.

Definition claimed_window (self : t) (text : list N) (start : Z) : list N * Z :=
  let end_ := start + chunk_size self in
  let chunk := Py.slice text start end_ in
  if end_ <? Py.len text
  then let '(p, m) := last_marker chunk in
       if (0 <=? p) && (chunk_size self <=? 2 * p)
       then let chunk' := Py.slice chunk 0 (p + Py.len m) in
            (chunk', start + Py.len chunk')
       else (chunk, end_)
  else (chunk, end_).

End TextProcessor.

(** ** index_builder.py *)

Module IndexBuilder.

(** An embedding is a vector of floats. *)
Definition vec := list Q.

Inductive index_kind :=
| IndexFlatIP
| IndexIVFFlat (nlist nprobe : Z).

(** A FAISS index, as far as this code uses it: its kind and the stored
    vectors, in row order. *)
Record faiss_index := { kind : index_kind; rows : list vec }.

Definition ntotal (i : faiss_index) : Z := Py.len (rows i).

(** [index.add(embeddings)], when it returns: the rows are appended.  FAISS
    itself checks the width of the rows against the dimension of the index
    and raises AssertionError, storing nothing, when they differ; that check
    is not part of this model, so what is proved of a call that adds rows is
    proved under the condition that the call returns. *)
Definition add (i : faiss_index) (embeddings : list vec) : faiss_index :=
  {| kind := kind i; rows := rows i ++ embeddings |}.

(** The builder.  [model_calls] counts the calls of [model.encode] made so
    far; it is what lets the embedding model answer differently from one
    call to the next. *)
Record t := {
  embedding_model_name : list N;
  embedding_dim : Z;
  model_loaded : bool;
  model_calls : nat;
  index : option faiss_index;
  metadata : list (gmap (list N) Py.value)
}.

(** [IndexBuilder.__init__] *)
Definition init (embedding_model : list N) (embedding_dim : Z) : t :=
  {| embedding_model_name := embedding_model; embedding_dim := embedding_dim;
     model_loaded := false; model_calls := 0;
     index := None; metadata := [] |}.

Definition set_index (self : t) (i : option faiss_index) : t :=
  {| embedding_model_name := embedding_model_name self;
     embedding_dim := embedding_dim self;
     model_loaded := model_loaded self; model_calls := model_calls self;
     index := i; metadata := metadata self |}.

Definition set_metadata (self : t) (md : list (gmap (list N) Py.value)) : t :=
  {| embedding_model_name := embedding_model_name self;
     embedding_dim := embedding_dim self;
     model_loaded := model_loaded self; model_calls := model_calls self;
     index := index self; metadata := md |}.

(** [load_embedding_model], followed by [calls] calls of [model.encode]. *)
Definition used_model (self : t) (calls : nat) : t :=
  {| embedding_model_name := embedding_model_name self;
     embedding_dim := embedding_dim self;
     model_loaded := true; model_calls := (model_calls self + calls)%nat;
     index := index self; metadata := metadata self |}.

Section WithModel.

(** The external embedding model: [encode n text] is the vector that the
    [n]-th call of [model.encode] returns for [text]. *)
Variable encode : nat -> list N -> vec.

(** Whether [index.train] of an IVF index with [nlist] clusters succeeds on
    the given vectors. *)
Variable ivf_train : Z -> list vec -> bool.

(** [embed_documents]: one call of [model.encode] per batch of 256, then
    [np.vstack], which raises ValueError on an empty list of batches.  The
    two clock readings are not modelled: the final log line divides by the
    elapsed time and raises ZeroDivisionError when both readings are equal,
    after the embeddings were computed and before they are returned.  [Ok]
    here is therefore the result of the runs in which the clock advanced;
    the properties of a call that embeds documents are stated for a call
    that returns. *)
Definition embed_documents (self : t) (documents : list (list N))
  : Py.result (list vec) * t :=
  let batch_size := 256%nat in
  let embeddings :=
    imap (fun i d => encode (model_calls self + i / batch_size)%nat d) documents in
  let self' := used_model self ((length documents + batch_size - 1) / batch_size)%nat in
  match documents with
  | [] => (Py.Raise (Py.ValueError (py "need at least one array to concatenate")), self')
  | _ => (Py.Ok embeddings, self')
  end.

(** [embed_query] *)
Definition embed_query (self : t) (query : list N) : vec * t :=
  (encode (model_calls self) query, used_model self 1).

(** [build_index] *)
Definition build_index (self : t) (documents : list (list N))
    (metadata : list (gmap (list N) Py.value)) (use_ivf : bool) (nlist : Z)
  : Py.result unit * t :=
  if negb (Py.len documents =? Py.len metadata) then
    (Py.Raise (Py.ValueError
       (py "Document count (" ++ Py.str_of_int (Py.len documents)
        ++ py ") != metadata count (" ++ Py.str_of_int (Py.len metadata) ++ py ")")),
     self)
  else
    match embed_documents self documents with
    | (Py.Raise e, self1) => (Py.Raise e, self1)
    | (Py.Ok embeddings, self1) =>
        if use_ivf && (10000 <? Py.len documents) then
          let empty := {| kind := IndexIVFFlat nlist (Z.min 10 nlist); rows := [] |} in
          let self2 := set_index self1 (Some {| kind := IndexIVFFlat nlist 1; rows := [] |}) in
          if ivf_train nlist embeddings then
            (Py.Ok tt, set_metadata (set_index self1 (Some (add empty embeddings))) metadata)
          else
            (Py.Raise (Py.RuntimeError (py "Error in training")), self2)
        else
          let empty := {| kind := IndexFlatIP; rows := [] |} in
          (Py.Ok tt, set_metadata (set_index self1 (Some (add empty embeddings))) metadata)
    end.

(** [add_documents] *)
Definition add_documents (self : t) (documents : list (list N))
    (metadata : list (gmap (list N) Py.value)) : Py.result unit * t :=
  match index self with
  | None => build_index self documents metadata false 100
  | Some idx =>
      match embed_documents self documents with
      | (Py.Raise e, self1) => (Py.Raise e, self1)
      | (Py.Ok embeddings, self1) =>
          (Py.Ok tt,
           set_metadata (set_index self1 (Some (add idx embeddings)))
             (IndexBuilder.metadata self1 ++ metadata))
      end
  end.

End WithModel.

(** [save]: the two artifacts that are written, or ValueError without an
    index. *)
Definition save (self : t)
  : Py.result (faiss_index * list (gmap (list N) Py.value)) :=
  match index self with
  | None => Py.Raise (Py.ValueError (py "No index to save. Call build_index() first."))
  | Some idx => Py.Ok (idx, metadata self)
  end.

(** The [except] clauses of [load], in their order. *)
Definition load_failed (self : t) (e : Py.exn) : bool * t :=
  match e with
  | Py.FileNotFoundError => (false, self)
  | Py.JSONDecodeError => (false, set_metadata (set_index self None) [])
  | Py.PermissionError => (false, self)
  | _ => (false, set_metadata (set_index self None) [])
  end.

(** [load]: [index_file] is what [faiss.read_index(index_path)] does and
    [metadata_file] what opening and parsing [metadata_path] does; the
    second is attempted only after the first succeeded and was stored. *)
Definition load (self : t) (index_file : Py.result faiss_index)
    (metadata_file : Py.result (list (gmap (list N) Py.value))) : bool * t :=
  match index_file with
  | Py.Raise e => load_failed self e
  | Py.Ok idx =>
      let self1 := set_index self (Some idx) in
      match metadata_file with
      | Py.Raise e => load_failed self1 e
      | Py.Ok md => (true, set_metadata self1 md)
      end
  end.

(** [is_ready] *)
Definition is_ready (self : t) : bool :=
  match index self with
  | Some idx => 0 <? ntotal idx
  | None => false
  end.

(** The parallel-array invariant: as many rows as metadata records. *)
Definition in_sync (self : t) : Prop :=
  match index self with
  | Some idx => ntotal idx = Py.len (metadata self)
  | None => True
  end.

(** [document_count] *)
Definition document_count (self : t) : Z :=
  match index self with
  | Some idx => ntotal idx
  | None => 0
  end.

End IndexBuilder.

(** ** A [dict] in insertion order *)

Module Dict.

Section Dict.

Context {V : Type}.

Fixpoint get (d : list (list N * V)) (key : list N) : option V :=
  match d with
  | [] => None
  | (k, v) :: d' => if bool_decide (k = key) then Some v else get d' key
  end.

(** [key in d] *)
Definition contains (d : list (list N * V)) (key : list N) : bool :=
  match get d key with Some _ => true | None => false end.

(** [d[key] = v]: an existing key keeps its position, a new key goes last. *)
Fixpoint set (d : list (list N * V)) (key : list N) (v : V) : list (list N * V) :=
  match d with
  | [] => [(key, v)]
  | (k, v') :: d' =>
      if bool_decide (k = key) then (k, v) :: d' else (k, v') :: set d' key v
  end.

(** [del d[key]] *)
Fixpoint del (d : list (list N * V)) (key : list N) : list (list N * V) :=
  match d with
  | [] => []
  | (k, v) :: d' => if bool_decide (k = key) then d' else (k, v) :: del d' key
  end.

(** [next(iter(d))] *)
Definition first_key (d : list (list N * V)) : option (list N) :=
  match d with
  | [] => None
  | (k, _) :: _ => Some k
  end.

End Dict.

End Dict.

(** ** retriever.py *)

Module Retriever.

Record RetrievalResult := {
  score : Q;
  content : list N;
  metadata : gmap (list N) Py.value
}.

(** [RetrievalMetrics] without its wall-clock fields ([retrieval_time_ms],
    [timestamp]). *)
Record RetrievalMetrics := {
  query : list N;
  num_results : Z;
  top_score : Q;
  avg_score : Q
}.

(** The retriever's own fields; the [IndexBuilder] it refers to is shared
    with the pipeline and is passed to each method. *)
Record t := {
  retrieval_k : Z;
  max_context_chars : Z;
  _query_cache : list (list N * IndexBuilder.vec);
  metrics_history : list RetrievalMetrics
}.

(** [Retriever.__init__] with its defaults. *)
Definition init (retrieval_k max_context_chars : Z) : t :=
  {| retrieval_k := retrieval_k; max_context_chars := max_context_chars;
     _query_cache := []; metrics_history := [] |}.

Definition default : t := init 4 3000.

Definition set_cache (self : t) (c : list (list N * IndexBuilder.vec)) : t :=
  {| retrieval_k := retrieval_k self; max_context_chars := max_context_chars self;
     _query_cache := c; metrics_history := metrics_history self |}.

Definition add_metrics (self : t) (m : RetrievalMetrics) : t :=
  {| retrieval_k := retrieval_k self; max_context_chars := max_context_chars self;
     _query_cache := _query_cache self;
     metrics_history := metrics_history self ++ [m] |}.

(** [clear_cache] *)
Definition clear_cache (self : t) : t := set_cache self [].

(** [k or self.retrieval_k] *)
Definition resolve_k (self : t) (k : option Z) : Z :=
  match k with
  | Some k' => if k' =? 0 then retrieval_k self else k'
  | None => retrieval_k self
  end.

(** Truthiness of [filters]: neither [None] nor empty. *)
Definition truthy_filters (filters : option (gmap (list N) Py.value)) : bool :=
  match filters with
  | Some f => negb (bool_decide (map_to_list f = []))
  | None => false
  end.

(** [k * 3 if filters else k] *)
Definition search_k (k : Z) (filters : option (gmap (list N) Py.value)) : Z :=
  if truthy_filters filters then k * 3 else k.

(** [all(metadata.get(key) == value for key, value in filters.items())] *)
Definition matches (md : gmap (list N) Py.value)
    (filters : option (gmap (list N) Py.value)) : bool :=
  match filters with
  | Some f => forallb (fun kv => Py.eq (Py.get md (fst kv)) (snd kv)) (map_to_list f)
  | None => true
  end.

(** [metadata.get("content", f"[Record: {metadata.get('document_id', idx)}]")],
    then sliced; slicing anything but a string raises TypeError. *)
Definition content_of (md : gmap (list N) Py.value) (idx : Z) : Py.result (list N) :=
  let fallback :=
    py "[Record: " ++ Py.str_of (Py.get_default md (py "document_id") (Py.VInt idx))
    ++ py "]" in
  match Py.get_default md (py "content") (Py.VStr fallback) with
  | Py.VStr s => Py.Ok s
  | _ => Py.Raise Py.TypeError
  end.

(** [score < min_score] *)
Definition Qltb (x y : Q) : bool := negb (Qle_bool y x).

(** The [for idx, score in zip(indices[0], distances[0])] loop. *)
Fixpoint collect (self : t) (store : list (gmap (list N) Py.value))
    (filters : option (gmap (list N) Py.value)) (min_score : Q) (k : Z)
    (candidates : list (Z * Q)) (results : list RetrievalResult)
  : Py.result (list RetrievalResult) :=
  match candidates with
  | [] => Py.Ok results
  | (idx, score) :: rest =>
      if idx =? -1 then collect self store filters min_score k rest results
      else if Qltb score min_score then collect self store filters min_score k rest results
      else
        match Py.index store idx with
        | None => Py.Raise Py.IndexError
        | Some md =>
            if truthy_filters filters && negb (matches md filters)
            then collect self store filters min_score k rest results
            else
              let* content := content_of md idx in
              let results' :=
                results ++ [{| score := score;
                               content := Py.slice content 0 (max_context_chars self);
                               metadata := md |}] in
              if k <=? Py.len results' then Py.Ok results'
              else collect self store filters min_score k rest results'
        end
  end.

Definition Qsum (l : list Q) : Q := fold_left Qplus l 0%Q.

(** The metrics recorded for a finished retrieval. *)
Definition metrics_of (query : list N) (results : list RetrievalResult)
  : RetrievalMetrics :=
  {| query := Py.slice query 0 100;
     num_results := Py.len results;
     top_score := match results with r :: _ => score r | [] => 0%Q end;
     avg_score := match results with
                  | _ :: _ => (Qsum (score <$> results) / inject_Z (Py.len results))%Q
                  | [] => 0%Q
                  end |}.

Section WithIndex.

Variable encode : nat -> list N -> IndexBuilder.vec.

(** [index.search(query_embedding, search_k)] of the FAISS index: the
    [(row, score)] slots for the query, or an exception. *)
Variable search :
  IndexBuilder.faiss_index -> IndexBuilder.vec -> Z -> Py.result (list (Z * Q)).

(** [_embed_query] *)
Definition _embed_query (ib : IndexBuilder.t) (self : t) (query : list N)
  : Py.result IndexBuilder.vec * (IndexBuilder.t * t) :=
  match TextProcessor.compute_hash query with
  | Py.Raise e => (Py.Raise e, (ib, self))
  | Py.Ok cache_key =>
      let '(ib', self') :=
        if negb (Dict.contains (_query_cache self) cache_key) then
          let '(embedding, ib') := IndexBuilder.embed_query encode ib query in
          let cache := Dict.set (_query_cache self) cache_key embedding in
          let cache' :=
            if 1000 <? Py.len cache then
              match Dict.first_key cache with
              | Some oldest_key => Dict.del cache oldest_key
              | None => cache
              end
            else cache in
          (ib', set_cache self cache')
        else (ib, self) in
      match Dict.get (_query_cache self') cache_key with
      | Some v => (Py.Ok v, (ib', self'))
      | None => (Py.Raise Py.KeyError, (ib', self'))
      end
  end.

(** [retrieve] *)
Definition retrieve (ib : IndexBuilder.t) (self : t) (query : list N)
    (k : option Z) (filters : option (gmap (list N) Py.value)) (min_score : Q)
  : Py.result (list RetrievalResult) * (IndexBuilder.t * t) :=
  let k := resolve_k self k in
  if negb (IndexBuilder.is_ready ib) then (Py.Ok [], (ib, self))
  else
    match _embed_query ib self query with
    | (Py.Raise e, st) => (Py.Raise e, st)
    | (Py.Ok query_embedding, (ib', self')) =>
        match IndexBuilder.index ib' with
        | None => (Py.Raise Py.AttributeError, (ib', self'))
        | Some idx =>
            match search idx query_embedding (search_k k filters) with
            | Py.Raise e => (Py.Raise e, (ib', self'))
            | Py.Ok candidates =>
                match collect self' (IndexBuilder.metadata ib') filters min_score k
                        candidates [] with
                | Py.Raise e => (Py.Raise e, (ib', self'))
                | Py.Ok results =>
                    (Py.Ok results, (ib', add_metrics self' (metrics_of query results)))
                end
            end
        end
    end.

(** The retriever states that calls of its methods can produce from a
    freshly constructed retriever. *)
Inductive reachable : t -> Prop :=
| reachable_init (retrieval_k max_context_chars : Z) :
    reachable (init retrieval_k max_context_chars)
| reachable_embed_query ib self query res ib' self' :
    reachable self ->
    _embed_query ib self query = (res, (ib', self')) ->
    reachable self'
| reachable_retrieve ib self query k filters min_score res ib' self' :
    reachable self ->
    retrieve ib self query k filters min_score = (res, (ib', self')) ->
    reachable self'
| reachable_clear_cache self :
    reachable self ->
    reachable (clear_cache self).

End WithIndex.

(** Exact inner-product search, as [IndexFlatIP] performs it: every row is
    scored against the query, the [k] best are returned in descending order
    of score and missing slots hold the row -1.  It serves as the search
    capability in the examples. *)
Fixpoint dot (a b : list Q) : Q :=
  match a, b with
  | x :: a', y :: b' => (x * y + dot a' b')%Q
  | _, _ => 0%Q
  end.

Fixpoint insert_desc (c : Z * Q) (l : list (Z * Q)) : list (Z * Q) :=
  match l with
  | [] => [c]
  | c' :: l' => if Qltb (snd c') (snd c) then c :: l else c' :: insert_desc c l'
  end.

Definition sort_desc (l : list (Z * Q)) : list (Z * Q) :=
  fold_right insert_desc [] l.

Definition flat_search (idx : IndexBuilder.faiss_index) (q : IndexBuilder.vec) (k : Z)
  : Py.result (list (Z * Q)) :=
  if k <=? 0 then Py.Raise Py.AssertionError
  else
    let scored := imap (fun i row => (Z.of_nat i, dot row q)) (IndexBuilder.rows idx) in
    let best := take (Z.to_nat k) (sort_desc scored) in
    Py.Ok (best ++ replicate (Z.to_nat k - length best) (-1, (-(2 ^ 127))%Q)).

End Retriever.

(** ** llm_gateway.py *)

Module LLMGateway.

Record LLMResponse := {
  content : list N;
  model : list N;
  usage : option (Z * Z * Z);
  latency_ms : Q;
  success : bool;
  error : option (list N)
}.

(** What one call of [client.chat.completions.create] does: it raises, or
    it returns the contents of its choices, the token usage (prompt,
    completion, total) and the measured latency. *)
Inductive api_outcome :=
| ApiRaise (e : Py.exn)
| ApiResponse (choices : list (option (list N))) (usage : option (Z * Z * Z))
    (latency_ms : Q).

Record request := {
  req_model : list N;
  system_prompt : list N;
  user_prompt : list N;
  req_max_tokens : Z;
  temperature : Q
}.

(** The gateway.  [api_calls] counts the API calls made and [slept] lists
    the arguments of the back-off [time.sleep(2 ** attempt)] of the [except]
    clause, oldest first.  [rate_limiter.wait_if_needed()], which may call
    [time.sleep] before an API call, depends on the wall clock and is not
    modelled: [slept] holds the back-off sleeps only, not every sleep of a
    call of [generate]. *)
Record t := {
  api_key : option (list N);
  gw_model : list N;
  max_tokens : Z;
  client : bool;
  api_calls : nat;
  slept : list Z
}.

(** [LLMGateway.__init__] with [_initialize_client]; [portkey_ok] tells
    whether importing and constructing the Portkey client succeeds. *)
Definition init (api_key : option (list N)) (model : list N) (max_tokens : Z)
    (portkey_ok : bool) : t :=
  {| api_key := api_key; gw_model := model; max_tokens := max_tokens;
     client := match api_key with
               | Some (_ :: _) => portkey_ok
               | _ => false
               end;
     api_calls := 0; slept := [] |}.

Definition called (self : t) : t :=
  {| api_key := api_key self; gw_model := gw_model self; max_tokens := max_tokens self;
     client := client self; api_calls := S (api_calls self); slept := slept self |}.

Definition sleep (self : t) (seconds : Z) : t :=
  {| api_key := api_key self; gw_model := gw_model self; max_tokens := max_tokens self;
     client := client self; api_calls := api_calls self;
     slept := slept self ++ [seconds] |}.

Definition failure (self : t) (msg : list N) : LLMResponse :=
  {| content := []; model := gw_model self; usage := None; latency_ms := 0%Q;
     success := false; error := Some msg |}.

(** The body of the [try] after the API call returned or raised: a response
    without choices raises ValueError, a missing content becomes [""]. *)
Definition attempt_result (self : t) (o : api_outcome) : LLMResponse + Py.exn :=
  match o with
  | ApiRaise e => inr e
  | ApiResponse [] _ _ => inr (Py.ValueError (py "No choices in response"))
  | ApiResponse (c :: _) u l =>
      inl {| content := default [] c; model := gw_model self; usage := u;
             latency_ms := l; success := true; error := None |}
  end.

(** An attempt fails when the API call raises or returns no choice. *)
Definition fails (o : api_outcome) : Prop :=
  match o with
  | ApiRaise _ => True
  | ApiResponse [] _ _ => True
  | ApiResponse (_ :: _) _ _ => False
  end.

(** The sleeps of [n] failed attempts that are retried, the first of them
    being [attempt]: 2 ** attempt each. *)
Definition backoff (attempt : Z) (n : nat) : list Z :=
  (fun i => 2 ^ (attempt + Z.of_nat i)) <$> seq 0 n.

Section WithApi.

(** The external API: the outcome of its [n]-th call for a request. *)
Variable api : nat -> request -> api_outcome.

(** The [for attempt in range(max_retries)] loop from [attempt] on, with
    [remaining] iterations left.  The wait of the rate limiter at the head
    of each iteration is not modelled (see [t]): the loop is followed
    through its API calls, their outcomes and its back-off sleeps. *)
Fixpoint attempts (remaining : nat) (attempt max_retries : Z) (self : t)
    (req : request) : LLMResponse * t :=
  match remaining with
  | O => (failure self (py "No retry attempts configured"), self)
  | S remaining' =>
      let outcome := api (api_calls self) req in
      let self1 := called self in
      match attempt_result self1 outcome with
      | inl response => (response, self1)
      | inr e =>
          if attempt <? max_retries - 1
          then attempts remaining' (attempt + 1) max_retries (sleep self1 (2 ^ attempt)) req
          else (failure self1
                  (py "LLM call failed after " ++ Py.str_of_int max_retries
                   ++ py " attempts: " ++ Py.str_of_exn e),
                self1)
      end
  end.

(** [generate]; [max_tokens] is [None] or an int, [max_retries] defaults
    to 3. *)
Definition generate (self : t) (system_prompt user_prompt : list N)
    (max_tokens : option Z) (temperature : Q) (max_retries : Z)
  : LLMResponse * t :=
  if negb (client self) then
    (failure self (py "LLM client not initialized. Check API key."), self)
  else
    let max_tokens :=
      match max_tokens with
      | Some m => if m =? 0 then LLMGateway.max_tokens self else m
      | None => LLMGateway.max_tokens self
      end in
    attempts (Z.to_nat max_retries) 0 max_retries self
      {| req_model := gw_model self; system_prompt := system_prompt;
         user_prompt := user_prompt; req_max_tokens := max_tokens;
         temperature := temperature |}.

End WithApi.

Definition default_max_retries : Z := 3.
Definition default_temperature : Q := (7 # 10)%Q.

(** [SYSTEM_PROMPTS] *)
Definition SYSTEM_PROMPTS : list (list N * list N) :=
  [(py "default", py "You are a helpful research assistant for studying documents.
You help users understand and analyze the content of their uploaded documents.

When answering:
1. Use ONLY the provided CONTEXT to answer
2. Cite specific documents and quote relevant passages
3. If context is insufficient, clearly state what's missing
4. Be precise and avoid speculation
5. If the documents don't contain relevant information, say so");
   (py "summary", py "Summarize the key information from the provided context.
Focus on main themes, important details, and relevant patterns.
Cite specific documents when possible.");
   (py "analysis", py "Provide a detailed analysis of the information in the context.
Look for patterns, connections, and significant insights.
Support your analysis with specific references to the documents.")].

End LLMGateway.

(** ** pipeline.py *)

Module RAGPipeline.

Record citation := {
  cit_index : Z;
  cit_document_id : Py.value;
  cit_filename : Py.value;
  cit_chunk : list N;
  cit_score : Q
}.

(** The [llm_response] dict of a [RAGResponse]: [{}],
    [{"content": ..., "success": ...}], or [LLMResponse.to_dict()]. *)
Inductive llm_dict :=
| EmptyDict
| ContentSuccess (content : list N) (success : bool)
| OfResponse (r : LLMGateway.LLMResponse).

Record RAGResponse := {
  answer : list N;
  citations : list citation;
  sources : list Retriever.RetrievalResult;
  llm_response : llm_dict;
  success : bool;
  error : option (list N)
}.

(** [ProcessedDocument] of text_processor.py, as [process_file] returns it. *)
Record ProcessedDocument := {
  source_type : list N;
  document_id : list N;
  filename : list N;
  chunks : list (list N);
  doc_metadata : gmap (list N) Py.value
}.

(** [TextProcessor.prepare_for_indexing] for one document: each chunk is
    prefixed with its provenance tag, and the caller's metadata overrides
    the generated keys. *)
Definition prepare_for_indexing (doc : ProcessedDocument)
  : list (list N) * list (gmap (list N) Py.value) :=
  let texts :=
    (fun chunk => py "[" ++ source_type doc ++ py ":" ++ document_id doc ++ py "]"
                  ++ [10%N; 10%N] ++ chunk) <$> chunks doc in
  let metas :=
    imap (fun chunk_idx text =>
            doc_metadata doc ∪
            list_to_map
              [(py "source_type", Py.VStr (source_type doc));
               (py "document_id", Py.VStr (document_id doc));
               (py "filename", Py.VStr (filename doc));
               (py "chunk_idx", Py.VInt (Z.of_nat chunk_idx));
               (py "total_chunks", Py.VInt (Py.len (chunks doc)));
               (py "content", Py.VStr text)])
         texts in
  (texts, metas).

(** What is on disk under the two configured paths. *)
Record files := {
  index_exists : bool;
  metadata_exists : bool;
  index_file : Py.result IndexBuilder.faiss_index;
  metadata_file : Py.result (list (gmap (list N) Py.value))
}.

Record t := {
  text_processor : TextProcessor.t;
  index_builder : IndexBuilder.t;
  retriever : Retriever.t;
  llm_gateway : LLMGateway.t;
  has_paths : bool;
  _is_initialized : bool
}.

Definition with_index (self : t) (ib : IndexBuilder.t) (initialized : bool) : t :=
  {| text_processor := text_processor self; index_builder := ib;
     retriever := retriever self; llm_gateway := llm_gateway self;
     has_paths := has_paths self; _is_initialized := initialized |}.

Definition with_query_state (self : t) (ib : IndexBuilder.t) (r : Retriever.t)
    (gw : LLMGateway.t) : t :=
  {| text_processor := text_processor self; index_builder := ib;
     retriever := r; llm_gateway := gw;
     has_paths := has_paths self; _is_initialized := _is_initialized self |}.

(** [load_index] *)
Definition load_index (self : t) (fs : files) : bool * t :=
  if has_paths self && index_exists fs && metadata_exists fs then
    let '(ok, ib) := IndexBuilder.load (index_builder self) (index_file fs) (metadata_file fs) in
    (ok, with_index self ib (if ok then true else _is_initialized self))
  else (false, self).

(** [RAGPipeline.__init__]: [has_paths] tells that both paths are given. *)
Definition init (embedding_model : list N) (embedding_dim : Z)
    (llm_api_key : option (list N)) (llm_model : list N) (llm_max_tokens : Z)
    (chunk_size chunk_overlap retrieval_k max_context_chars : Z)
    (has_paths : bool) (portkey_ok : bool) (fs : files) : t :=
  let self :=
    {| text_processor := {| TextProcessor.chunk_size := chunk_size;
                            TextProcessor.chunk_overlap := chunk_overlap |};
       index_builder := IndexBuilder.init embedding_model embedding_dim;
       retriever := Retriever.init retrieval_k max_context_chars;
       llm_gateway := LLMGateway.init llm_api_key llm_model llm_max_tokens portkey_ok;
       has_paths := has_paths;
       _is_initialized := false |} in
  if has_paths then snd (load_index self fs) else self.

(** [round(score, 3)], as the decimal it stands for: the multiple of 1/1000
    nearest to the score, ties to even.  Python returns the double nearest
    to that decimal; scores are rationals here, and the step from the
    decimal to the double is not modelled.  Nothing below depends on the
    distance between a score and its rounding. *)
Definition round_half_even (q : Q) : Z :=
  let n := Qnum q in
  let d := Zpos (Qden q) in
  let f := n / d in
  let r := n mod d in
  if 2 * r <? d then f
  else if d <? 2 * r then f + 1
  else if Z.even f then f else f + 1.

Definition round3 (q : Q) : Q := (round_half_even (q * 1000) # 1000)%Q.

(** [str.join] *)
Fixpoint join (sep : list N) (l : list (list N)) : list N :=
  match l with
  | [] => []
  | [x] => x
  | x :: l' => x ++ sep ++ join sep l'
  end.

(** [Retriever.get_context_block] with [include_scores=False], the only way
    the pipeline calls it. *)
Definition get_context_block (results : list Retriever.RetrievalResult) : list N :=
  join (py "

---

")
    (imap (fun i result =>
             py "[" ++ Py.str_of_int (Z.of_nat i + 1) ++ py "] Document: "
             ++ Py.str_of (Py.get_default (Retriever.metadata result) (py "filename")
                             (Py.VStr (py "Unknown")))
             ++ [10%N] ++ Retriever.content result)
          results).

(** [Retriever.get_citations]; adding 1 to a [chunk_idx] that is not a
    number raises TypeError. *)
Fixpoint get_citations_from (i : Z) (results : list Retriever.RetrievalResult)
  : Py.result (list citation) :=
  match results with
  | [] => Py.Ok []
  | result :: rest =>
      let meta := Retriever.metadata result in
      match Py.num (Py.get_default meta (py "chunk_idx") (Py.VInt 0)) with
      | None => Py.Raise Py.TypeError
      | Some chunk_idx =>
          let c :=
            {| cit_index := i;
               cit_document_id := Py.get_default meta (py "document_id") (Py.VStr (py "N/A"));
               cit_filename := Py.get_default meta (py "filename") (Py.VStr (py "Unknown"));
               cit_chunk := Py.str_of_int (chunk_idx + 1) ++ py "/"
                            ++ Py.str_of (Py.get_default meta (py "total_chunks") (Py.VInt 1));
               cit_score := round3 (Retriever.score result) |} in
          let* cs := get_citations_from (i + 1) rest in
          Py.Ok (c :: cs)
      end
  end.

Definition get_citations (results : list Retriever.RetrievalResult)
  : Py.result (list citation) :=
  get_citations_from 1 results.

Section WithCollaborators.

Variable encode : nat -> list N -> IndexBuilder.vec.
Variable ivf_train : Z -> list IndexBuilder.vec -> bool.
Variable search :
  IndexBuilder.faiss_index -> IndexBuilder.vec -> Z -> Py.result (list (Z * Q)).
Variable api : nat -> LLMGateway.request -> LLMGateway.api_outcome.

(** [process_and_index_file] from the document that
    [DocumentProcessor.process_file] returned; the result is the number of
    chunks.  The call of [save_index()] that follows the update, and which
    raises when an artifact cannot be written, is not modelled: [Ok] here is
    the result of the runs in which the artifacts were written, and a raise
    is one of [add_documents].  What the errors of [add_documents] leave out
    (see [IndexBuilder.add] and [IndexBuilder.embed_documents]) is left out
    here as well. *)
Definition process_and_index_file (self : t) (processed_doc : ProcessedDocument)
  : Py.result Z * t :=
  let '(chunks, chunk_metadata) := prepare_for_indexing processed_doc in
  match IndexBuilder.add_documents encode ivf_train (index_builder self)
          chunks chunk_metadata with
  | (Py.Raise e, ib) => (Py.Raise e, with_index self ib (_is_initialized self))
  | (Py.Ok _, ib) => (Py.Ok (Py.len (RAGPipeline.chunks processed_doc)), with_index self ib true)
  end.

(** [query] *)
Definition query (self : t) (question : list N) (k : option Z)
    (filters : option (gmap (list N) Py.value)) (system_prompt_key : list N)
  : Py.result RAGResponse * t :=
  if negb (_is_initialized self) then
    (Py.Ok {| answer := py "No documents have been indexed yet. Please upload some documents first.";
              citations := []; sources := []; llm_response := EmptyDict;
              success := false;
              error := Some (py "Pipeline not initialized - no documents indexed") |},
     self)
  else
    match Retriever.retrieve encode search (index_builder self) (retriever self)
            question k filters 0%Q with
    | (Py.Raise e, (ib, r)) =>
        (Py.Ok {| answer := []; citations := []; sources := [];
                  llm_response := EmptyDict; success := false;
                  error := Some (py "Retrieval failed: " ++ Py.str_of_exn e) |},
         with_query_state self ib r (llm_gateway self))
    | (Py.Ok [], (ib, r)) =>
        (Py.Ok {| answer := py "No relevant information found in the indexed documents for your query.";
                  citations := []; sources := [];
                  llm_response := ContentSuccess [] true;
                  success := true; error := None |},
         with_query_state self ib r (llm_gateway self))
    | (Py.Ok results, (ib, r)) =>
        let context_block := get_context_block results in
        match get_citations results with
        | Py.Raise e => (Py.Raise e, with_query_state self ib r (llm_gateway self))
        | Py.Ok citations =>
            let system_prompt :=
              default (default [] (Dict.get LLMGateway.SYSTEM_PROMPTS (py "default")))
                (Dict.get LLMGateway.SYSTEM_PROMPTS system_prompt_key) in
            let user_prompt :=
              py "QUESTION: " ++ question ++ [10%N; 10%N]
              ++ py "CONTEXT:" ++ [10%N] ++ context_block ++ [10%N; 10%N]
              ++ py "Provide a comprehensive answer based on the context above. "
              ++ py "Reference specific documents when possible." in
            let '(llm, gw) :=
              LLMGateway.generate api (llm_gateway self) system_prompt user_prompt None
                LLMGateway.default_temperature LLMGateway.default_max_retries in
            (Py.Ok {| answer := LLMGateway.content llm;
                      citations := citations; sources := results;
                      llm_response := OfResponse llm;
                      success := LLMGateway.success llm;
                      error := LLMGateway.error llm |},
             with_query_state self ib r gw)
        end
    end.

End WithCollaborators.

(** [is_ready] *)
Definition is_ready (self : t) : bool :=
  _is_initialized self && IndexBuilder.is_ready (index_builder self).

(** [document_count] *)
Definition document_count (self : t) : Z :=
  IndexBuilder.document_count (index_builder self).

End RAGPipeline.

(** ** text_processor.py: preparing several documents *)

Module Indexing.

(** [TextProcessor.prepare_for_indexing] for a list of documents: the texts
    and records of each document, one document after the other. *)
Fixpoint prepare_for_indexing (documents : list RAGPipeline.ProcessedDocument)
  : list (list N) * list (gmap (list N) Py.value) :=
  match documents with
  | [] => ([], [])
  | doc :: rest =>
      let '(texts, metas) := RAGPipeline.prepare_for_indexing doc in
      let '(all_chunks, all_metadata) := prepare_for_indexing rest in
      (texts ++ all_chunks, metas ++ all_metadata)
  end.

(** The tag that every indexed text starts with. *)
Definition tag (doc : RAGPipeline.ProcessedDocument) : list N :=
  py "[" ++ RAGPipeline.source_type doc ++ py ":" ++ RAGPipeline.document_id doc
  ++ py "]" ++ [10%N; 10%N].

End Indexing.

(** ** retriever.py: when citations can be built *)

Module Citing.

(** The [chunk_idx] of a result can be incremented: it is absent or a
    number. *)
Definition numeric_chunk_idx (r : Retriever.RetrievalResult) : Prop :=
  Py.num (Py.get_default (Retriever.metadata r) (py "chunk_idx") (Py.VInt 0)) <> None.

End Citing.

(** ** retriever.py: what one candidate contributes *)

Module Candidates.

(** The result that one round of the loop of [retrieve] appends for the
    candidate [(idx, score)] when no filter is in force.  There is none for
    the sentinel row -1 and for a score below [min_score], which are
    skipped, nor for a row without a record and for a record whose content
    is not a string, on which the loop raises. *)
Definition result_of (self : Retriever.t) (store : list (gmap (list N) Py.value))
    (min_score : Q) (c : Z * Q) : option Retriever.RetrievalResult :=
  let '(idx, score) := c in
  if idx =? -1 then None
  else if Retriever.Qltb score min_score then None
  else
    match Py.index store idx with
    | None => None
    | Some md =>
        match Retriever.content_of md idx with
        | Py.Raise _ => None
        | Py.Ok content =>
            Some {| Retriever.score := score;
                    Retriever.content :=
                      Py.slice content 0 (Retriever.max_context_chars self);
                    Retriever.metadata := md |}
        end
    end.

End Candidates.

(** ** Sample data for the examples *)

Module Demo.

(** An embedding model that answers every text with the same unit vector. *)
Definition encode (n : nat) (text : list N) : IndexBuilder.vec := [1; 0]%Q.

(** An embedding model whose answer changes from one call to the next. *)
Definition drifting_encode (n : nat) (text : list N) : IndexBuilder.vec :=
  [inject_Z (Z.of_nat n)].

Definition record (document_id content : string) : gmap (list N) Py.value :=
  <[py "document_id" := Py.VStr (py document_id)]>
    (<[py "content" := Py.VStr (py content)]> ∅).

(** Five indexed chunks, three of document X and two of document Y. *)
Definition builder : IndexBuilder.t :=
  {| IndexBuilder.embedding_model_name := py "all-MiniLM-L6-v2";
     IndexBuilder.embedding_dim := 2;
     IndexBuilder.model_loaded := false;
     IndexBuilder.model_calls := 0;
     IndexBuilder.index :=
       Some {| IndexBuilder.kind := IndexBuilder.IndexFlatIP;
               IndexBuilder.rows :=
                 [[1; 0]; [3 # 4; 0]; [1 # 2; 0]; [1 # 4; 0]; [0; 1]]%Q |};
     IndexBuilder.metadata :=
       [record "X" "alpha"; record "Y" "beta"; record "X" "gamma";
        record "Y" "delta"; record "X" "epsilon"] |}.

Definition only_X : gmap (list N) Py.value :=
  <[py "document_id" := Py.VStr (py "X")]> ∅.

(** An API whose every call raises. *)
Definition failing_api (n : nat) (req : LLMGateway.request) : LLMGateway.api_outcome :=
  LLMGateway.ApiRaise (Py.RuntimeError (py "upstream unavailable")).

Definition no_files : RAGPipeline.files :=
  {| RAGPipeline.index_exists := false; RAGPipeline.metadata_exists := false;
     RAGPipeline.index_file := Py.Raise Py.FileNotFoundError;
     RAGPipeline.metadata_file := Py.Raise Py.FileNotFoundError |}.

(** A pipeline constructed with the defaults of main.py's configuration and
    nothing to restore. *)
Definition fresh_pipeline : RAGPipeline.t :=
  RAGPipeline.init (py "sentence-transformers/all-MiniLM-L6-v2") 384
    (Some (py "key")) (py "gemini-2.5-flash-lite") 512 512 128 4 3000
    true true no_files.

(** A processed two-chunk document with metadata of its own. *)
Definition document : RAGPipeline.ProcessedDocument :=
  {| RAGPipeline.source_type := py "uploaded_document";
     RAGPipeline.document_id := py "1a2b3c4d";
     RAGPipeline.filename := py "report.txt";
     RAGPipeline.chunks := [py "first chunk"; py "second chunk"];
     RAGPipeline.doc_metadata :=
       <[py "file_type" := Py.VStr (py "txt")]> (<[py "char_count" := Py.VInt 24]> ∅) |}.

(** A pipeline that is initialized and holds the five sample chunks. *)
Definition ready_pipeline : RAGPipeline.t :=
  RAGPipeline.with_index fresh_pipeline builder true.

(** An index file without vectors and an empty metadata file. *)
Definition empty_files : RAGPipeline.files :=
  {| RAGPipeline.index_exists := true; RAGPipeline.metadata_exists := true;
     RAGPipeline.index_file :=
       Py.Ok {| IndexBuilder.kind := IndexBuilder.IndexFlatIP; IndexBuilder.rows := [] |};
     RAGPipeline.metadata_file := Py.Ok [] |}.

(** A pipeline restored from those files: initialized, yet with nothing to
    search. *)
Definition restored_empty_pipeline : RAGPipeline.t :=
  RAGPipeline.init (py "sentence-transformers/all-MiniLM-L6-v2") 384
    (Some (py "key")) (py "gemini-2.5-flash-lite") 512 512 128 4 3000
    true true empty_files.

(** An API that answers every call. *)
Definition answering_api (n : nat) (req : LLMGateway.request) : LLMGateway.api_outcome :=
  LLMGateway.ApiResponse [Some (py "the answer")] (Some (10, 5, 15)) (120 # 1)%Q.

End Demo.

(** * Properties *)

(** ** Facts about the Python primitives *)

Section PyFacts.

Lemma len_nonneg {A} (s : list A) : 0 <= Py.len s.
Proof. unfold Py.len. lia. Qed.

Lemma len_app {A} (s1 s2 : list A) : Py.len (s1 ++ s2) = Py.len s1 + Py.len s2.
Proof. unfold Py.len. rewrite length_app. lia. Qed.

Lemma adjust_range (n i : Z) : 0 <= n -> 0 <= Py.adjust n i <= n.
Proof.
  intros Hn. unfold Py.adjust.
  destruct (Z.ltb_spec i 0); lia.
Qed.

Lemma len_slice {A} (s : list A) (a b : Z) :
  Py.len (Py.slice s a b)
  = Z.max 0 (Py.adjust (Py.len s) b - Py.adjust (Py.len s) a).
Proof.
  pose proof (adjust_range (Py.len s) a (len_nonneg s)) as Ha.
  pose proof (adjust_range (Py.len s) b (len_nonneg s)) as Hb.
  unfold Py.slice, Py.len in *. rewrite length_take, length_drop. lia.
Qed.

Lemma len_slice_prefix {A} (s : list A) (n : Z) :
  0 <= n <= Py.len s -> Py.len (Py.slice s 0 n) = n.
Proof.
  intros Hn. rewrite len_slice. unfold Py.adjust.
  destruct (Z.ltb_spec n 0); destruct (Z.ltb_spec 0 0); lia.
Qed.

Lemma len_lstrip (s : list N) : Py.len (Py.lstrip s) <= Py.len s.
Proof.
  induction s as [|c s IH]; simpl; [lia|].
  destruct (Py.isspace c); unfold Py.len in *; simpl; lia.
Qed.

Lemma len_strip (s : list N) : Py.len (Py.strip s) <= Py.len s.
Proof.
  unfold Py.strip, Py.rstrip.
  pose proof (len_lstrip s) as H1.
  pose proof (len_lstrip (rev (Py.lstrip s))) as H2.
  unfold Py.len in *. rewrite length_rev in *. lia.
Qed.

(** What [lstrip] removes is whitespace, and what is left does not start
    with whitespace. *)
Lemma lstrip_spec (s : list N) :
  exists pre, s = pre ++ Py.lstrip s
    /\ forallb Py.isspace pre = true
    /\ (forall c, head (Py.lstrip s) = Some c -> Py.isspace c = false).
Proof.
  induction s as [|c s (pre & Hs & Hpre & Hhd)]; simpl.
  - exists []. split; [reflexivity|]. split; [reflexivity|]. discriminate.
  - destruct (Py.isspace c) eqn:Hc.
    + exists (c :: pre). simpl. rewrite Hc, Hpre.
      split; [f_equal; exact Hs|]. split; [reflexivity|exact Hhd].
    + exists []. split; [reflexivity|]. split; [reflexivity|].
      intros c' [= <-]. exact Hc.
Qed.

Lemma last_rev_head {A} (l : list A) : last (rev l) = head l.
Proof. destruct l as [|x l]; [reflexivity|]. simpl. apply last_snoc. Qed.

(** [strip] removes a whitespace prefix and a whitespace suffix, and the
    result neither starts nor ends with whitespace. *)
Lemma strip_spec (s : list N) :
  exists pre post, s = pre ++ Py.strip s ++ post
    /\ forallb Py.isspace pre = true /\ forallb Py.isspace post = true
    /\ (forall c, head (Py.strip s) = Some c -> Py.isspace c = false)
    /\ (forall c, last (Py.strip s) = Some c -> Py.isspace c = false).
Proof.
  destruct (lstrip_spec s) as (pre & Hs & Hpre & Hhd).
  destruct (lstrip_spec (rev (Py.lstrip s))) as (tl & Hr & Htl & Hlast).
  exists pre, (rev tl). unfold Py.strip, Py.rstrip.
  assert (Hl : Py.lstrip s = rev (Py.lstrip (rev (Py.lstrip s))) ++ rev tl).
  { rewrite <- rev_app_distr, <- Hr, rev_involutive. reflexivity. }
  split; [|split; [|split; [|split]]].
  - rewrite <- Hl. exact Hs.
  - exact Hpre.
  - rewrite forallb_forall in *. intros c Hc. apply Htl.
    apply in_rev. exact Hc.
  - intros c Hc. destruct (Py.lstrip (rev (Py.lstrip s))) as [|x l] eqn:E.
    + discriminate.
    + apply Hhd. rewrite Hl. simpl in *.
      destruct (rev l) as [|y l']; simpl in *; exact Hc.
  - intros c Hc. apply Hlast. rewrite last_rev_head in Hc. exact Hc.
Qed.

(** *** [rfind] returns the last occurrence *)

Lemma startswith_length (sub s : list N) :
  Py.startswith sub s = true -> (length sub <= length s)%nat.
Proof.
  revert s. induction sub as [|a sub IH]; intros [|b s]; simpl; intros H;
    try lia; try discriminate.
  apply andb_true_iff in H as [_ H]. apply IH in H. lia.
Qed.

Lemma rfind_from_spec (sub s : list N) (i : Z) :
  0 <= i ->
  (Py.rfind_from sub s i = -1
   /\ forall j, (j <= length s)%nat -> Py.startswith sub (drop j s) = false)
  \/ (exists j, (j <= length s)%nat
        /\ Py.rfind_from sub s i = i + Z.of_nat j
        /\ Py.startswith sub (drop j s) = true
        /\ forall j', (j < j' <= length s)%nat ->
              Py.startswith sub (drop j' s) = false).
Proof.
  revert i. induction s as [|c s IH]; intros i Hi.
  - simpl. destruct (Py.startswith sub []) eqn:E.
    + right. exists 0%nat. simpl. rewrite E.
      repeat split; [lia | lia | intros; lia].
    + left. split; [reflexivity|]. intros j Hj. simpl in Hj.
      replace j with 0%nat by lia. exact E.
  - cbn [Py.rfind_from].
    destruct (IH (i + 1) ltac:(lia)) as [[Hr Hno] | (j & Hj & Hr & Hyes & Hno)].
    + rewrite Hr. change (0 <=? -1) with false. cbv iota.
      destruct (Py.startswith sub (c :: s)) eqn:E.
      * right. exists 0%nat. simpl. rewrite E.
        repeat split; [lia | lia |]. intros j' Hj'.
        destruct j' as [|j']; [lia|]. simpl. apply Hno. lia.
      * left. split; [reflexivity|]. intros [|j] Hj; simpl in *; [exact E|].
        apply Hno. lia.
    + rewrite Hr. destruct (Z.leb_spec 0 (i + 1 + Z.of_nat j)); [|lia].
      right. exists (S j). simpl. repeat split; [lia | lia | exact Hyes |].
      intros j' Hj'. destruct j' as [|j']; [lia|]. simpl. apply Hno. lia.
Qed.

Lemma rfind_ge (s sub : list N) : -1 <= Py.rfind s sub.
Proof.
  unfold Py.rfind.
  destruct (rfind_from_spec sub s 0 ltac:(lia)) as [[-> _] | (j & _ & -> & _)]; lia.
Qed.

(** A non-negative result is the last occurrence, and it fits. *)
Lemma rfind_found (s sub : list N) (p : Z) :
  Py.rfind s sub = p -> 0 <= p ->
  Py.occurs_at s sub p
  /\ (forall q, p < q -> ~ Py.occurs_at s sub q)
  /\ p + Py.len sub <= Py.len s.
Proof.
  unfold Py.rfind, Py.occurs_at, Py.len. intros Hp Hp0.
  destruct (rfind_from_spec sub s 0 ltac:(lia)) as [[Hr _] | (j & Hj & Hr & Hyes & Hno)];
    [lia|].
  assert (p = Z.of_nat j) as -> by lia. rewrite Nat2Z.id.
  repeat split; [lia | lia | exact Hyes | |].
  - intros q Hq [Hq' Hs]. rewrite (Hno (Z.to_nat q)) in Hs; [discriminate | lia].
  - apply startswith_length in Hyes. rewrite length_drop in Hyes. lia.
Qed.

(** A negative result is -1 and means that there is no occurrence. *)
Lemma rfind_not_found (s sub : list N) :
  Py.rfind s sub < 0 ->
  Py.rfind s sub = -1 /\ forall q, ~ Py.occurs_at s sub q.
Proof.
  unfold Py.rfind, Py.occurs_at, Py.len. intros Hp.
  destruct (rfind_from_spec sub s 0 ltac:(lia)) as [[Hr Hno] | (j & Hj & Hr & _)];
    [|lia].
  split; [exact Hr|]. intros q [Hq Hs].
  rewrite (Hno (Z.to_nat q)) in Hs; [discriminate | lia].
Qed.

End PyFacts.

(** ** The chunker *)

Section Chunker.

Import TextProcessor.

Example chunk_text_demo :
  chunk_text 10 {| chunk_size := 12; chunk_overlap := 2 |}
    (py "aaaaaaa. b! cdddddd")
  = Some [py "aaaaaaa."; py "a. b! cddddd"; py "ddd"].
Proof. vm_compute. reflexivity. Qed.


(** *** Short texts (the early return) *)

(** C6: a text no longer than [chunk_size] is returned as the single chunk
    [strip T], or as the empty list when [strip T] is empty; the loop is not
    entered, so the result does not depend on the fuel. *)
Theorem chunk_text_short (self : t) (T : list N) (fuel : nat) :
  Py.len T <= chunk_size self ->
  chunk_text fuel self T
  = Some (if Py.truthy (Py.strip T) then [Py.strip T] else []).
Proof.
  intros HT. unfold chunk_text.
  pose proof (len_strip T) as Hs.
  destruct (Z.leb_spec (Py.len (Py.strip T)) (chunk_size self)) as [_|Hgt]; [|lia].
  reflexivity.
Qed.

Lemma chunk_text_short_witness :
  Py.len (py "  Hello Wor ") <= chunk_size default
  /\ chunk_text 0 default (py "  Hello Wor ") = Some [py "Hello Wor"].
Proof.
  assert (H : Py.len (py "  Hello Wor ") <= chunk_size default)
    by (vm_compute; discriminate).
  split; [exact H|].
  exact (chunk_text_short default (py "  Hello Wor ") 0 H).
Defined.

Example chunk_text_blank :
  chunk_text 0 default (py "   ") = Some [].
Proof. reflexivity. Qed.

(** *** The boundary search *)

Lemma break_at_boundary_first (cs : Z) (chunk : list N) (pre post : list (list N))
    (m : list N) :
  cs < 2 * Py.rfind chunk m ->
  (forall m', m' ∈ pre -> 2 * Py.rfind chunk m' <= cs) ->
  break_at_boundary cs chunk (pre ++ m :: post)
  = Some (Py.slice chunk 0 (Py.rfind chunk m + 1)).
Proof.
  intros Hm. induction pre as [|m0 pre IH]; intros Hpre; simpl.
  - destruct (Z.ltb_spec cs (2 * Py.rfind chunk m)); [reflexivity|lia].
  - pose proof (Hpre m0 ltac:(left)) as H0.
    destruct (Z.ltb_spec cs (2 * Py.rfind chunk m0)); [lia|].
    apply IH. intros m' Hm'. apply Hpre. right. exact Hm'.
Qed.

Lemma break_at_boundary_none (cs : Z) (chunk : list N) (puncts : list (list N)) :
  (forall m, m ∈ puncts -> 2 * Py.rfind chunk m <= cs) ->
  break_at_boundary cs chunk puncts = None.
Proof.
  induction puncts as [|m puncts IH]; intros H; simpl; [reflexivity|].
  pose proof (H m ltac:(left)) as H0.
  destruct (Z.ltb_spec cs (2 * Py.rfind chunk m)); [lia|].
  apply IH. intros m' Hm'. apply H. right. exact Hm'.
Qed.

Lemma len_cut (chunk m : list N) :
  0 < Py.len m ->
  Py.len (Py.slice chunk 0 (Py.rfind chunk m + 1)) = Py.rfind chunk m + 1.
Proof.
  intros Hm. apply len_slice_prefix. pose proof (rfind_ge chunk m) as Hge.
  destruct (Z.eq_dec (Py.rfind chunk m) (-1)) as [E|E].
  - rewrite E. pose proof (len_nonneg chunk). lia.
  - destruct (rfind_found chunk m _ eq_refl ltac:(lia)) as (_ & _ & Hfit). lia.
Qed.

(** A cut made by the boundary search keeps [p + 1] characters, where [p] is
    the last occurrence of the marker that was chosen. *)
Lemma break_at_boundary_Some (cs : Z) (chunk chunk' : list N)
    (puncts : list (list N)) :
  Forall (fun m => 0 < Py.len m) puncts ->
  break_at_boundary cs chunk puncts = Some chunk' ->
  exists m, m ∈ puncts /\ cs < 2 * Py.rfind chunk m
    /\ chunk' = Py.slice chunk 0 (Py.rfind chunk m + 1)
    /\ Py.len chunk' = Py.rfind chunk m + 1.
Proof.
  induction puncts as [|m puncts IH]; intros Hne; simpl; [discriminate|].
  inversion Hne as [|? ? Hm Hrest]; subst.
  destruct (Z.ltb_spec cs (2 * Py.rfind chunk m)) as [Hlt|Hge].
  - intros [= <-]. exists m. split; [left|]. split; [exact Hlt|].
    split; [reflexivity|]. apply len_cut. exact Hm.
  - intros H. destruct (IH Hrest H) as (m' & Hin & Hrest').
    exists m'. split; [right; exact Hin | exact Hrest'].
Qed.

Lemma boundary_markers_nonempty : Forall (fun m => 0 < Py.len m) boundary_markers.
Proof. repeat constructor. Qed.

(** C3 (as the code does it): for a window that ends before the end of the
    text, the markers are tried in the order [". "], ["! "], ["? "], ["\n"];
    the first marker whose last occurrence [p] in the window lies strictly
    beyond half of [chunk_size] cuts the window just after the first
    character of that occurrence, so [end] becomes [start + p + 1]; when no
    marker has its last occurrence beyond half of [chunk_size] the window
    keeps its full length. *)
Theorem window_boundary (self : t) (text : list N) (start : Z) :
  start + chunk_size self < Py.len text ->
  let chunk := Py.slice text start (start + chunk_size self) in
  (forall pre m post,
      boundary_markers = pre ++ m :: post ->
      chunk_size self < 2 * Py.rfind chunk m ->
      (forall m', m' ∈ pre -> 2 * Py.rfind chunk m' <= chunk_size self) ->
      window self text start
      = (Py.slice chunk 0 (Py.rfind chunk m + 1), start + (Py.rfind chunk m + 1)))
  /\ ((forall m, m ∈ boundary_markers -> 2 * Py.rfind chunk m <= chunk_size self) ->
      window self text start = (chunk, start + chunk_size self)).
Proof.
  intros Hend chunk. unfold window. fold chunk.
  destruct (Z.ltb_spec (start + chunk_size self) (Py.len text)) as [_|]; [|lia].
  split.
  - intros pre m post Hsplit Hm Hpre.
    pose proof (break_at_boundary_first _ chunk pre post m Hm Hpre) as Hb.
    rewrite <- Hsplit in Hb. rewrite Hb. rewrite len_cut; [reflexivity|].
    pose proof boundary_markers_nonempty as Hne. rewrite Hsplit in Hne.
    apply Forall_app in Hne as [_ Hne]. inversion Hne; assumption.
  - intros Hnone. rewrite (break_at_boundary_none _ chunk _ Hnone). reflexivity.
Qed.

Lemma window_boundary_witness :
  window {| chunk_size := 12; chunk_overlap := 2 |} (py "aaaaaaa. b! cdddddd") 0
  = (py "aaaaaaa.", 8).
Proof.
  refine (proj1 (window_boundary {| chunk_size := 12; chunk_overlap := 2 |}
                   (py "aaaaaaa. b! cdddddd") 0 _)
            [] (py ". ") [py "! "; py "? "; [10%N]] _ _ _).
  - vm_compute. reflexivity.
  - reflexivity.
  - vm_compute. reflexivity.
  - intros m' Hm'. inversion Hm'.
Defined.

(** C3 (as the specification words it) fails: in the window
    ["aaaaaaa. b! "] of size 12 the last marker is ["! "] at index 10, beyond
    the half, yet the code cuts after the earlier [". "] at index 7, because
    [". "] is tried first. *)
Lemma window_not_last_marker :
  let self := {| chunk_size := 12; chunk_overlap := 2 |} in
  let text := py "aaaaaaa. b! cdddddd" in
  chunk_size self < Py.len text
  /\ last_marker (Py.slice text 0 12) = (10, py "! ")
  /\ claimed_window self text 0 = (py "aaaaaaa. b! ", 12)
  /\ window self text 0 = (py "aaaaaaa.", 8)
  /\ window self text 0 <> claimed_window self text 0.
Proof. vm_compute. repeat split; discriminate. Qed.

(** The threshold is strict: a marker exactly at half of [chunk_size] does
    not cut the window. *)
Example window_marker_at_half :
  window {| chunk_size := 12; chunk_overlap := 2 |} (py "aaaaaa. bbbbbbbbbbb") 0
  = (py "aaaaaa. bbbb", 12).
Proof. vm_compute. reflexivity. Qed.

(** *** Termination of the sliding-window loop *)

Lemma chunk_loop_step (fuel : nat) (self : t) (text : list N) (start : Z)
    (chunks : list (list N)) :
  chunk_loop (S fuel) self text start chunks
  = if start <? Py.len text then
      let '(chunk, end_) := window self text start in
      let chunks' :=
        if Py.truthy (Py.strip chunk) then chunks ++ [Py.strip chunk] else chunks in
      if Py.len text <=? end_ then Some chunks'
      else chunk_loop fuel self text (end_ - chunk_overlap self) chunks'
    else Some chunks.
Proof. reflexivity. Qed.

(** With [overlap < chunk_size] and [2 * overlap < chunk_size + 3] the next
    [start] is strictly beyond the current one, with or without a cut. *)
Lemma window_advance (self : t) (text : list N) (start : Z) :
  chunk_overlap self < chunk_size self ->
  2 * chunk_overlap self < chunk_size self + 3 ->
  start < snd (window self text start) - chunk_overlap self.
Proof.
  intros H1 H2. unfold window.
  destruct (start + chunk_size self <? Py.len text); [|simpl; lia].
  destruct (break_at_boundary _ _ boundary_markers) as [chunk'|] eqn:Hb; [|simpl; lia].
  destruct (break_at_boundary_Some _ _ _ _ boundary_markers_nonempty Hb)
    as (m & _ & Hm & _ & Hlen).
  simpl. lia.
Qed.

Lemma chunk_loop_terminates (self : t) (text : list N) :
  chunk_overlap self < chunk_size self ->
  2 * chunk_overlap self < chunk_size self + 3 ->
  forall (fuel : nat) (start : Z) (chunks : list (list N)),
    (Z.to_nat (Py.len text - start) < fuel)%nat ->
    exists r, chunk_loop fuel self text start chunks = Some r.
Proof.
  intros H1 H2. induction fuel as [|fuel IH]; intros start chunks Hfuel; [lia|].
  rewrite chunk_loop_step.
  destruct (Z.ltb_spec start (Py.len text)) as [Hlt|Hge]; [|eauto].
  pose proof (window_advance self text start H1 H2) as Hadv.
  destruct (window self text start) as [chunk end_]. simpl in Hadv.
  destruct (Py.len text <=? end_); [eauto|].
  apply IH. lia.
Qed.

(** Where the loop does advance: when [overlap < chunk_size] and
    [2 * overlap < chunk_size + 3] (the default 512/128 among them),
    [chunk_text] returns for every text; one more unit of fuel than the
    stripped text has characters is enough. *)
Theorem chunk_text_terminates (self : t) (text : list N) (fuel : nat) :
  chunk_overlap self < chunk_size self ->
  2 * chunk_overlap self < chunk_size self + 3 ->
  (length (Py.strip text) < fuel)%nat ->
  exists chunks, chunk_text fuel self text = Some chunks.
Proof.
  intros H1 H2 Hfuel. unfold chunk_text.
  destruct (Py.len (Py.strip text) <=? chunk_size self); [eauto|].
  apply chunk_loop_terminates; [exact H1 | exact H2 |].
  unfold Py.len. lia.
Qed.

Lemma chunk_text_terminates_witness :
  exists chunks,
    chunk_text 20 {| chunk_size := 12; chunk_overlap := 2 |}
      (py "aaaaaaa. b! cdddddd") = Some chunks.
Proof.
  apply (chunk_text_terminates {| chunk_size := 12; chunk_overlap := 2 |}
           (py "aaaaaaa. b! cdddddd") 20).
  - vm_compute. reflexivity.
  - vm_compute. reflexivity.
  - vm_compute. lia.
Defined.

(** The default configuration, 512 / 128, is covered. *)
Corollary chunk_text_default_terminates (text : list N) :
  exists chunks, chunk_text (S (length text)) default text = Some chunks.
Proof.
  unfold chunk_text.
  destruct (Py.len (Py.strip text) <=? chunk_size default); [eauto|].
  apply chunk_loop_terminates; [reflexivity | reflexivity |].
  pose proof (len_strip text). unfold Py.len in *. lia.
Qed.

Lemma chunk_loop_stuck (fuel : nat) (chunks : list (list N)) :
  chunk_loop fuel {| chunk_size := 4; chunk_overlap := 4 |} (py "abcdefgh") 0 chunks
  = None.
Proof.
  revert chunks. induction fuel as [|fuel IH]; intros chunks; [reflexivity|].
  rewrite chunk_loop_step.
  change (window _ (py "abcdefgh") 0) with (py "abcd", 4).
  change (0 <? Py.len (py "abcdefgh")) with true.
  change (Py.len (py "abcdefgh") <=? 4) with false.
  cbv iota beta. apply IH.
Qed.

(** Nothing clamps the overlap: with [overlap = chunk_size = 4] the text
    ["abcdefgh"] sends [start] back to 0 after every window, so no amount of
    fuel lets [chunk_text] return. *)
Lemma chunk_text_diverges :
  ~ exists (fuel : nat) (chunks : list (list N)),
      chunk_text fuel {| chunk_size := 4; chunk_overlap := 4 |} (py "abcdefgh")
      = Some chunks.
Proof.
  intros (fuel & chunks & H).
  change (chunk_text fuel {| chunk_size := 4; chunk_overlap := 4 |} (py "abcdefgh"))
    with (chunk_loop fuel {| chunk_size := 4; chunk_overlap := 4 |} (py "abcdefgh") 0 [])
    in H.
  rewrite chunk_loop_stuck in H. discriminate.
Qed.

Lemma chunk_loop_stuck_cut (fuel : nat) (chunks : list (list N)) :
  chunk_loop fuel {| chunk_size := 10; chunk_overlap := 7 |}
    (py "aaaaaa. bbbbbbbbbbb") 0 chunks
  = None.
Proof.
  revert chunks. induction fuel as [|fuel IH]; intros chunks; [reflexivity|].
  rewrite chunk_loop_step.
  change (window _ (py "aaaaaa. bbbbbbbbbbb") 0) with (py "aaaaaa.", 7).
  change (0 <? Py.len (py "aaaaaa. bbbbbbbbbbb")) with true.
  change (Py.len (py "aaaaaa. bbbbbbbbbbb") <=? 7) with false.
  cbv iota beta. apply IH.
Qed.

(** C4 at the input on which the code breaks it: [chunk_text] does not
    return for every configuration, not even for one with
    [overlap < chunk_size].  With [chunk_size = 10] and [overlap = 7] the
    window of ["aaaaaa. bbbbbbbbbbb"] at [start = 0] is cut behind the full
    stop, at [end = 7]; the next start is [end - overlap = 0] again, and the
    loop repeats that window for ever: no amount of fuel lets [chunk_text]
    return. *)
Lemma chunk_text_diverges_after_cut :
  ~ exists (fuel : nat) (chunks : list (list N)),
      chunk_text fuel {| chunk_size := 10; chunk_overlap := 7 |}
        (py "aaaaaa. bbbbbbbbbbb") = Some chunks.
Proof.
  intros (fuel & chunks & H).
  change (chunk_text fuel {| chunk_size := 10; chunk_overlap := 7 |}
            (py "aaaaaa. bbbbbbbbbbb"))
    with (chunk_loop fuel {| chunk_size := 10; chunk_overlap := 7 |}
            (py "aaaaaa. bbbbbbbbbbb") 0 [])
    in H.
  rewrite chunk_loop_stuck_cut in H. discriminate.
Qed.

End Chunker.

(** ** The vector index *)

Section Index.

Import IndexBuilder.

Variable encode : nat -> list N -> vec.
Variable ivf_train : Z -> list vec -> bool.

Lemma embed_documents_length (self self' : t) (documents : list (list N))
    (embeddings : list vec) :
  embed_documents encode self documents = (Py.Ok embeddings, self') ->
  length embeddings = length documents
  /\ index self' = index self /\ metadata self' = metadata self.
Proof.
  intros H.
  assert (embeddings
          = imap (fun i d => encode (model_calls self + i / 256)%nat d) documents
          /\ self' = used_model self ((length documents + 256 - 1) / 256)%nat)
    as [-> ->].
  { unfold embed_documents in H. destruct documents; [discriminate|].
    injection H as <- <-. split; reflexivity. }
  rewrite length_imap. repeat split.
Qed.

(** A mismatch of the two counts makes [build_index] raise ValueError and
    leaves the builder as it was. *)
Lemma build_index_mismatch (self : t) (documents : list (list N))
    (md : list (gmap (list N) Py.value)) (use_ivf : bool) (nlist : Z) :
  length documents <> length md ->
  exists msg,
    build_index encode ivf_train self documents md use_ivf nlist
    = (Py.Raise (Py.ValueError msg), self).
Proof.
  intros Hne. unfold build_index.
  destruct (Z.eqb_spec (Py.len documents) (Py.len md)) as [E|_].
  - unfold Py.len in E. lia.
  - simpl. eauto.
Qed.

(** A successful [build_index] stores one row per document, in document
    order, next to exactly the given metadata. *)
Lemma build_index_sync (self self' : t) (documents : list (list N))
    (md : list (gmap (list N) Py.value)) (use_ivf : bool) (nlist : Z) :
  build_index encode ivf_train self documents md use_ivf nlist = (Py.Ok tt, self') ->
  exists idx,
    index self' = Some idx
    /\ metadata self' = md
    /\ ntotal idx = Py.len md
    /\ rows idx = imap (fun i d => encode (model_calls self + i / 256)%nat d) documents.
Proof.
  unfold build_index.
  destruct (Z.eqb_spec (Py.len documents) (Py.len md)) as [E|_]; [|discriminate].
  simpl negb. cbv iota.
  destruct (embed_documents encode self documents) as [[embeddings|e] self1] eqn:Hemb;
    [|discriminate].
  destruct (embed_documents_length _ _ _ _ Hemb) as (Hlen & _ & _).
  assert (Hrows : embeddings
                  = imap (fun i d => encode (model_calls self + i / 256)%nat d) documents).
  { unfold embed_documents in Hemb. destruct documents; [discriminate|].
    injection Hemb as <- _. reflexivity. }
  assert (Hn : Py.len embeddings = Py.len md) by (unfold Py.len in *; lia).
  destruct (use_ivf && (10000 <? Py.len documents)).
  - destruct (ivf_train nlist embeddings); [|discriminate].
    intros [= <-]. eexists. simpl. repeat split; [exact Hn | exact Hrows].
  - intros [= <-]. eexists. simpl. repeat split; [exact Hn | exact Hrows].
Qed.

(** [add_documents] keeps the invariant when the two lists it is given have
    the same length. *)
Lemma add_documents_sync (self self' : t) (documents : list (list N))
    (md : list (gmap (list N) Py.value)) :
  in_sync self ->
  length documents = length md ->
  add_documents encode ivf_train self documents md = (Py.Ok tt, self') ->
  in_sync self'.
Proof.
  unfold in_sync, add_documents. intros Hsync Hlen.
  destruct (index self) as [idx|] eqn:Hidx.
  - destruct (embed_documents encode self documents) as [[embeddings|e] self1] eqn:Hemb;
      [|discriminate].
    destruct (embed_documents_length _ _ _ _ Hemb) as (Hl & _ & Hmd).
    intros [= <-]. simpl. unfold ntotal, add, Py.len in *. simpl.
    rewrite Hmd, !length_app. lia.
  - intros H. destruct (build_index_sync _ _ _ _ _ _ H) as (idx & -> & -> & Hn & _).
    exact Hn.
Qed.

(** C2 at the input on which the code breaks it: with an index already
    built, [add_documents] does not compare the two counts; two documents
    with one metadata record are accepted, and the index then holds three
    rows against two metadata records. *)
Theorem add_documents_mismatch_desync (m0 m1 : gmap (list N) Py.value) :
  let built := snd (build_index encode ivf_train (init (py "model") 384)
                      [py "first"] [m0] false 100) in
  exists self',
    add_documents encode ivf_train built [py "second"; py "third"] [m1]
    = (Py.Ok tt, self')
    /\ document_count self' = 3
    /\ Py.len (metadata self') = 2
    /\ ~ in_sync self'.
Proof.
  eexists. split; [reflexivity|]. unfold in_sync. simpl.
  repeat split. unfold ntotal, Py.len. simpl. lia.
Qed.

(** *** Restoring from disk *)

(** A failed restore returns [False]. *)
Lemma load_failure_false (self : t) (index_file : Py.result faiss_index)
    (metadata_file : Py.result (list (gmap (list N) Py.value))) :
  (forall idx md, ~ (index_file = Py.Ok idx /\ metadata_file = Py.Ok md)) ->
  fst (load self index_file metadata_file) = false.
Proof.
  intros Hfail. unfold load, load_failed.
  destruct index_file as [idx|e]; [destruct metadata_file as [md|e]|].
  - exfalso. apply (Hfail idx md). split; reflexivity.
  - destruct e; reflexivity.
  - destruct e; reflexivity.
Qed.

(** Corrupted metadata, or any error other than a missing file or a denied
    permission, resets the builder: it is not ready and counts no document. *)
Lemma load_failed_resets (self : t) (e : Py.exn) :
  e <> Py.FileNotFoundError -> e <> Py.PermissionError ->
  let self' := snd (load_failed self e) in
  index self' = None /\ metadata self' = []
  /\ is_ready self' = false /\ document_count self' = 0.
Proof. intros H1 H2. destruct e; try congruence; repeat split. Qed.

Lemma load_corrupted_metadata (self : t) (idx : faiss_index) :
  let '(ok, self') := load self (Py.Ok idx) (Py.Raise Py.JSONDecodeError) in
  ok = false /\ is_ready self' = false /\ document_count self' = 0
  /\ metadata self' = [].
Proof. repeat split. Qed.

(** C1 at the input on which the code breaks it: the index file is read,
    then opening the metadata file raises FileNotFoundError (or
    PermissionError); [load] returns [False] but keeps the index it has just
    read, so the builder reports ready, with three documents and no
    metadata. *)
Theorem load_missing_metadata_keeps_index :
  let idx := {| kind := IndexFlatIP;
                rows := [[1; 0; 0]; [0; 1; 0]; [0; 0; 1]]%Q |} in
  Forall
    (fun e =>
       let '(ok, self') := load (init (py "model") 3) (Py.Ok idx) (Py.Raise e) in
       ok = false
       /\ index self' = Some idx
       /\ metadata self' = []
       /\ is_ready self' = true
       /\ document_count self' = 3)
    [Py.FileNotFoundError; Py.PermissionError].
Proof. repeat constructor. Qed.

End Index.

(** ** The query cache *)

Section DictFacts.

Context {V : Type}.
Implicit Types (d : list (list N * V)) (key : list N) (v : V).

Lemma dict_set_absent d key v :
  Dict.get d key = None -> Dict.set d key v = d ++ [(key, v)].
Proof.
  induction d as [|[k v'] d IH]; simpl; [reflexivity|].
  destruct (bool_decide (k = key)); [discriminate|].
  intros H. rewrite (IH H). reflexivity.
Qed.

Lemma dict_get_snoc d key v :
  Dict.get d key = None -> Dict.get (d ++ [(key, v)]) key = Some v.
Proof.
  induction d as [|[k v'] d IH]; simpl.
  - intros _. rewrite bool_decide_eq_true_2; reflexivity.
  - destruct (bool_decide (k = key)); [discriminate|exact IH].
Qed.

Lemma dict_contains_get d key :
  Dict.contains d key = true -> exists v, Dict.get d key = Some v.
Proof. unfold Dict.contains. destruct (Dict.get d key); [eauto|discriminate]. Qed.

(** Deleting the first key of a dictionary removes its oldest entry. *)
Lemma dict_del_first d k v :
  Dict.del ((k, v) :: d) k = d.
Proof. simpl. rewrite bool_decide_eq_true_2; reflexivity. Qed.

End DictFacts.

Section QueryCache.

Import Retriever.

Variable encode : nat -> list N -> IndexBuilder.vec.
Variable search :
  IndexBuilder.faiss_index -> IndexBuilder.vec -> Z -> Py.result (list (Z * Q)).

(** The hash is the MD5 hex digest cut to 12 digits. *)
Example compute_hash_demo :
  TextProcessor.compute_hash (py "what is the budget?") = Py.Ok (py "a7dcd1fbccf3").
Proof. vm_compute. reflexivity. Qed.

Example md5_abc :
  Hashlib.hexdigest (Hashlib.md5_digest [97; 98; 99])
  = py "900150983cd24fb0d6963f7d28e17f72".
Proof. vm_compute. reflexivity. Qed.

Lemma compute_hash_encodable (q : list N) (bytes : list Z) :
  Hashlib.encode q = Some bytes ->
  exists key, TextProcessor.compute_hash q = Py.Ok key.
Proof. intros H. unfold TextProcessor.compute_hash. rewrite H. eauto. Qed.

(** A miss stores the new vector last and, at capacity, drops the first
    entry; the stored vector is then found under the key. *)
Lemma cache_after_miss (cache : list (list N * IndexBuilder.vec)) (key : list N)
    (v : IndexBuilder.vec) :
  Py.len cache <= 1000 ->
  Dict.get cache key = None ->
  let cache1 := Dict.set cache key v in
  let cache2 :=
    if 1000 <? Py.len cache1 then
      match Dict.first_key cache1 with
      | Some oldest_key => Dict.del cache1 oldest_key
      | None => cache1
      end
    else cache1 in
  cache2 = (if Py.len cache <? 1000 then cache else tail cache) ++ [(key, v)]
  /\ Dict.get cache2 key = Some v
  /\ Py.len cache2 <= 1000.
Proof.
  intros Hlen Habs. cbv zeta. rewrite (dict_set_absent _ _ _ Habs).
  rewrite len_app. change (Py.len [(key, v)]) with 1.
  destruct (Z.ltb_spec 1000 (Py.len cache + 1)) as [Hfull|Hroom].
  - destruct (Z.ltb_spec (Py.len cache) 1000) as [|_]; [lia|].
    destruct cache as [|[k0 v0] tl].
    + unfold Py.len in Hfull. simpl in Hfull. lia.
    + cbn [app Dict.first_key tail]. rewrite dict_del_first.
      simpl in Habs. destruct (bool_decide (k0 = key)); [discriminate|].
      split; [reflexivity|]. split; [apply dict_get_snoc; exact Habs|].
      unfold Py.len in *. rewrite length_app. simpl in *. lia.
  - destruct (Z.ltb_spec (Py.len cache) 1000) as [_|]; [|lia].
    split; [reflexivity|]. split; [apply dict_get_snoc; exact Habs|].
    rewrite len_app. change (Py.len [(key, v)]) with 1. lia.
Qed.

(** C8: for a query that encodes to UTF-8 and a cache within its bound,
    [_embed_query] returns a vector; on a hit nothing changes and the model
    is not called; on a miss the model is called once and its vector is
    stored last under the hash of the query, the oldest entry being dropped
    when the cache already held 1000 entries; the cache holds at most 1000
    entries afterwards; and asking again for the same query returns the same
    vector without calling the model and without changing any state. *)
Theorem embed_query_cached (ib : IndexBuilder.t) (self : t) (q : list N)
    (bytes : list Z) :
  Hashlib.encode q = Some bytes ->
  Py.len (_query_cache self) <= 1000 ->
  exists key v ib1 self1,
    TextProcessor.compute_hash q = Py.Ok key
    /\ _embed_query encode ib self q = (Py.Ok v, (ib1, self1))
    /\ Dict.get (_query_cache self1) key = Some v
    /\ (if Dict.contains (_query_cache self) key
        then ib1 = ib /\ self1 = self
        else v = encode (IndexBuilder.model_calls ib) q
             /\ IndexBuilder.model_calls ib1 = S (IndexBuilder.model_calls ib)
             /\ _query_cache self1
                = (if Py.len (_query_cache self) <? 1000
                   then _query_cache self else tail (_query_cache self))
                  ++ [(key, v)])
    /\ Py.len (_query_cache self1) <= 1000
    /\ _embed_query encode ib1 self1 q = (Py.Ok v, (ib1, self1)).
Proof.
  intros Henc Hlen.
  destruct (compute_hash_encodable q bytes Henc) as (key & Hkey).
  unfold _embed_query. rewrite Hkey. exists key.
  assert (Hhit : forall ib0 self0 v0,
             Dict.get (_query_cache self0) key = Some v0 ->
             (let '(ib', self') :=
                if negb (Dict.contains (_query_cache self0) key) then
                  let '(embedding, ib') := IndexBuilder.embed_query encode ib0 q in
                  let cache := Dict.set (_query_cache self0) key embedding in
                  let cache' :=
                    if 1000 <? Py.len cache then
                      match Dict.first_key cache with
                      | Some oldest_key => Dict.del cache oldest_key
                      | None => cache
                      end
                    else cache in
                  (ib', set_cache self0 cache')
                else (ib0, self0) in
              match Dict.get (_query_cache self') key with
              | Some v => (Py.Ok v, (ib', self'))
              | None => (Py.Raise Py.KeyError, (ib', self'))
              end) = (Py.Ok v0, (ib0, self0))).
  { intros ib0 self0 v0 Hget. unfold Dict.contains. rewrite Hget. simpl.
    rewrite Hget. reflexivity. }
  destruct (Dict.contains (_query_cache self) key) eqn:Hc.
  - destruct (dict_contains_get _ _ Hc) as (v & Hget).
    exists v, ib, self. simpl. rewrite Hget.
    repeat split; try assumption. apply Hhit. exact Hget.
  - assert (Habs : Dict.get (_query_cache self) key = None).
    { unfold Dict.contains in Hc. destruct (Dict.get _ key); [discriminate|reflexivity]. }
    pose proof (cache_after_miss (_query_cache self) key
                  (encode (IndexBuilder.model_calls ib) q) Hlen Habs) as Hmiss.
    cbv zeta in Hmiss. destruct Hmiss as (Hcache & Hget & Hbound).
    exists (encode (IndexBuilder.model_calls ib) q), (IndexBuilder.used_model ib 1).
    eexists. cbn [negb IndexBuilder.embed_query _query_cache set_cache].
    rewrite Hget.
    split; [reflexivity|]. split; [reflexivity|]. split; [exact Hget|].
    split; [|split; [exact Hbound|]].
    + split; [reflexivity|]. split; [simpl; lia|]. exact Hcache.
    + apply (Hhit _ (set_cache self _)). exact Hget.
Qed.

End QueryCache.

Lemma embed_query_cached_witness :
  exists v st,
    Retriever._embed_query Demo.drifting_encode
      (IndexBuilder.init (py "m") 1) Retriever.default (py "what is the budget?")
    = (Py.Ok v, st)
    /\ Retriever._embed_query Demo.drifting_encode (fst st) (snd st)
         (py "what is the budget?") = (Py.Ok v, st).
Proof.
  destruct (embed_query_cached Demo.drifting_encode
              (IndexBuilder.init (py "m") 1) Retriever.default (py "what is the budget?")
              [119; 104; 97; 116; 32; 105; 115; 32; 116; 104; 101; 32; 98; 117;
               100; 103; 101; 116; 63] eq_refl ltac:(vm_compute; discriminate))
    as (key & v & ib1 & self1 & _ & H1 & _ & _ & _ & H2).
  exists v, (ib1, self1). split; [exact H1 | exact H2].
Defined.

(** ** Retrieval *)

Section Retrieval.

Import Retriever.

Variable encode : nat -> list N -> IndexBuilder.vec.
Variable search :
  IndexBuilder.faiss_index -> IndexBuilder.vec -> Z -> Py.result (list (Z * Q)).

Lemma embed_query_bound (ib ib' : IndexBuilder.t) (self self' : t) (q : list N)
    (res : Py.result IndexBuilder.vec) :
  Py.len (_query_cache self) <= 1000 ->
  _embed_query encode ib self q = (res, (ib', self')) ->
  Py.len (_query_cache self') <= 1000.
Proof.
  intros Hlen. unfold _embed_query.
  destruct (TextProcessor.compute_hash q) as [key|e]; [|intros [= _ _ <-]; exact Hlen].
  destruct (Dict.contains (_query_cache self) key) eqn:Hc; cbn [negb].
  - destruct (Dict.get (_query_cache self) key); intros [= _ _ <-]; exact Hlen.
  - assert (Habs : Dict.get (_query_cache self) key = None).
    { unfold Dict.contains in Hc. destruct (Dict.get _ key); [discriminate|reflexivity]. }
    pose proof (cache_after_miss (_query_cache self) key
                  (encode (IndexBuilder.model_calls ib) q) Hlen Habs) as Hmiss.
    cbv zeta in Hmiss. destruct Hmiss as (_ & _ & Hbound).
    cbn [IndexBuilder.embed_query].
    match goal with
    | |- context [Dict.get (_query_cache ?s) key] =>
        destruct (Dict.get (_query_cache s) key)
    end; intros [= _ _ <-]; exact Hbound.
Qed.

(** [_embed_query] leaves the index, the metadata and the retriever's
    configuration alone. *)
Lemma embed_query_frame (ib ib' : IndexBuilder.t) (self self' : t) (q : list N)
    (res : Py.result IndexBuilder.vec) :
  _embed_query encode ib self q = (res, (ib', self')) ->
  IndexBuilder.index ib' = IndexBuilder.index ib
  /\ IndexBuilder.metadata ib' = IndexBuilder.metadata ib
  /\ retrieval_k self' = retrieval_k self
  /\ max_context_chars self' = max_context_chars self.
Proof.
  unfold _embed_query.
  destruct (TextProcessor.compute_hash q) as [key|e];
    [|intros [= _ <- <-]; repeat split].
  destruct (Dict.contains (_query_cache self) key); cbn [negb].
  - destruct (Dict.get (_query_cache self) key); intros [= _ <- <-]; repeat split.
  - cbn [IndexBuilder.embed_query].
    match goal with
    | |- context [Dict.get (_query_cache ?s) key] =>
        destruct (Dict.get (_query_cache s) key)
    end; intros [= _ <- <-]; repeat split.
Qed.

(** No sequence of calls makes the cache hold more than 1000 entries. *)
Lemma reachable_cache_bound (self : t) :
  reachable encode search self -> Py.len (_query_cache self) <= 1000.
Proof.
  induction 1 as [rk mc | ib self q res ib' self' _ IH Hcall
                 | ib self q k f ms res ib' self' _ IH Hcall | self _ IH].
  - vm_compute. discriminate.
  - exact (embed_query_bound _ _ _ _ _ _ IH Hcall).
  - unfold retrieve in Hcall.
    destruct (negb (IndexBuilder.is_ready ib)); [injection Hcall as _ _ <-; exact IH|].
    destruct (_embed_query encode ib self q) as [res1 [ib1 self1]] eqn:Hemb.
    pose proof (embed_query_bound _ _ _ _ _ _ IH Hemb) as Hb.
    destruct res1 as [v|e]; [|injection Hcall as _ _ <-; exact Hb].
    destruct (IndexBuilder.index ib1); [|injection Hcall as _ _ <-; exact Hb].
    destruct (search _ _ _); [|injection Hcall as _ _ <-; exact Hb].
    destruct (collect _ _ _ _ _ _ _); injection Hcall as _ _ <-; exact Hb.
  - vm_compute. discriminate.
Qed.

(** *** The candidate loop *)


(** What the loop returns extends what it started with by results taken
    from the candidates in their order; each of them passed the filters and
    the score threshold; and the loop stops at [k] results. *)
Lemma collect_spec (self : t) (store : list (gmap (list N) Py.value))
    (filters : option (gmap (list N) Py.value)) (min_score : Q) (k : Z) :
  forall (candidates : list (Z * Q)) (results out : list RetrievalResult),
    collect self store filters min_score k candidates results = Py.Ok out ->
    exists new,
      out = results ++ new
      /\ (score <$> new) `sublist_of` (snd <$> candidates)
      /\ Forall (fun r => truthy_filters filters = true ->
                          matches (metadata r) filters = true) new
      /\ Forall (fun r => Qltb (score r) min_score = false) new
      /\ Py.len out <= Z.max k (Py.len results + 1).
Proof.
  induction candidates as [|[idx sc] rest IH]; intros results out; simpl.
  - intros [= <-]. exists []. rewrite app_nil_r.
    repeat split; [constructor | constructor | constructor | lia].
  - assert (Hskip :
      collect self store filters min_score k rest results = Py.Ok out ->
      exists new,
        out = results ++ new
        /\ (score <$> new) `sublist_of` sc :: (snd <$> rest)
        /\ Forall (fun r => truthy_filters filters = true ->
                            matches (metadata r) filters = true) new
        /\ Forall (fun r => Qltb (score r) min_score = false) new
        /\ Py.len out <= Z.max k (Py.len results + 1)).
    { intros H. destruct (IH _ _ H) as (new & Hout & Hsub & Hf & Hs & Hlen).
      exists new. repeat split; try assumption. apply sublist_cons. exact Hsub. }
    destruct (idx =? -1); [exact Hskip|].
    destruct (Qltb sc min_score) eqn:Hsc; [exact Hskip|].
    destruct (Py.index store idx) as [md|]; [|discriminate].
    destruct (truthy_filters filters && negb (matches md filters)) eqn:Hf;
      [exact Hskip|].
    destruct (content_of md idx) as [content|e]; cbn [Py.bind]; [|discriminate].
    set (r := {| score := sc; content := Py.slice content 0 (max_context_chars self);
                 metadata := md |}).
    assert (Hr : truthy_filters filters = true -> matches (metadata r) filters = true).
    { intros Ht. rewrite Ht in Hf. simpl in Hf.
      apply negb_false_iff in Hf. exact Hf. }
    destruct (Z.leb_spec k (Py.len (results ++ [r]))) as [Hk|Hk].
    + intros [= <-]. exists [r].
      split; [reflexivity|]. split; [apply sublist_skip, sublist_nil_l|].
      split; [repeat constructor; exact Hr|].
      split; [repeat constructor; exact Hsc|].
      rewrite len_app. change (Py.len [r]) with 1. lia.
    + intros H. destruct (IH _ _ H) as (new & Hout & Hsub & Hfs & Hs & Hlen).
      exists (r :: new). rewrite <- app_assoc in Hout.
      split; [exact Hout|]. split; [apply sublist_skip; exact Hsub|].
      split; [constructor; assumption|]. split; [constructor; assumption|].
      rewrite len_app in Hlen, Hk. change (Py.len [r]) with 1 in Hlen, Hk. lia.
Qed.

(** A falsy [filters] (absent or empty) is never consulted by the loop. *)
Lemma collect_falsy_filters (self : t) (store : list (gmap (list N) Py.value))
    (filters : option (gmap (list N) Py.value)) (min_score : Q) (k : Z) :
  truthy_filters filters = false ->
  forall (candidates : list (Z * Q)) (results : list RetrievalResult),
    collect self store filters min_score k candidates results
    = collect self store None min_score k candidates results.
Proof.
  intros Hf. induction candidates as [|[idx sc] rest IH]; intros results; simpl;
    [reflexivity|].
  rewrite Hf. simpl. rewrite !IH.
  destruct (idx =? -1); [reflexivity|].
  destruct (Qltb sc min_score); [reflexivity|].
  destruct (Py.index store idx); [|reflexivity].
  destruct (content_of _ idx); simpl; [|reflexivity].
  destruct (_ <=? _); [reflexivity|]. apply IH.
Qed.

(** *** Filtered retrieval *)



(** Descending order is inherited from the candidates. *)
Lemma sublist_descending (l1 l2 : list Q) :
  l1 `sublist_of` l2 ->
  StronglySorted (fun a b => (b <= a)%Q) l2 ->
  StronglySorted (fun a b => (b <= a)%Q) l1.
Proof.
  induction 1 as [|x l1 l2 Hsub IH|x l1 l2 Hsub IH]; intros Hs.
  - constructor.
  - inversion Hs as [|? ? Hs' Hall]; subst. constructor; [apply IH; exact Hs'|].
    rewrite Forall_forall in *. intros y Hy. apply Hall.
    eapply elem_of_sublist; eassumption.
  - inversion Hs; subst. apply IH. assumption.
Qed.

(** *** The resolution of [k] and of [filters] *)

Lemma retrieve_k_zero_as_missing (ib : IndexBuilder.t) (self : t) (q : list N)
    (filters : option (gmap (list N) Py.value)) (min_score : Q) :
  retrieve encode search ib self q (Some 0) filters min_score
  = retrieve encode search ib self q None filters min_score.
Proof. reflexivity. Qed.

Lemma retrieve_empty_filters_as_missing (ib : IndexBuilder.t) (self : t) (q : list N)
    (k : option Z) (min_score : Q) :
  retrieve encode search ib self q k (Some ∅) min_score
  = retrieve encode search ib self q k None min_score.
Proof.
  unfold retrieve.
  destruct (negb (IndexBuilder.is_ready ib)); [reflexivity|].
  destruct (_embed_query encode ib self q) as [[v|e] [ib1 self1]]; [|reflexivity].
  destruct (IndexBuilder.index ib1); [|reflexivity].
  change (search_k (resolve_k self k) (Some ∅)) with (resolve_k self k).
  change (search_k (resolve_k self k) None) with (resolve_k self k).
  destruct (search _ _ _); [|reflexivity].
  rewrite (collect_falsy_filters self1 _ (Some ∅)); reflexivity.
Qed.

(** Without a filter, candidates that each contribute a result are taken one
    after the other until [k] results are there. *)
Lemma collect_takes_all (self : t) (store : list (gmap (list N) Py.value))
    (min_score : Q) (k : Z) (good : list (Z * Q)) (rs : list RetrievalResult) :
  Forall2 (fun c r => Candidates.result_of self store min_score c = Some r) good rs ->
  forall (rest : list (Z * Q)) (results : list RetrievalResult),
    good <> [] ->
    Py.len results + Py.len good = k ->
    collect self store None min_score k (good ++ rest) results
    = Py.Ok (results ++ rs).
Proof.
  induction 1 as [|[idx sc] r good rs Hc Hrest IH]; intros rest results Hne Hk;
    [congruence|].
  unfold Candidates.result_of in Hc.
  cbn [app collect]. destruct (idx =? -1); [discriminate|].
  destruct (Qltb sc min_score); [discriminate|].
  destruct (Py.index store idx) as [md|]; [|discriminate].
  destruct (content_of md idx) as [content|e]; [|discriminate].
  injection Hc as <-. cbn [truthy_filters andb Py.bind].
  unfold Py.len in *. rewrite length_app in *. cbn [length] in *.
  destruct Hrest as [|c' r' good rs Hc' Hrest].
  - cbn [length] in Hk.
    destruct (Z.leb_spec k (Z.of_nat (length results + 1))); [reflexivity|lia].
  - cbn [length] in Hk.
    destruct (Z.leb_spec k (Z.of_nat (length results + 1))); [lia|].
    rewrite (IH rest); [rewrite <- app_assoc; reflexivity|discriminate|].
    rewrite length_app. cbn [length] in *. lia.
Qed.

(** C10: [k=0] behaves like a missing [k] and an empty [filters] dict like
    a missing one: [retrieve] with [k=0] is the same call as without [k],
    whatever the filters, and with empty [filters] the same call as without
    filters, whatever [k]; [k=0] resolves to the configured default, 4 for a
    retriever built with the defaults.  So a call with [k=0] (or without
    [k]) and with empty (or without) filters does not return an empty list:
    on a ready index it asks the search for exactly [retrieval_k]
    candidates, not [3 * retrieval_k], and when each of the first
    [retrieval_k] candidates has a row, a score of at least [min_score] and
    a record with a string content, it returns the results of exactly these
    candidates, [retrieval_k] many, in their order. *)
Theorem retrieve_falsy_arguments (ib : IndexBuilder.t) (self : t) (q : list N)
    (min_score : Q) :
  (forall filters,
      retrieve encode search ib self q (Some 0) filters min_score
      = retrieve encode search ib self q None filters min_score)
  /\ (forall k,
        retrieve encode search ib self q k (Some ∅) min_score
        = retrieve encode search ib self q k None min_score)
  /\ resolve_k self (Some 0) = retrieval_k self
  /\ resolve_k default (Some 0) = 4
  /\ (forall (k : option Z) (filters : option (gmap (list N) Py.value))
             (ib1 : IndexBuilder.t) (self1 : t) (v : IndexBuilder.vec)
             (idx : IndexBuilder.faiss_index) (candidates : list (Z * Q))
             (results : list RetrievalResult),
        k = None \/ k = Some 0 ->
        filters = None \/ filters = Some ∅ ->
        IndexBuilder.is_ready ib = true ->
        _embed_query encode ib self q = (Py.Ok v, (ib1, self1)) ->
        IndexBuilder.index ib1 = Some idx ->
        1 <= retrieval_k self ->
        search idx v (retrieval_k self) = Py.Ok candidates ->
        mapM (Candidates.result_of self1 (IndexBuilder.metadata ib1) min_score)
             (take (Z.to_nat (retrieval_k self)) candidates)
        = Some results ->
        Py.len results = retrieval_k self ->
        retrieve encode search ib self q k filters min_score
        = (Py.Ok results, (ib1, add_metrics self1 (metrics_of q results)))
        /\ results <> []).
Proof.
  split; [intros filters; apply retrieve_k_zero_as_missing|].
  split; [intros k; apply retrieve_empty_filters_as_missing|].
  split; [reflexivity|]. split; [reflexivity|].
  intros k filters ib1 self1 v idx candidates results Hk Hf Hready Hemb Hidx Hpos
    Hsearch Hgood Hlen.
  assert (Hne : results <> []).
  { intros ->. unfold Py.len in Hlen. simpl in Hlen. lia. }
  split; [|exact Hne].
  transitivity (retrieve encode search ib self q None None min_score).
  { destruct Hk as [-> | ->], Hf as [-> | ->];
      rewrite ?retrieve_k_zero_as_missing, ?retrieve_empty_filters_as_missing;
      reflexivity. }
  unfold retrieve. rewrite Hready, Hemb, Hidx. cbn [negb resolve_k].
  change (search_k (retrieval_k self) None) with (retrieval_k self).
  rewrite Hsearch.
  apply mapM_Some in Hgood.
  pose proof (Forall2_length _ _ _ Hgood) as Hl.
  rewrite <- (take_drop (Z.to_nat (retrieval_k self)) candidates).
  rewrite (collect_takes_all self1 (IndexBuilder.metadata ib1) min_score
             (retrieval_k self) _ results Hgood).
  - reflexivity.
  - intros Hnil. rewrite Hnil in Hl. destruct results; [congruence|discriminate].
  - unfold Py.len in *. rewrite Hl. simpl. lia.
Qed.

End Retrieval.



Lemma retrieve_falsy_arguments_witness :
  exists results st,
    Retriever.retrieve Demo.encode Retriever.flat_search Demo.builder
      Retriever.default (py "what is the budget?") (Some 0) (Some ∅) 0%Q
    = (Py.Ok results, st)
    /\ Retriever.content <$> results = [py "alpha"; py "beta"; py "gamma"; py "delta"].
Proof.
  pose (emb := Retriever._embed_query Demo.encode Demo.builder Retriever.default
                 (py "what is the budget?")).
  pose (v := [1; 0]%Q : IndexBuilder.vec).
  pose (ib1 := fst (snd emb)). pose (self1 := snd (snd emb)).
  pose (idx := default {| IndexBuilder.kind := IndexBuilder.IndexFlatIP;
                          IndexBuilder.rows := [] |}
                 (IndexBuilder.index Demo.builder)).
  pose (candidates := match Retriever.flat_search idx v 4 with
                      | Py.Ok c => c
                      | Py.Raise _ => []
                      end).
  pose (results := default []
                     (mapM (Candidates.result_of self1 (IndexBuilder.metadata ib1) 0%Q)
                        (take 4 candidates))).
  assert (Hready : IndexBuilder.is_ready Demo.builder = true) by reflexivity.
  assert (Hemb : emb = (Py.Ok v, (ib1, self1))) by (vm_compute; reflexivity).
  assert (Hidx : IndexBuilder.index ib1 = Some idx) by (vm_compute; reflexivity).
  assert (Hpos : 1 <= Retriever.retrieval_k Retriever.default) by (vm_compute; discriminate).
  assert (Hsearch : Retriever.flat_search idx v (Retriever.retrieval_k Retriever.default)
                    = Py.Ok candidates) by (vm_compute; reflexivity).
  assert (Hgood : mapM (Candidates.result_of self1 (IndexBuilder.metadata ib1) 0%Q)
                    (take (Z.to_nat (Retriever.retrieval_k Retriever.default)) candidates)
                  = Some results) by (vm_compute; reflexivity).
  assert (Hlen : Py.len results = Retriever.retrieval_k Retriever.default)
    by (vm_compute; reflexivity).
  destruct (proj2 (proj2 (proj2 (proj2
              (retrieve_falsy_arguments Demo.encode Retriever.flat_search Demo.builder
                 Retriever.default (py "what is the budget?") 0%Q))))
              (Some 0) (Some ∅) ib1 self1 v idx candidates results
              (or_intror eq_refl) (or_intror eq_refl)
              Hready Hemb Hidx Hpos Hsearch Hgood Hlen) as [H _].
  exists results, (ib1, Retriever.add_metrics self1
                          (Retriever.metrics_of (py "what is the budget?") results)).
  split; [exact H | vm_compute; reflexivity].
Defined.

(** With [k=0] and no filter, four results come back, not none. *)
Example retrieve_k_zero_returns_default :
  (Retriever.content <$>
     match fst (Retriever.retrieve Demo.encode Retriever.flat_search Demo.builder
                  Retriever.default (py "what is the budget?") (Some 0) None 0%Q) with
     | Py.Ok results => results
     | Py.Raise _ => []
     end)
  = [py "alpha"; py "beta"; py "gamma"; py "delta"].
Proof. vm_compute. reflexivity. Qed.

(** ** The generation call *)

Section Generation.

Import LLMGateway.

Variable api : nat -> request -> api_outcome.

Lemma fails_attempt_result (self : t) (o : api_outcome) :
  fails o -> exists e, attempt_result self o = inr e.
Proof.
  destruct o as [e|[|c cs] u l]; simpl; intros H; [eauto | eauto | destruct H].
Qed.

Lemma backoff_cons (attempt : Z) (n : nat) :
  backoff attempt (S n) = 2 ^ attempt :: backoff (attempt + 1) n.
Proof.
  unfold backoff. simpl. rewrite Z.add_0_r. f_equal.
  rewrite <- seq_shift, <- list_fmap_compose. apply list_fmap_ext.
  intros _ i _. simpl. f_equal. lia.
Qed.

Lemma attempts_step (remaining : nat) (attempt max_retries : Z) (self : t)
    (req : request) :
  attempts api (S remaining) attempt max_retries self req
  = match attempt_result (called self) (api (api_calls self) req) with
    | inl response => (response, called self)
    | inr e =>
        if attempt <? max_retries - 1
        then attempts api remaining (attempt + 1) max_retries
               (sleep (called self) (2 ^ attempt)) req
        else (failure (called self)
                (py "LLM call failed after " ++ Py.str_of_int max_retries
                 ++ py " attempts: " ++ Py.str_of_exn e),
              called self)
    end.
Proof. reflexivity. Qed.

(** The loop, entered at [attempt] with every remaining call failing, makes
    all the remaining calls, sleeps 2 ** attempt between them, and returns
    the failure that names [max_retries]. *)
Lemma attempts_all_fail (max_retries : Z) (req : request) :
  forall (remaining : nat) (attempt : Z) (self : t),
    max_retries = attempt + Z.of_nat (S remaining) ->
    (forall i, (i <= remaining)%nat -> fails (api (api_calls self + i)%nat req)) ->
    exists e,
      attempts api (S remaining) attempt max_retries self req
      = (failure self
           (py "LLM call failed after " ++ Py.str_of_int max_retries
            ++ py " attempts: " ++ Py.str_of_exn e),
         {| api_key := api_key self; gw_model := gw_model self;
            max_tokens := max_tokens self; client := client self;
            api_calls := (api_calls self + S remaining)%nat;
            slept := slept self ++ backoff attempt remaining |}).
Proof.
  induction remaining as [|remaining IH]; intros attempt self Hmax Hfail.
  - rewrite attempts_step.
    destruct (fails_attempt_result (called self) _ (Hfail 0%nat ltac:(lia))) as (e & He).
    rewrite Nat.add_0_r in He. rewrite He.
    destruct (Z.ltb_spec attempt (max_retries - 1)); [lia|].
    exists e. unfold failure, called, backoff. simpl. rewrite app_nil_r.
    repeat f_equal. lia.
  - rewrite attempts_step.
    destruct (fails_attempt_result (called self) _ (Hfail 0%nat ltac:(lia))) as (e0 & He).
    rewrite Nat.add_0_r in He. rewrite He.
    destruct (Z.ltb_spec attempt (max_retries - 1)); [|lia].
    destruct (IH (attempt + 1) (sleep (called self) (2 ^ attempt)) ltac:(lia)) as (e & Hrec).
    { intros i Hi.
      change (api_calls (sleep (called self) (2 ^ attempt))) with (S (api_calls self)).
      replace (S (api_calls self) + i)%nat with (api_calls self + S i)%nat by lia.
      apply Hfail. lia. }
    exists e. rewrite Hrec. rewrite backoff_cons. unfold failure. simpl.
    rewrite <- app_assoc. simpl. repeat f_equal. lia.
Qed.

(** C9: with a client and a retry ceiling of at least one, when every one of
    the [max_retries] API calls fails, [generate] returns (it does not
    raise) a response with [success=False], empty content and the error
    "LLM call failed after <max_retries> attempts: <last error>"; it has
    made exactly [max_retries] calls and slept 1, 2, 4, ... seconds between
    them, [max_retries - 1] times in all. *)
Theorem generate_exhausts_retries (self : t) (system_prompt user_prompt : list N)
    (max_tokens : option Z) (temperature : Q) (max_retries : Z) :
  client self = true ->
  1 <= max_retries ->
  (forall i req, (i < Z.to_nat max_retries)%nat ->
                 fails (api (api_calls self + i)%nat req)) ->
  exists e self',
    generate api self system_prompt user_prompt max_tokens temperature max_retries
    = ({| content := []; model := gw_model self; usage := None; latency_ms := 0%Q;
          success := false;
          error := Some (py "LLM call failed after " ++ Py.str_of_int max_retries
                         ++ py " attempts: " ++ Py.str_of_exn e) |},
       self')
    /\ api_calls self' = (api_calls self + Z.to_nat max_retries)%nat
    /\ slept self'
       = slept self ++ ((fun i => 2 ^ Z.of_nat i) <$> seq 0 (Z.to_nat max_retries - 1)).
Proof.
  intros Hclient Hmax Hfail. unfold generate. rewrite Hclient. cbn [negb].
  destruct (Z.to_nat max_retries) as [|remaining] eqn:Hn; [lia|].
  match goal with
  | |- context [attempts api _ _ _ _ ?r] =>
      destruct (attempts_all_fail max_retries r remaining 0 self ltac:(lia)) as (e & H)
  end.
  { intros i Hi. apply Hfail. lia. }
  exists e. eexists. split; [rewrite H; reflexivity|]. simpl.
  split; [reflexivity|]. rewrite Nat.sub_0_r. reflexivity.
Qed.

End Generation.

Lemma generate_exhausts_retries_witness :
  exists e self',
    LLMGateway.generate Demo.failing_api
      (LLMGateway.init (Some (py "key")) (py "gemini") 512 true)
      (py "system") (py "user") None LLMGateway.default_temperature 3
    = ({| LLMGateway.content := []; LLMGateway.model := py "gemini";
          LLMGateway.usage := None; LLMGateway.latency_ms := 0%Q;
          LLMGateway.success := false;
          LLMGateway.error :=
            Some (py "LLM call failed after 3 attempts: " ++ Py.str_of_exn e) |},
       self')
    /\ LLMGateway.api_calls self' = 3%nat
    /\ LLMGateway.slept self' = [1; 2].
Proof.
  exact (generate_exhausts_retries Demo.failing_api
           (LLMGateway.init (Some (py "key")) (py "gemini") 512 true)
           (py "system") (py "user") None LLMGateway.default_temperature 3
           eq_refl ltac:(vm_compute; discriminate) (fun _ _ _ => I)).
Defined.

Example generate_three_failures :
  LLMGateway.error
    (fst (LLMGateway.generate Demo.failing_api
            (LLMGateway.init (Some (py "key")) (py "gemini") 512 true)
            (py "system") (py "user") None LLMGateway.default_temperature
            LLMGateway.default_max_retries))
  = Some (py "LLM call failed after 3 attempts: upstream unavailable").
Proof. vm_compute. reflexivity. Qed.

(** ** The pipeline *)

Section Pipeline.

Import RAGPipeline.

Variable encode : nat -> list N -> IndexBuilder.vec.
Variable ivf_train : Z -> list IndexBuilder.vec -> bool.
Variable search :
  IndexBuilder.faiss_index -> IndexBuilder.vec -> Z -> Py.result (list (Z * Q)).
Variable api : nat -> LLMGateway.request -> LLMGateway.api_outcome.

(** A pipeline comes out of its constructor initialized exactly when both
    paths are configured, both files exist and both are read. *)
Lemma init_initialized (embedding_model : list N) (embedding_dim : Z)
    (llm_api_key : option (list N)) (llm_model : list N) (llm_max_tokens : Z)
    (chunk_size chunk_overlap retrieval_k max_context_chars : Z)
    (has_paths portkey_ok : bool) (fs : files) :
  _is_initialized
    (init embedding_model embedding_dim llm_api_key llm_model llm_max_tokens
       chunk_size chunk_overlap retrieval_k max_context_chars has_paths portkey_ok fs)
  = has_paths && index_exists fs && metadata_exists fs
    && match index_file fs, metadata_file fs with
       | Py.Ok _, Py.Ok _ => true
       | _, _ => false
       end.
Proof.
  unfold init, load_index. destruct has_paths; [|reflexivity]. cbn [has_paths andb].
  destruct (index_exists fs); [|reflexivity].
  destruct (metadata_exists fs); [|reflexivity]. cbn [andb].
  unfold IndexBuilder.load, IndexBuilder.load_failed.
  destruct (index_file fs) as [idx|e]; [destruct (metadata_file fs) as [md|e]|];
    try reflexivity; destruct e; reflexivity.
Qed.

(** Indexing a document never clears the flag, and sets it on success. *)
Lemma process_and_index_file_initialized (self self' : t)
    (doc : ProcessedDocument) (res : Py.result Z) :
  process_and_index_file encode ivf_train self doc = (res, self') ->
  _is_initialized self'
  = match res with Py.Ok _ => true | Py.Raise _ => _is_initialized self end.
Proof.
  unfold process_and_index_file.
  destruct (prepare_for_indexing doc) as [chunks md].
  destruct (IndexBuilder.add_documents _ _ _ _ _) as [[[]|e] ib];
    intros [= <- <-]; reflexivity.
Qed.

(** C7: a query on a pipeline that was never initialized returns, without
    raising and without touching any state, the response with
    [success=False], the answer "No documents have been indexed yet. ...",
    the error "Pipeline not initialized - no documents indexed", and empty
    citations and sources. *)
Theorem query_uninitialized (self : t) (question : list N) (k : option Z)
    (filters : option (gmap (list N) Py.value)) (system_prompt_key : list N) :
  _is_initialized self = false ->
  query encode search api self question k filters system_prompt_key
  = (Py.Ok {| answer := py "No documents have been indexed yet. Please upload some documents first.";
              citations := []; sources := []; llm_response := EmptyDict;
              success := false;
              error := Some (py "Pipeline not initialized - no documents indexed") |},
     self).
Proof. intros H. unfold query. rewrite H. reflexivity. Qed.

End Pipeline.

Lemma query_uninitialized_witness :
  RAGPipeline._is_initialized Demo.fresh_pipeline = false
  /\ RAGPipeline.query Demo.encode Retriever.flat_search Demo.failing_api
       Demo.fresh_pipeline (py "what is the budget?") (Some 3) (Some Demo.only_X)
       (py "default")
     = (Py.Ok {| RAGPipeline.answer :=
                   py "No documents have been indexed yet. Please upload some documents first.";
                 RAGPipeline.citations := []; RAGPipeline.sources := [];
                 RAGPipeline.llm_response := RAGPipeline.EmptyDict;
                 RAGPipeline.success := false;
                 RAGPipeline.error :=
                   Some (py "Pipeline not initialized - no documents indexed") |},
        Demo.fresh_pipeline).
Proof.
  split; [reflexivity|].
  exact (query_uninitialized Demo.encode Retriever.flat_search Demo.failing_api
           Demo.fresh_pipeline (py "what is the budget?") (Some 3) (Some Demo.only_X)
           (py "default") eq_refl).
Defined.

(** * Further properties *)

(** ** What the chunker emits *)

Section Chunks.

Import TextProcessor.

Lemma lstrip_nil_all_space (s : list N) :
  Py.lstrip s = [] -> forallb Py.isspace s = true.
Proof.
  induction s as [|c s IH]; simpl; [reflexivity|].
  destruct (Py.isspace c); [exact IH | discriminate].
Qed.

(** A string whose first character is not whitespace does not strip to
    nothing. *)
Lemma strip_truthy (s : list N) (c : N) :
  head s = Some c -> Py.isspace c = false -> Py.truthy (Py.strip s) = true.
Proof.
  destruct s as [|x s]; [discriminate|]. intros [= ->] Hc.
  unfold Py.strip, Py.rstrip. simpl. rewrite Hc.
  destruct (Py.lstrip (rev (c :: s))) as [|y l] eqn:E.
  - apply lstrip_nil_all_space in E. rewrite forallb_forall in E.
    rewrite (E c) in Hc; [discriminate|]. apply in_rev. rewrite rev_involutive. left.
    reflexivity.
  - destruct (rev (y :: l)) as [|z l'] eqn:E'; [|reflexivity].
    apply (f_equal (@length N)) in E'. rewrite length_rev in E'. discriminate.
Qed.

Lemma len_slice_le {A} (s : list A) (a b : Z) :
  a <= b -> Py.len (Py.slice s a b) <= b - a.
Proof.
  intros Hab. rewrite len_slice. pose proof (len_nonneg s). unfold Py.adjust.
  destruct (Z.ltb_spec a 0); destruct (Z.ltb_spec b 0); lia.
Qed.

(** A slice is a contiguous part of the string. *)
Lemma slice_infix {A} (s : list A) (a b : Z) :
  exists pre post, s = pre ++ Py.slice s a b ++ post.
Proof.
  unfold Py.slice.
  exists (take (Z.to_nat (Py.adjust (Py.len s) a)) s),
         (drop (Z.to_nat (Py.adjust (Py.len s) b - Py.adjust (Py.len s) a))
               (drop (Z.to_nat (Py.adjust (Py.len s) a)) s)).
  rewrite take_drop, take_drop. reflexivity.
Qed.

Lemma strip_infix (s : list N) :
  exists pre post, s = pre ++ Py.strip s ++ post.
Proof. destruct (strip_spec s) as (pre & post & H & _). eauto. Qed.

Lemma infix_trans {A} (s t u : list A) :
  (exists pre post, s = pre ++ t ++ post) ->
  (exists pre post, t = pre ++ u ++ post) ->
  exists pre post, s = pre ++ u ++ post.
Proof.
  intros (p1 & q1 & ->) (p2 & q2 & ->). exists (p1 ++ p2), (q2 ++ q1).
  rewrite <- !app_assoc. reflexivity.
Qed.

(** The chunk of a window is a contiguous part of the text, at most
    [chunk_size] long when [chunk_size] is not negative. *)
Lemma window_chunk (self : t) (text : list N) (start : Z) :
  (exists pre post, text = pre ++ fst (window self text start) ++ post)
  /\ (0 <= chunk_size self -> Py.len (fst (window self text start)) <= chunk_size self).
Proof.
  unfold window.
  set (chunk := Py.slice text start (start + chunk_size self)).
  assert (Hin : exists pre post, text = pre ++ chunk ++ post) by apply slice_infix.
  assert (Hlen : 0 <= chunk_size self -> Py.len chunk <= chunk_size self).
  { intros Hcs.
    pose proof (len_slice_le text start (start + chunk_size self) ltac:(lia)) as H.
    fold chunk in H. lia. }
  destruct (start + chunk_size self <? Py.len text); [|split; assumption].
  destruct (break_at_boundary _ chunk boundary_markers) as [chunk'|] eqn:Hb;
    [|split; assumption].
  destruct (break_at_boundary_Some _ _ _ _ boundary_markers_nonempty Hb)
    as (m & _ & _ & -> & _).
  simpl. split.
  - apply (infix_trans _ _ _ Hin). apply slice_infix.
  - intros Hcs. specialize (Hlen Hcs).
    pose proof (len_slice chunk 0 (Py.rfind chunk m + 1)) as Hl.
    pose proof (adjust_range (Py.len chunk) 0 (len_nonneg chunk)).
    pose proof (adjust_range (Py.len chunk) (Py.rfind chunk m + 1) (len_nonneg chunk)).
    lia.
Qed.

(** Whatever holds of every non-empty stripped window holds of every chunk
    the loop adds. *)
Lemma chunk_loop_Forall (P : list N -> Prop) (self : t) (text : list N) :
  (forall start,
      Py.truthy (Py.strip (fst (window self text start))) = true ->
      P (Py.strip (fst (window self text start)))) ->
  forall (fuel : nat) (start : Z) (chunks r : list (list N)),
    chunk_loop fuel self text start chunks = Some r ->
    Forall P chunks -> Forall P r.
Proof.
  intros HP. induction fuel as [|fuel IH]; intros start chunks r; [discriminate|].
  rewrite chunk_loop_step.
  destruct (start <? Py.len text); [|intros [= <-]; auto].
  pose proof (HP start) as Hw.
  destruct (window self text start) as [chunk end_]. simpl in Hw.
  intros Hr Hall.
  assert (Hall' : Forall P (if Py.truthy (Py.strip chunk)
                            then chunks ++ [Py.strip chunk] else chunks)).
  { destruct (Py.truthy (Py.strip chunk)); [|exact Hall].
    apply Forall_app. split; [exact Hall|]. constructor; [auto|constructor]. }
  destruct (Py.len text <=? end_).
  - injection Hr as <-. exact Hall'.
  - exact (IH _ _ _ Hr Hall').
Qed.

Lemma chunk_text_Forall (P : list N -> Prop) (self : t) (text : list N) :
  (Py.truthy (Py.strip text) = true -> Py.len (Py.strip text) <= chunk_size self ->
   P (Py.strip text)) ->
  (forall start,
      Py.truthy (Py.strip (fst (window self (Py.strip text) start))) = true ->
      P (Py.strip (fst (window self (Py.strip text) start)))) ->
  forall (fuel : nat) (chunks : list (list N)),
    chunk_text fuel self text = Some chunks -> Forall P chunks.
Proof.
  intros Hshort Hwin fuel chunks. unfold chunk_text.
  destruct (Z.leb_spec (Py.len (Py.strip text)) (chunk_size self)) as [Hle|_].
  - intros [= <-]. destruct (Py.truthy (Py.strip text)) eqn:Ht; [|constructor].
    constructor; [auto|constructor].
  - intros H. apply (chunk_loop_Forall P self _ Hwin _ _ _ _ H). constructor.
Qed.

Lemma truthy_nonempty (s : list N) : Py.truthy s = true -> s <> [] /\ 0 < Py.len s.
Proof. destruct s; [discriminate|]. intros _. split; [discriminate|]. unfold Py.len. simpl. lia. Qed.

(** X1: every chunk that [chunk_text] returns is non-empty and neither
    starts nor ends with whitespace. *)
Theorem chunk_text_chunks_trimmed (self : t) (text : list N) (fuel : nat)
    (chunks : list (list N)) :
  chunk_text fuel self text = Some chunks ->
  Forall (fun c => c <> []
                   /\ (forall x, head c = Some x -> Py.isspace x = false)
                   /\ (forall x, last c = Some x -> Py.isspace x = false)) chunks.
Proof.
  apply chunk_text_Forall.
  - intros Ht _. destruct (strip_spec text) as (_ & _ & _ & _ & _ & Hh & Hl).
    split; [apply truthy_nonempty; exact Ht|]. split; assumption.
  - intros start Ht.
    destruct (strip_spec (fst (window self (Py.strip text) start)))
      as (_ & _ & _ & _ & _ & Hh & Hl).
    split; [apply truthy_nonempty; exact Ht|]. split; assumption.
Qed.

Lemma chunk_text_chunks_trimmed_witness :
  Forall (fun c => c <> []
                   /\ (forall x, head c = Some x -> Py.isspace x = false)
                   /\ (forall x, last c = Some x -> Py.isspace x = false))
    [py "aaaaaaa."; py "a. b! cddddd"; py "ddd"].
Proof.
  exact (chunk_text_chunks_trimmed {| chunk_size := 12; chunk_overlap := 2 |}
           (py "aaaaaaa. b! cdddddd") 10 _ ltac:(vm_compute; reflexivity)).
Defined.

(** X2: with a [chunk_size] that is not negative, no chunk that
    [chunk_text] returns is longer than [chunk_size]. *)
Theorem chunk_text_chunks_bounded (self : t) (text : list N) (fuel : nat)
    (chunks : list (list N)) :
  0 <= chunk_size self ->
  chunk_text fuel self text = Some chunks ->
  Forall (fun c => Py.len c <= chunk_size self) chunks.
Proof.
  intros Hcs. apply chunk_text_Forall.
  - intros _ Hle. exact Hle.
  - intros start _.
    pose proof (len_strip (fst (window self (Py.strip text) start))) as Hs.
    pose proof (proj2 (window_chunk self (Py.strip text) start) Hcs) as Hw. lia.
Qed.

Lemma chunk_text_chunks_bounded_witness :
  Forall (fun c => Py.len c <= 12) [py "aaaaaaa."; py "a. b! cddddd"; py "ddd"].
Proof.
  exact (chunk_text_chunks_bounded {| chunk_size := 12; chunk_overlap := 2 |}
           (py "aaaaaaa. b! cdddddd") 10 _ ltac:(vm_compute; discriminate)
           ltac:(vm_compute; reflexivity)).
Defined.

(** X3: every chunk that [chunk_text] returns occurs verbatim, as a
    contiguous part, in the input text. *)
Theorem chunk_text_chunks_verbatim (self : t) (text : list N) (fuel : nat)
    (chunks : list (list N)) :
  chunk_text fuel self text = Some chunks ->
  Forall (fun c => exists pre post, text = pre ++ c ++ post) chunks.
Proof.
  apply chunk_text_Forall.
  - intros _ _. apply strip_infix.
  - intros start _. apply (infix_trans _ _ _ (strip_infix text)).
    apply (infix_trans _ _ _ (proj1 (window_chunk self (Py.strip text) start))).
    apply strip_infix.
Qed.

Lemma chunk_text_chunks_verbatim_witness :
  Forall (fun c => exists pre post, py " aaaaaaa. b! cdddddd " = pre ++ c ++ post)
    [py "aaaaaaa."; py "a. b! cddddd"; py "ddd"].
Proof.
  exact (chunk_text_chunks_verbatim {| chunk_size := 12; chunk_overlap := 2 |}
           (py " aaaaaaa. b! cdddddd ") 10 _ ltac:(vm_compute; reflexivity)).
Defined.

(** The loop only adds to the chunks it was given. *)
Lemma chunk_loop_extends (self : t) (text : list N) :
  forall (fuel : nat) (start : Z) (chunks r : list (list N)),
    chunk_loop fuel self text start chunks = Some r ->
    exists new, r = chunks ++ new.
Proof.
  induction fuel as [|fuel IH]; intros start chunks r; [discriminate|].
  rewrite chunk_loop_step.
  destruct (start <? Py.len text); [|intros [= <-]; exists []; symmetry; apply app_nil_r].
  destruct (window self text start) as [chunk end_].
  assert (Hext : exists new, (if Py.truthy (Py.strip chunk)
                              then chunks ++ [Py.strip chunk] else chunks)
                             = chunks ++ new).
  { destruct (Py.truthy (Py.strip chunk)); [eauto|]. exists []. symmetry. apply app_nil_r. }
  destruct Hext as (new1 & Hext). rewrite Hext.
  destruct (Py.len text <=? end_).
  - intros [= <-]. eauto.
  - intros H. destruct (IH _ _ _ H) as (new2 & ->). exists (new1 ++ new2).
    rewrite app_assoc. reflexivity.
Qed.

(** The first window starts with the first character of the text. *)
Lemma first_window_head (self : t) (text : list N) :
  1 <= chunk_size self ->
  head (fst (window self text 0)) = head text.
Proof.
  intros Hcs.
  assert (Htake : forall (l : list N) (n : Z), 1 <= n -> head (Py.slice l 0 n) = head l).
  { intros l n Hn. unfold Py.slice, Py.adjust.
    destruct (Z.ltb_spec n 0); [lia|]. change (0 <? 0) with false. cbv iota.
    destruct l as [|x l]; [unfold Py.len; simpl; rewrite take_nil; reflexivity|].
    assert (Hlen : 1 <= Py.len (x :: l)) by (unfold Py.len; simpl; lia).
    replace (Z.min 0 (Py.len (x :: l))) with 0 by lia. simpl drop.
    destruct (Z.to_nat (Z.min n (Py.len (x :: l)) - 0)) eqn:E; [lia|reflexivity]. }
  unfold window. rewrite Z.add_0_l.
  destruct (chunk_size self <? Py.len text); [|apply Htake; exact Hcs].
  destruct (break_at_boundary _ _ boundary_markers) as [chunk'|] eqn:Hb;
    [|apply Htake; exact Hcs].
  destruct (break_at_boundary_Some _ _ _ _ boundary_markers_nonempty Hb)
    as (m & _ & Hm & -> & _).
  simpl. rewrite Htake by lia. apply Htake. exact Hcs.
Qed.

(** X4: with [chunk_size >= 1], a text that is not blank gives at least one
    chunk whenever [chunk_text] returns. *)
Theorem chunk_text_nonblank (self : t) (text : list N) (fuel : nat)
    (chunks : list (list N)) :
  1 <= chunk_size self ->
  Py.strip text <> [] ->
  chunk_text fuel self text = Some chunks ->
  chunks <> [].
Proof.
  intros Hcs Hne. unfold chunk_text.
  destruct (Py.len (Py.strip text) <=? chunk_size self) eqn:Hshort.
  - intros [= <-]. destruct (Py.strip text); [congruence|discriminate].
  - destruct fuel as [|fuel]; [discriminate|]. rewrite chunk_loop_step.
    apply Z.leb_gt in Hshort.
    destruct (Z.ltb_spec 0 (Py.len (Py.strip text))) as [_|]; [|lia].
    pose proof (first_window_head self (Py.strip text) Hcs) as Hhead.
    destruct (window self (Py.strip text) 0) as [chunk end_]. simpl in Hhead.
    destruct (strip_spec text) as (_ & _ & _ & _ & _ & Hh & _).
    destruct (Py.strip text) as [|c rest] eqn:Hs; [congruence|].
    rewrite (strip_truthy chunk c Hhead (Hh c eq_refl)).
    destruct (Py.len (c :: rest) <=? end_).
    + intros [= <-]. discriminate.
    + intros H. destruct (chunk_loop_extends _ _ _ _ _ _ H) as (new & ->). discriminate.
Qed.

Lemma chunk_text_nonblank_witness :
  [py "aaaaaaa."; py "a. b! cddddd"; py "ddd"] <> [].
Proof.
  exact (chunk_text_nonblank {| chunk_size := 12; chunk_overlap := 2 |}
           (py "aaaaaaa. b! cdddddd") 10 _ ltac:(vm_compute; discriminate)
           ltac:(vm_compute; discriminate) ltac:(vm_compute; reflexivity)).
Defined.

End Chunks.

(** ** The cache key *)

Section CacheKey.

Lemma le_bytes_spec (n : nat) (x : Z) :
  length (Hashlib.le_bytes n x) = n
  /\ Forall (fun b => 0 <= b < 256) (Hashlib.le_bytes n x).
Proof.
  revert x. induction n as [|n IH]; intros x; simpl; [split; [reflexivity|constructor]|].
  destruct (IH (Z.shiftr x 8)) as [Hl Hb]. split; [congruence|].
  constructor; [|exact Hb].
  change 255 with (Z.ones 8). rewrite Z.land_ones by lia.
  apply Z.mod_pos_bound. lia.
Qed.

Lemma md5_digest_spec (msg : list Z) :
  length (Hashlib.md5_digest msg) = 16%nat
  /\ Forall (fun b => 0 <= b < 256) (Hashlib.md5_digest msg).
Proof.
  unfold Hashlib.md5_digest.
  destruct (Hashlib.process _ _ _) as [[[a b] c] d].
  destruct (le_bytes_spec 4 a) as [La Ba]. destruct (le_bytes_spec 4 b) as [Lb Bb].
  destruct (le_bytes_spec 4 c) as [Lc Bc]. destruct (le_bytes_spec 4 d) as [Ld Bd].
  split.
  - rewrite !length_app, La, Lb, Lc, Ld. reflexivity.
  - repeat (apply Forall_app; split); assumption.
Qed.

Lemma hex_digit_spec (x : Z) :
  0 <= x < 16 ->
  (48 <= Hashlib.hex_digit x <= 57)%N \/ (97 <= Hashlib.hex_digit x <= 102)%N.
Proof.
  intros Hx. unfold Hashlib.hex_digit. destruct (Z.ltb_spec x 10); [left|right]; lia.
Qed.

Lemma hexdigest_spec (digest : list Z) :
  Forall (fun b => 0 <= b < 256) digest ->
  length (Hashlib.hexdigest digest) = (2 * length digest)%nat
  /\ Forall (fun c => (48 <= c <= 57)%N \/ (97 <= c <= 102)%N) (Hashlib.hexdigest digest).
Proof.
  unfold Hashlib.hexdigest.
  induction 1 as [|b digest Hb _ [IHl IHf]]; simpl; [split; [reflexivity|constructor]|].
  split; [lia|].
  constructor; [|constructor; [|exact IHf]]; apply hex_digit_spec.
  - rewrite Z.shiftr_div_pow2 by lia. change (2 ^ 4) with 16.
    split; [apply Z.div_pos; lia | apply Z.div_lt_upper_bound; lia].
  - change 15 with (Z.ones 4). rewrite Z.land_ones by lia. apply Z.mod_pos_bound. lia.
Qed.

(** X5: for every text that can be encoded as UTF-8, [compute_hash] returns
    a key of exactly 12 characters, each a digit or a lower-case letter a-f. *)
Theorem compute_hash_format (text : list N) (bytes : list Z) :
  Hashlib.encode text = Some bytes ->
  exists key,
    TextProcessor.compute_hash text = Py.Ok key
    /\ length key = 12%nat
    /\ Forall (fun c => (48 <= c <= 57)%N \/ (97 <= c <= 102)%N) key.
Proof.
  intros Henc. unfold TextProcessor.compute_hash. rewrite Henc.
  eexists. split; [reflexivity|].
  destruct (md5_digest_spec bytes) as [Hl Hb].
  destruct (hexdigest_spec _ Hb) as [Hhl Hhf]. rewrite Hl in Hhl.
  split.
  - pose proof (len_slice_prefix (Hashlib.hexdigest (Hashlib.md5_digest bytes)) 12) as H.
    unfold Py.len in H. lia.
  - unfold Py.slice. apply Forall_take, Forall_drop. exact Hhf.
Qed.

Lemma compute_hash_format_witness :
  exists key,
    TextProcessor.compute_hash (py "what is the budget?") = Py.Ok key
    /\ length key = 12%nat
    /\ Forall (fun c => (48 <= c <= 57)%N \/ (97 <= c <= 102)%N) key.
Proof.
  exact (compute_hash_format (py "what is the budget?") _ eq_refl).
Defined.

(** A text with a lone surrogate cannot be hashed. *)
Example compute_hash_surrogate :
  TextProcessor.compute_hash [97; 55296]%N = Py.Raise Py.UnicodeEncodeError.
Proof. reflexivity. Qed.

End CacheKey.

(** ** Preparing documents for the index *)

Section Prepare.

Import RAGPipeline.

Lemma prepare_one_lengths (doc : ProcessedDocument) :
  length (fst (prepare_for_indexing doc)) = length (chunks doc)
  /\ length (snd (prepare_for_indexing doc)) = length (chunks doc).
Proof.
  unfold prepare_for_indexing. simpl. rewrite length_imap, length_fmap. split; reflexivity.
Qed.

(** X6: [prepare_for_indexing] returns exactly one text and one metadata
    record per chunk of the given documents, so the two lists it hands to
    the index always have the same length. *)
Theorem prepare_for_indexing_lengths (documents : list ProcessedDocument) :
  let '(all_chunks, all_metadata) := Indexing.prepare_for_indexing documents in
  length all_chunks = length all_metadata
  /\ length all_chunks = sum_list ((fun doc => length (chunks doc)) <$> documents).
Proof.
  induction documents as [|doc rest IH]; [split; reflexivity|].
  change (Indexing.prepare_for_indexing (doc :: rest))
    with (let '(texts, metas) := prepare_for_indexing doc in
          let '(all_chunks, all_metadata) := Indexing.prepare_for_indexing rest in
          (texts ++ all_chunks, metas ++ all_metadata)).
  destruct (prepare_one_lengths doc) as [H1 H2].
  destruct (prepare_for_indexing doc) as [texts metas]. cbn [fst snd] in H1, H2.
  destruct (Indexing.prepare_for_indexing rest) as [cs ms]. destruct IH as [IH1 IH2].
  rewrite fmap_cons. cbn [sum_list sum_list_with]. rewrite !length_app.
  unfold id. split; [rewrite H1, H2, IH1; reflexivity | rewrite H1, IH2; reflexivity].
Qed.

Lemma generated_lookup (v1 v2 v3 v4 v5 v6 : Py.value) :
  let m : gmap (list N) Py.value :=
    list_to_map [(py "source_type", v1); (py "document_id", v2); (py "filename", v3);
                 (py "chunk_idx", v4); (py "total_chunks", v5); (py "content", v6)] in
  m !! py "source_type" = Some v1 /\ m !! py "document_id" = Some v2
  /\ m !! py "filename" = Some v3 /\ m !! py "chunk_idx" = Some v4
  /\ m !! py "total_chunks" = Some v5 /\ m !! py "content" = Some v6.
Proof. vm_compute. repeat split. Qed.

Lemma prepare_one_lookup (doc : ProcessedDocument) (i : nat) (chunk : list N) :
  chunks doc !! i = Some chunk ->
  fst (prepare_for_indexing doc) !! i = Some (Indexing.tag doc ++ chunk)
  /\ snd (prepare_for_indexing doc) !! i
     = Some (doc_metadata doc ∪
             list_to_map
               [(py "source_type", Py.VStr (source_type doc));
                (py "document_id", Py.VStr (document_id doc));
                (py "filename", Py.VStr (filename doc));
                (py "chunk_idx", Py.VInt (Z.of_nat i));
                (py "total_chunks", Py.VInt (Py.len (chunks doc)));
                (py "content", Py.VStr (Indexing.tag doc ++ chunk))]).
Proof.
  intros Hi. unfold prepare_for_indexing. cbn [fst snd].
  rewrite list_lookup_imap, list_lookup_fmap, Hi. cbn [fmap option_fmap option_map].
  unfold Indexing.tag. rewrite <- !app_assoc. split; reflexivity.
Qed.

(** X7: the text indexed for the [i]-th chunk of a document is the chunk
    behind the tag "[source_type:document_id]" and a blank line; its record
    holds the document's source type, id and file name, the chunk's position
    [i], the number of chunks and that text as content, for each of these
    keys that the document's own metadata does not define. *)
Theorem prepare_for_indexing_record (doc : ProcessedDocument) (i : nat)
    (chunk : list N) :
  chunks doc !! i = Some chunk ->
  let text := py "[" ++ source_type doc ++ py ":" ++ document_id doc ++ py "]"
              ++ [10%N; 10%N] ++ chunk in
  fst (prepare_for_indexing doc) !! i = Some text
  /\ exists md,
      snd (prepare_for_indexing doc) !! i = Some md
      /\ (doc_metadata doc !! py "source_type" = None ->
          md !! py "source_type" = Some (Py.VStr (source_type doc)))
      /\ (doc_metadata doc !! py "document_id" = None ->
          md !! py "document_id" = Some (Py.VStr (document_id doc)))
      /\ (doc_metadata doc !! py "filename" = None ->
          md !! py "filename" = Some (Py.VStr (filename doc)))
      /\ (doc_metadata doc !! py "chunk_idx" = None ->
          md !! py "chunk_idx" = Some (Py.VInt (Z.of_nat i)))
      /\ (doc_metadata doc !! py "total_chunks" = None ->
          md !! py "total_chunks" = Some (Py.VInt (Py.len (chunks doc))))
      /\ (doc_metadata doc !! py "content" = None ->
          md !! py "content" = Some (Py.VStr text)).
Proof.
  intros Hi text. destruct (prepare_one_lookup doc i chunk Hi) as [Ht Hm].
  assert (Htext : Indexing.tag doc ++ chunk = text).
  { unfold Indexing.tag, text. rewrite <- !app_assoc. reflexivity. }
  rewrite Htext in Ht, Hm. split; [exact Ht|].
  eexists. split; [exact Hm|].
  destruct (generated_lookup (Py.VStr (source_type doc)) (Py.VStr (document_id doc))
              (Py.VStr (filename doc)) (Py.VInt (Z.of_nat i))
              (Py.VInt (Py.len (chunks doc))) (Py.VStr text))
    as (G1 & G2 & G3 & G4 & G5 & G6).
  repeat split; intros Hnone; rewrite lookup_union_r by exact Hnone; assumption.
Qed.

(** X8: a key of the document's own metadata overrides the generated key of
    the same name in every record, "content" and "document_id" included. *)
Theorem prepare_for_indexing_override (doc : ProcessedDocument) (i : nat)
    (chunk key : list N) (v : Py.value) :
  chunks doc !! i = Some chunk ->
  doc_metadata doc !! key = Some v ->
  exists md, snd (prepare_for_indexing doc) !! i = Some md /\ md !! key = Some v.
Proof.
  intros Hi Hkey. destruct (prepare_one_lookup doc i chunk Hi) as [_ Hm].
  eexists. split; [exact Hm|]. apply lookup_union_Some_l. exact Hkey.
Qed.

End Prepare.

Lemma prepare_for_indexing_record_witness :
  fst (RAGPipeline.prepare_for_indexing Demo.document) !! 1%nat
  = Some (py "[uploaded_document:1a2b3c4d]" ++ [10%N; 10%N] ++ py "second chunk").
Proof.
  exact (proj1 (prepare_for_indexing_record Demo.document 1 (py "second chunk") eq_refl)).
Defined.

Lemma prepare_for_indexing_override_witness :
  exists md,
    snd (RAGPipeline.prepare_for_indexing Demo.document) !! 0%nat = Some md
    /\ md !! py "file_type" = Some (Py.VStr (py "txt")).
Proof.
  exact (prepare_for_indexing_override Demo.document 0 (py "first chunk")
           (py "file_type") (Py.VStr (py "txt")) eq_refl eq_refl).
Defined.

(** ** Building and growing the index *)

Section IndexGrowth.

Import IndexBuilder.

Variable encode : nat -> list N -> vec.
Variable ivf_train : Z -> list vec -> bool.

Lemma embed_documents_ok (self : t) (documents : list (list N)) :
  documents <> [] ->
  embed_documents encode self documents
  = (Py.Ok (imap (fun i d => encode (model_calls self + i / 256)%nat d) documents),
     used_model self ((length documents + 256 - 1) / 256)%nat).
Proof. destruct documents; [congruence|reflexivity]. Qed.

(** X9: a call of [build_index] that returns has replaced whatever was
    indexed before: there was at least one document and one record per
    document, the new index is an IVF index with [nlist] clusters and
    [nprobe = min(10, nlist)] when the IVF option was given with more than
    10000 documents and a flat index otherwise, its rows are the embeddings
    of the documents in their order, the metadata is exactly the given list,
    and rows and records are in step. *)
Theorem build_index_replaces (self self' : t) (documents : list (list N))
    (md : list (gmap (list N) Py.value)) (use_ivf : bool) (nlist : Z) :
  build_index encode ivf_train self documents md use_ivf nlist = (Py.Ok tt, self') ->
  documents <> []
  /\ length md = length documents
  /\ index self'
     = Some {| kind := if use_ivf && (10000 <? Py.len documents)
                       then IndexIVFFlat nlist (Z.min 10 nlist)
                       else IndexFlatIP;
               rows := imap (fun i d => encode (model_calls self + i / 256)%nat d)
                            documents |}
  /\ metadata self' = md
  /\ document_count self' = Py.len documents
  /\ in_sync self'.
Proof.
  unfold build_index.
  destruct (Z.eqb_spec (Py.len documents) (Py.len md)) as [Hn|Hn];
    cbn [negb]; [|discriminate].
  destruct documents as [|d documents]; [discriminate|].
  rewrite (embed_documents_ok self (d :: documents) ltac:(discriminate)).
  set (embeddings := imap _ (d :: documents)).
  assert (Hrows : length embeddings = length (d :: documents))
    by apply length_imap.
  clearbody embeddings.
  destruct (use_ivf && (10000 <? Py.len (d :: documents)));
    [destruct (ivf_train nlist embeddings); [|discriminate]|];
    intros [= <-];
    unfold in_sync, document_count, ntotal, add, Py.len in *;
    cbn [index metadata set_index set_metadata used_model rows kind app];
    (split; [discriminate|]); (split; [lia|]); (split; [reflexivity|]);
    (split; [reflexivity|]); split; lia.
Qed.

(** X10: a call of [add_documents] on an existing index that returns has
    only appended: there was at least one document, the old rows and the
    old records stay where they were, the embeddings of the new documents
    and the given records follow them in order, and the index kind is
    unchanged. *)
Theorem add_documents_appends (self self' : t) (idx : faiss_index)
    (documents : list (list N)) (md : list (gmap (list N) Py.value)) :
  index self = Some idx ->
  add_documents encode ivf_train self documents md = (Py.Ok tt, self') ->
  documents <> []
  /\ index self'
     = Some {| kind := kind idx;
               rows := rows idx
                       ++ imap (fun i d => encode (model_calls self + i / 256)%nat d)
                               documents |}
  /\ metadata self' = metadata self ++ md
  /\ document_count self' = document_count self + Py.len documents.
Proof.
  intros Hidx. unfold add_documents. rewrite Hidx. intros Hadd.
  assert (Hne : documents <> []) by (intros ->; discriminate).
  rewrite (embed_documents_ok self documents Hne) in Hadd.
  injection Hadd as <-. split; [exact Hne|].
  unfold document_count, ntotal, add, Py.len.
  cbn [index metadata set_index set_metadata used_model rows kind].
  rewrite Hidx, length_app, length_imap. repeat split. lia.
Qed.

Lemma add_documents_empty (self : t) (md : list (gmap (list N) Py.value)) :
  exists msg self',
    add_documents encode ivf_train self [] md = (Py.Raise (Py.ValueError msg), self')
    /\ index self' = index self
    /\ metadata self' = metadata self.
Proof.
  unfold add_documents, build_index. destruct (index self) as [idx|] eqn:Hidx.
  - simpl. do 2 eexists. split; [reflexivity|]. simpl. split; [exact Hidx|reflexivity].
  - destruct md as [|m md].
    + simpl. do 2 eexists. split; [reflexivity|]. simpl. split; [exact Hidx|reflexivity].
    + destruct (Z.eqb_spec (Py.len (@nil (list N))) (Py.len (m :: md))) as [E|_].
      { unfold Py.len in E. simpl in E. lia. }
      cbn [negb]. do 2 eexists. split; [reflexivity|]. split; [exact Hidx|reflexivity].
Qed.

(** X11: [add_documents] without documents always raises ValueError and
    leaves the index and the metadata as they were, whether an index exists
    or not and whatever records are given. *)
Theorem add_documents_nothing (self : t) (md : list (gmap (list N) Py.value)) :
  exists msg self',
    add_documents encode ivf_train self [] md = (Py.Raise (Py.ValueError msg), self')
    /\ index self' = index self
    /\ metadata self' = metadata self.
Proof. exact (add_documents_empty self md). Qed.

Lemma add_documents_in_step_aux (self self' : t) (documents : list (list N))
    (md : list (gmap (list N) Py.value)) :
  in_sync self ->
  length documents = length md ->
  add_documents encode ivf_train self documents md = (Py.Ok tt, self') ->
  in_sync self'
  /\ document_count self' = document_count self + Py.len documents.
Proof.
  intros Hsync Hlen Hadd.
  assert (Hne : documents <> []).
  { intros ->. destruct (add_documents_empty self md) as (msg & s & H & _).
    rewrite H in Hadd. discriminate. }
  unfold add_documents in Hadd. unfold in_sync, document_count in *.
  destruct (index self) as [idx|] eqn:Hidx.
  - rewrite (embed_documents_ok self documents Hne) in Hadd.
    injection Hadd as <-. unfold ntotal, add, Py.len in *.
    cbn [index metadata set_index set_metadata used_model rows].
    rewrite !length_app, length_imap. lia.
  - destruct (build_index_sync _ _ _ _ _ _ _ _ Hadd) as (i & -> & -> & Hn & Hrows).
    split; [exact Hn|]. unfold ntotal, Py.len in *. rewrite Hrows, length_imap. lia.
Qed.


(** X12: starting from a builder whose rows and records are in step, a
    successful [add_documents] with equally many documents and records
    leaves them in step and raises the document count by the number of
    documents. *)
Theorem add_documents_in_step (self self' : t) (documents : list (list N))
    (md : list (gmap (list N) Py.value)) :
  in_sync self ->
  length documents = length md ->
  add_documents encode ivf_train self documents md = (Py.Ok tt, self') ->
  in_sync self'
  /\ document_count self' = document_count self + Py.len documents.
Proof. exact (add_documents_in_step_aux self self' documents md). Qed.

End IndexGrowth.

Lemma build_index_replaces_witness :
  let self' := snd (IndexBuilder.build_index Demo.encode (fun _ _ => true) Demo.builder
                      [py "one"; py "two"]
                      [Demo.record "Z" "one"; Demo.record "Z" "two"] false 100) in
  IndexBuilder.document_count self' = 2
  /\ IndexBuilder.metadata self' = [Demo.record "Z" "one"; Demo.record "Z" "two"].
Proof.
  intros self'.
  destruct (build_index_replaces Demo.encode (fun _ _ => true) Demo.builder self'
              [py "one"; py "two"] [Demo.record "Z" "one"; Demo.record "Z" "two"]
              false 100 ltac:(vm_compute; reflexivity))
    as (_ & _ & _ & Hmd & Hcount & _).
  split; [exact Hcount | exact Hmd].
Defined.

Lemma add_documents_appends_witness :
  let self' := snd (IndexBuilder.add_documents Demo.encode (fun _ _ => true)
                      Demo.builder [py "one"] [Demo.record "Z" "one"]) in
  IndexBuilder.document_count self' = 5 + 1
  /\ IndexBuilder.metadata self'
     = IndexBuilder.metadata Demo.builder ++ [Demo.record "Z" "one"].
Proof.
  intros self'.
  destruct (add_documents_appends Demo.encode (fun _ _ => true) Demo.builder self' _
              [py "one"] [Demo.record "Z" "one"] eq_refl ltac:(vm_compute; reflexivity))
    as (_ & _ & Hmd & Hcount).
  split; [exact Hcount | exact Hmd].
Defined.

Lemma add_documents_in_step_witness :
  let self' := snd (IndexBuilder.add_documents Demo.encode (fun _ _ => true)
                      Demo.builder [py "one"] [Demo.record "Z" "one"]) in
  IndexBuilder.in_sync self' /\ IndexBuilder.document_count self' = 5 + 1.
Proof.
  exact (add_documents_in_step Demo.encode (fun _ _ => true) Demo.builder _
           [py "one"] [Demo.record "Z" "one"] eq_refl eq_refl eq_refl).
Defined.

(** ** More on the query cache and on retrieval *)

Section RetrievalMore.

Import Retriever.

Variable encode : nat -> list N -> IndexBuilder.vec.
Variable search :
  IndexBuilder.faiss_index -> IndexBuilder.vec -> Z -> Py.result (list (Z * Q)).

(** A key that is already in the cache answers the call. *)
Lemma embed_query_hit (ib : IndexBuilder.t) (self : t) (q key : list N)
    (v : IndexBuilder.vec) :
  TextProcessor.compute_hash q = Py.Ok key ->
  Dict.get (_query_cache self) key = Some v ->
  _embed_query encode ib self q = (Py.Ok v, (ib, self)).
Proof.
  intros Hkey Hget. unfold _embed_query, Dict.contains. rewrite Hkey, Hget. simpl.
  rewrite Hget. reflexivity.
Qed.

(** After a call, the key of the query is in the cache with the vector that
    was returned. *)
Lemma embed_query_stores (ib : IndexBuilder.t) (self : t) (q key : list N) :
  TextProcessor.compute_hash q = Py.Ok key ->
  Py.len (_query_cache self) <= 1000 ->
  exists v ib1 self1,
    _embed_query encode ib self q = (Py.Ok v, (ib1, self1))
    /\ Dict.get (_query_cache self1) key = Some v.
Proof.
  intros Hkey Hlen.
  destruct (Dict.get (_query_cache self) key) as [v|] eqn:Hget.
  - exists v, ib, self. split; [apply embed_query_hit with (key := key); assumption|].
    exact Hget.
  - pose proof (cache_after_miss (_query_cache self) key
                  (encode (IndexBuilder.model_calls ib) q) Hlen Hget) as Hmiss.
    cbv zeta in Hmiss. destruct Hmiss as (_ & Hget' & _).
    unfold _embed_query, Dict.contains. rewrite Hkey, Hget.
    cbn [negb IndexBuilder.embed_query _query_cache set_cache]. rewrite Hget'.
    do 3 eexists. split; [reflexivity|]. exact Hget'.
Qed.

(** X13: the cache is keyed by the 12-digit hash alone: when two queries
    have the same hash, embedding the second right after the first returns
    the vector of the first, does not call the model and changes nothing. *)
Theorem embed_query_shared_key (ib : IndexBuilder.t) (self : t) (q1 q2 key : list N) :
  TextProcessor.compute_hash q1 = Py.Ok key ->
  TextProcessor.compute_hash q2 = Py.Ok key ->
  Py.len (_query_cache self) <= 1000 ->
  exists v ib1 self1,
    _embed_query encode ib self q1 = (Py.Ok v, (ib1, self1))
    /\ _embed_query encode ib1 self1 q2 = (Py.Ok v, (ib1, self1)).
Proof.
  intros H1 H2 Hlen.
  destruct (embed_query_stores ib self q1 key H1 Hlen) as (v & ib1 & self1 & Hcall & Hget).
  exists v, ib1, self1. split; [exact Hcall|].
  apply embed_query_hit with (key := key); assumption.
Qed.

(** *** Where results come from *)

(** Each result that the loop adds belongs to a candidate whose row is not
    the sentinel -1: its metadata is the record stored at that row, its
    score is the candidate's and reaches [min_score], and its content is
    the stored content cut to [max_context_chars]. *)
Lemma collect_origin (self : t) (store : list (gmap (list N) Py.value))
    (filters : option (gmap (list N) Py.value)) (min_score : Q) (k : Z) :
  forall (candidates : list (Z * Q)) (results out : list RetrievalResult),
    collect self store filters min_score k candidates results = Py.Ok out ->
    exists new,
      out = results ++ new
      /\ Forall (fun r =>
                   exists idx full,
                     (idx, score r) ∈ candidates
                     /\ idx <> -1
                     /\ Py.index store idx = Some (metadata r)
                     /\ Qltb (score r) min_score = false
                     /\ content_of (metadata r) idx = Py.Ok full
                     /\ content r = Py.slice full 0 (max_context_chars self)) new.
Proof.
  induction candidates as [|[idx sc] rest IH]; intros results out; simpl.
  - intros [= <-]. exists []. rewrite app_nil_r. split; [reflexivity|constructor].
  - assert (Hskip :
      collect self store filters min_score k rest results = Py.Ok out ->
      exists new,
        out = results ++ new
        /\ Forall (fun r =>
                     exists idx0 full,
                       (idx0, score r) ∈ (idx, sc) :: rest
                       /\ idx0 <> -1
                       /\ Py.index store idx0 = Some (metadata r)
                       /\ Qltb (score r) min_score = false
                       /\ content_of (metadata r) idx0 = Py.Ok full
                       /\ content r = Py.slice full 0 (max_context_chars self)) new).
    { intros H. destruct (IH _ _ H) as (new & Hout & Hall). exists new.
      split; [exact Hout|]. eapply Forall_impl; [exact Hall|].
      intros r (i & full & Hin & Hrest). exists i, full. split; [right; exact Hin|exact Hrest]. }
    destruct (Z.eqb_spec idx (-1)) as [|Hidx]; [exact Hskip|].
    destruct (Qltb sc min_score) eqn:Hsc; [exact Hskip|].
    destruct (Py.index store idx) as [md|] eqn:Hmd; [|discriminate].
    destruct (truthy_filters filters && negb (matches md filters)); [exact Hskip|].
    destruct (content_of md idx) as [full|e] eqn:Hc; cbn [Py.bind]; [|discriminate].
    set (r := {| score := sc; content := Py.slice full 0 (max_context_chars self);
                 metadata := md |}).
    assert (Hr : exists idx0 full0,
               (idx0, score r) ∈ (idx, sc) :: rest
               /\ idx0 <> -1
               /\ Py.index store idx0 = Some (metadata r)
               /\ Qltb (score r) min_score = false
               /\ content_of (metadata r) idx0 = Py.Ok full0
               /\ content r = Py.slice full0 (0) (max_context_chars self)).
    { exists idx, full. split; [left|]. repeat split; assumption. }
    destruct (k <=? Py.len (results ++ [r])).
    + intros [= <-]. exists [r]. split; [reflexivity|]. constructor; [exact Hr|constructor].
    + intros H. destruct (IH _ _ H) as (new & Hout & Hall).
      exists (r :: new). rewrite <- app_assoc in Hout. split; [exact Hout|].
      constructor; [exact Hr|]. eapply Forall_impl; [exact Hall|].
      intros r' (i & f' & Hin & Hrest). exists i, f'. split; [right; exact Hin|exact Hrest].
Qed.

Lemma embed_query_metrics (ib ib' : IndexBuilder.t) (self self' : t) (q : list N)
    (res : Py.result IndexBuilder.vec) :
  _embed_query encode ib self q = (res, (ib', self')) ->
  metrics_history self' = metrics_history self.
Proof.
  unfold _embed_query.
  destruct (TextProcessor.compute_hash q) as [key|e]; [|intros [= _ _ <-]; reflexivity].
  destruct (Dict.contains (_query_cache self) key); cbn [negb].
  - destruct (Dict.get (_query_cache self) key); intros [= _ _ <-]; reflexivity.
  - cbn [IndexBuilder.embed_query].
    match goal with
    | |- context [Dict.get (_query_cache ?s) key] =>
        destruct (Dict.get (_query_cache s) key)
    end; intros [= _ _ <-]; reflexivity.
Qed.

(** What [retrieve] does once the index is ready, step by step. *)
Lemma retrieve_ready (ib : IndexBuilder.t) (self : t) (q : list N) (k : option Z)
    (filters : option (gmap (list N) Py.value)) (min_score : Q)
    (results : list RetrievalResult) (st : IndexBuilder.t * t) :
  IndexBuilder.is_ready ib = true ->
  retrieve encode search ib self q k filters min_score = (Py.Ok results, st) ->
  exists v ib1 self1 idx candidates,
    _embed_query encode ib self q = (Py.Ok v, (ib1, self1))
    /\ IndexBuilder.index ib1 = Some idx
    /\ search idx v (search_k (resolve_k self k) filters) = Py.Ok candidates
    /\ collect self1 (IndexBuilder.metadata ib1) filters min_score (resolve_k self k)
         candidates [] = Py.Ok results
    /\ st = (ib1, add_metrics self1 (metrics_of q results)).
Proof.
  intros Hready. unfold retrieve. rewrite Hready. cbn [negb].
  destruct (_embed_query encode ib self q) as [[v|e] [ib1 self1]]; [|discriminate].
  destruct (IndexBuilder.index ib1) as [idx|] eqn:Hidx; [|discriminate].
  destruct (search idx v _) as [candidates|e] eqn:Hsearch; [|discriminate].
  destruct (collect _ _ _ _ _ _ _) as [out|e] eqn:Hcol; [|discriminate].
  intros [= <- <-]. exists v, ib1, self1, idx, candidates.
  split; [reflexivity|]. split; [exact Hidx|]. split; [exact Hsearch|].
  split; [exact Hcol|reflexivity].
Qed.

(** X14: whatever the filters, every result that [retrieve] returns is
    backed by a stored record: there is a row index other than the sentinel
    -1 at which the metadata store holds exactly the result's metadata, and
    the result's score is not below [min_score]. *)
Theorem retrieve_results_backed (ib : IndexBuilder.t) (self : t) (q : list N)
    (k : option Z) (filters : option (gmap (list N) Py.value)) (min_score : Q)
    (results : list RetrievalResult) (st : IndexBuilder.t * t) :
  retrieve encode search ib self q k filters min_score = (Py.Ok results, st) ->
  Forall (fun r =>
            Qltb (score r) min_score = false
            /\ exists idx,
                idx <> -1
                /\ Py.index (IndexBuilder.metadata ib) idx = Some (metadata r)) results.
Proof.
  intros H. destruct (IndexBuilder.is_ready ib) eqn:Hready.
  - destruct (retrieve_ready _ _ _ _ _ _ _ _ Hready H)
      as (v & ib1 & self1 & idx & candidates & Hemb & _ & _ & Hcol & _).
    destruct (embed_query_frame _ _ _ _ _ _ _ Hemb) as (_ & Hmd & _ & _).
    destruct (collect_origin _ _ _ _ _ _ _ _ Hcol) as (new & Hout & Hall).
    simpl in Hout. subst new. rewrite Hmd in Hall.
    eapply Forall_impl; [exact Hall|].
    intros r (i & full & _ & Hi & Hidx & Hsc & _). split; [exact Hsc|]. eauto.
  - unfold retrieve in H. rewrite Hready in H. injection H as <- _. constructor.
Qed.

(** X15: with a budget [max_context_chars] that is not negative, the content
    of every result is at most that many characters long and is the
    beginning of the stored content of its record (or of the
    "[Record: ...]" text that stands in for a record without content). *)
Theorem retrieve_content_budget (ib : IndexBuilder.t) (self : t) (q : list N)
    (k : option Z) (filters : option (gmap (list N) Py.value)) (min_score : Q)
    (results : list RetrievalResult) (st : IndexBuilder.t * t) :
  0 <= max_context_chars self ->
  retrieve encode search ib self q k filters min_score = (Py.Ok results, st) ->
  Forall (fun r =>
            Py.len (content r) <= max_context_chars self
            /\ exists idx full,
                content_of (metadata r) idx = Py.Ok full
                /\ content r `prefix_of` full) results.
Proof.
  intros Hmax H. destruct (IndexBuilder.is_ready ib) eqn:Hready.
  - destruct (retrieve_ready _ _ _ _ _ _ _ _ Hready H)
      as (v & ib1 & self1 & idx & candidates & Hemb & _ & _ & Hcol & _).
    destruct (embed_query_frame _ _ _ _ _ _ _ Hemb) as (_ & _ & _ & Hbudget).
    destruct (collect_origin _ _ _ _ _ _ _ _ Hcol) as (new & Hout & Hall).
    simpl in Hout. subst new. rewrite Hbudget in Hall.
    eapply Forall_impl; [exact Hall|].
    intros r (i & full & _ & _ & _ & _ & Hfull & ->). split.
    + pose proof (len_slice_le full 0 (max_context_chars self) Hmax). lia.
    + exists i, full. split; [exact Hfull|].
      unfold Py.slice, Py.adjust. change (0 <? 0) with false. cbv iota.
      pose proof (len_nonneg full). rewrite (Z.min_l 0) by lia. simpl drop.
      apply prefix_take.
  - unfold retrieve in H. rewrite Hready in H. injection H as <- _. constructor.
Qed.

(** X16: [retrieve] adds exactly one metrics record when it reaches the
    search and returns, the record built from the query and the returned
    results; it adds none when the index is not ready and none when it
    raises. *)
Theorem retrieve_metrics (ib ib' : IndexBuilder.t) (self self' : t) (q : list N)
    (k : option Z) (filters : option (gmap (list N) Py.value)) (min_score : Q)
    (res : Py.result (list RetrievalResult)) :
  retrieve encode search ib self q k filters min_score = (res, (ib', self')) ->
  metrics_history self'
  = metrics_history self
    ++ match res with
       | Py.Ok results =>
           if IndexBuilder.is_ready ib
           then [{| query := Py.slice q 0 100;
                    num_results := Py.len results;
                    top_score := match results with r :: _ => score r | [] => 0%Q end;
                    avg_score := match results with
                                 | _ :: _ => (Qsum (score <$> results)
                                              / inject_Z (Py.len results))%Q
                                 | [] => 0%Q
                                 end |}]
           else []
       | Py.Raise _ => []
       end.
Proof.
  unfold retrieve. destruct (IndexBuilder.is_ready ib); cbn [negb].
  - destruct (_embed_query encode ib self q) as [[v|e] [ib1 self1]] eqn:Hemb;
      pose proof (embed_query_metrics _ _ _ _ _ _ Hemb) as Hm.
    + destruct (IndexBuilder.index ib1);
        [|intros [= <- _ <-]; rewrite app_nil_r; exact Hm].
      destruct (search _ _ _); [|intros [= <- _ <-]; rewrite app_nil_r; exact Hm].
      destruct (collect _ _ _ _ _ _ _);
        intros [= <- _ <-]; [|rewrite app_nil_r; exact Hm].
      simpl. rewrite Hm. reflexivity.
    + intros [= <- _ <-]. rewrite app_nil_r. exact Hm.
  - intros [= <- _ <-]. rewrite app_nil_r. reflexivity.
Qed.

End RetrievalMore.

(** Two different queries with the same cache key. *)
Lemma embed_query_shared_key_witness :
  py "e12dd1cee897" <> py "74e44342d778"
  /\ exists v ib1 self1,
      Retriever._embed_query Demo.drifting_encode Demo.builder Retriever.default
        (py "e12dd1cee897") = (Py.Ok v, (ib1, self1))
      /\ Retriever._embed_query Demo.drifting_encode ib1 self1 (py "74e44342d778")
         = (Py.Ok v, (ib1, self1)).
Proof.
  split; [vm_compute; discriminate|].
  apply (embed_query_shared_key Demo.drifting_encode Demo.builder Retriever.default
           (py "e12dd1cee897") (py "74e44342d778") (py "7b72418c3508")).
  - vm_compute. reflexivity.
  - vm_compute. reflexivity.
  - vm_compute. discriminate.
Defined.

Lemma retrieve_results_backed_witness :
  let out := Retriever.retrieve Demo.encode Retriever.flat_search Demo.builder
               Retriever.default (py "what is the budget?") (Some 2) None (1 # 2)%Q in
  let results := match fst out with Py.Ok r => r | Py.Raise _ => [] end in
  Py.len results = 2
  /\ Forall (fun r =>
               Retriever.Qltb (Retriever.score r) (1 # 2)%Q = false
               /\ exists idx,
                   idx <> -1
                   /\ Py.index (IndexBuilder.metadata Demo.builder) idx
                      = Some (Retriever.metadata r)) results.
Proof.
  intros out results.
  assert (Hout : out = (Py.Ok results, snd out)) by (vm_compute; reflexivity).
  split; [vm_compute; reflexivity|].
  exact (retrieve_results_backed Demo.encode Retriever.flat_search Demo.builder
           Retriever.default (py "what is the budget?") (Some 2) None (1 # 2)%Q
           results (snd out) Hout).
Defined.

Lemma retrieve_content_budget_witness :
  let self := Retriever.init 4 3 in
  let out := Retriever.retrieve Demo.encode Retriever.flat_search Demo.builder
               self (py "what is the budget?") (Some 2) None 0%Q in
  let results := match fst out with Py.Ok r => r | Py.Raise _ => [] end in
  Retriever.content <$> results = [py "alp"; py "bet"]
  /\ Forall (fun r =>
               Py.len (Retriever.content r) <= 3
               /\ exists idx full,
                   Retriever.content_of (Retriever.metadata r) idx = Py.Ok full
                   /\ Retriever.content r `prefix_of` full) results.
Proof.
  intros self out results.
  assert (Hout : out = (Py.Ok results, snd out)) by (vm_compute; reflexivity).
  split; [vm_compute; reflexivity|].
  exact (retrieve_content_budget Demo.encode Retriever.flat_search Demo.builder
           self (py "what is the budget?") (Some 2) None 0%Q
           results (snd out) ltac:(vm_compute; discriminate) Hout).
Defined.

Lemma retrieve_metrics_witness :
  let out := Retriever.retrieve Demo.encode Retriever.flat_search Demo.builder
               Retriever.default (py "what is the budget?") (Some 2) None 0%Q in
  Retriever.num_results <$> Retriever.metrics_history (snd (snd out)) = [2].
Proof.
  intros out.
  pose proof (retrieve_metrics Demo.encode Retriever.flat_search Demo.builder
                (fst (snd out)) Retriever.default (snd (snd out))
                (py "what is the budget?") (Some 2) None 0%Q (fst out)
                ltac:(vm_compute; reflexivity)) as H.
  rewrite H. vm_compute. reflexivity.
Defined.

(** ** More on the generation call *)

Section GenerationMore.

Import LLMGateway.

Variable api : nat -> request -> api_outcome.

(** The loop, entered at [attempt], with [j] failing calls followed by a
    call that returns a choice. *)
Lemma attempts_until_success (max_retries : Z) (req : request)
    (c : option (list N)) (cs : list (option (list N))) (u : option (Z * Z * Z)) (l : Q) :
  forall (j remaining : nat) (attempt : Z) (self : t),
    (j < remaining)%nat ->
    attempt + Z.of_nat remaining <= max_retries ->
    (forall i, (i < j)%nat -> fails (api (api_calls self + i)%nat req)) ->
    api (api_calls self + j)%nat req = ApiResponse (c :: cs) u l ->
    attempts api remaining attempt max_retries self req
    = ({| content := default [] c; model := gw_model self; usage := u;
          latency_ms := l; success := true; error := None |},
       {| api_key := api_key self; gw_model := gw_model self;
          max_tokens := max_tokens self; client := client self;
          api_calls := (api_calls self + S j)%nat;
          slept := slept self ++ backoff attempt j |}).
Proof.
  induction j as [|j IH]; intros remaining attempt self Hj Hmax Hfail Hok;
    (destruct remaining as [|remaining]; [lia|]); rewrite attempts_step.
  - rewrite Nat.add_0_r in Hok. rewrite Hok. unfold backoff, called. simpl.
    rewrite app_nil_r. repeat f_equal. lia.
  - destruct (fails_attempt_result (called self) _ (Hfail 0%nat ltac:(lia))) as (e & He).
    rewrite Nat.add_0_r in He. rewrite He.
    destruct (Z.ltb_spec attempt (max_retries - 1)); [|lia].
    rewrite (IH remaining (attempt + 1) (sleep (called self) (2 ^ attempt)));
      [| lia | lia | |].
    + rewrite backoff_cons. simpl. rewrite <- app_assoc. simpl. repeat f_equal. lia.
    + intros i Hi.
      change (api_calls (sleep (called self) (2 ^ attempt))) with (S (api_calls self)).
      replace (S (api_calls self) + i)%nat with (api_calls self + S i)%nat by lia.
      apply Hfail. lia.
    + change (api_calls (sleep (called self) (2 ^ attempt))) with (S (api_calls self)).
      replace (S (api_calls self) + j)%nat with (api_calls self + S j)%nat by lia.
      exact Hok.
Qed.

(** X17: with a client, when the first [j] API calls fail and the next one,
    still within [max_retries], returns a choice, [generate] returns that
    choice as a successful response (a missing content becomes the empty
    string) with the usage and latency of that call; it has made [j + 1]
    calls and slept 1, 2, 4, ... seconds after each of the [j] failures. *)
Theorem generate_first_success (self : t) (system_prompt user_prompt : list N)
    (max_tokens : option Z) (temperature : Q) (max_retries : Z) (j : nat)
    (c : option (list N)) (cs : list (option (list N))) (u : option (Z * Z * Z)) (l : Q) :
  client self = true ->
  Z.of_nat j < max_retries ->
  (forall i req, (i < j)%nat -> fails (api (api_calls self + i)%nat req)) ->
  (forall req, api (api_calls self + j)%nat req = ApiResponse (c :: cs) u l) ->
  exists self',
    generate api self system_prompt user_prompt max_tokens temperature max_retries
    = ({| content := default [] c; model := gw_model self; usage := u;
          latency_ms := l; success := true; error := None |},
       self')
    /\ api_calls self' = (api_calls self + S j)%nat
    /\ slept self' = slept self ++ ((fun i => 2 ^ Z.of_nat i) <$> seq 0 j).
Proof.
  intros Hclient Hj Hfail Hok. unfold generate. rewrite Hclient. cbn [negb].
  match goal with
  | |- context [attempts api _ _ _ _ ?r] =>
      rewrite (attempts_until_success max_retries r c cs u l j (Z.to_nat max_retries) 0 self)
  end; [| lia | lia | intros i Hi; apply Hfail; exact Hi | apply Hok].
  eexists. split; [reflexivity|]. split; reflexivity.
Qed.

(** However the API behaves, the loop makes at most [remaining] calls (and
    at least one when [remaining] is not 0) and returns either a success
    without error or a failure with an error and no content. *)
Lemma attempts_bounded (max_retries : Z) (req : request) :
  forall (remaining : nat) (attempt : Z) (self : t),
    remaining = 0%nat \/ attempt + Z.of_nat remaining = max_retries ->
    let '(response, self') := attempts api remaining attempt max_retries self req in
    (api_calls self + Nat.min 1 remaining <= api_calls self'
     <= api_calls self + remaining)%nat
    /\ (if success response
        then error response = None
        else content response = [] /\ exists msg, error response = Some msg).
Proof.
  induction remaining as [|remaining IH]; intros attempt self Hcons.
  - simpl. repeat split; try lia. eauto.
  - destruct Hcons as [|Hcons]; [discriminate|]. rewrite attempts_step.
    destruct (attempt_result (called self) (api (api_calls self) req)) as [r|e] eqn:Hres.
    + simpl. repeat split; try lia.
      destruct (api (api_calls self) req) as [e|[|c cs] u l]; simpl in Hres;
        try discriminate. injection Hres as <-. reflexivity.
    + destruct (Z.ltb_spec attempt (max_retries - 1)).
      * specialize (IH (attempt + 1) (sleep (called self) (2 ^ attempt))
                      ltac:(right; lia)).
        destruct (attempts api remaining (attempt + 1) max_retries
                    (sleep (called self) (2 ^ attempt)) req) as [r self'].
        simpl in IH. destruct IH as (H1 & H3).
        split; [simpl in *; lia | exact H3].
      * simpl. repeat split; try lia. eauto.
Qed.

(** X18: however the API behaves, [generate] makes at most [max_retries]
    API calls (none, and no change of the gateway at all, without a client)
    and returns either a success without error text or a failure with empty
    content and an error text. *)
Theorem generate_bounded (self : t) (system_prompt user_prompt : list N)
    (max_tokens : option Z) (temperature : Q) (max_retries : Z) :
  let '(response, self') :=
    generate api self system_prompt user_prompt max_tokens temperature max_retries in
  (api_calls self <= api_calls self' <= api_calls self + Z.to_nat max_retries)%nat
  /\ (client self = false -> self' = self)
  /\ (if success response
      then error response = None
      else content response = [] /\ exists msg, error response = Some msg).
Proof.
  unfold generate. destruct (client self) eqn:Hclient; cbn [negb].
  - assert (Hc : Z.to_nat max_retries = 0%nat
                 \/ 0 + Z.of_nat (Z.to_nat max_retries) = max_retries).
    { destruct (Z.to_nat max_retries) eqn:E; [left; reflexivity|right; lia]. }
    match goal with
    | |- context [attempts api ?n ?a ?m ?s ?r] =>
        pose proof (attempts_bounded m r n a s Hc) as H;
        destruct (attempts api n a m s r) as [response self']
    end.
    destruct H as (H1 & H3).
    repeat split; try assumption; try lia; intros; congruence.
  - simpl. repeat split; try lia. eauto.
Qed.

End GenerationMore.

Lemma generate_first_success_witness :
  exists self',
    LLMGateway.generate
      (fun n _ => if (n <? 2)%nat then LLMGateway.ApiRaise (Py.RuntimeError (py "busy"))
                  else LLMGateway.ApiResponse [Some (py "the answer")] (Some (10, 5, 15))
                         (120 # 1)%Q)
      (LLMGateway.init (Some (py "key")) (py "gemini") 512 true)
      (py "system") (py "user") None LLMGateway.default_temperature 3
    = ({| LLMGateway.content := py "the answer"; LLMGateway.model := py "gemini";
          LLMGateway.usage := Some (10, 5, 15); LLMGateway.latency_ms := (120 # 1)%Q;
          LLMGateway.success := true; LLMGateway.error := None |},
       self')
    /\ LLMGateway.api_calls self' = 3%nat
    /\ LLMGateway.slept self' = [1; 2].
Proof.
  exact (generate_first_success
           (fun n _ => if (n <? 2)%nat then LLMGateway.ApiRaise (Py.RuntimeError (py "busy"))
                       else LLMGateway.ApiResponse [Some (py "the answer")]
                              (Some (10, 5, 15)) (120 # 1)%Q)
           (LLMGateway.init (Some (py "key")) (py "gemini") 512 true)
           (py "system") (py "user") None LLMGateway.default_temperature 3 2
           (Some (py "the answer")) [] (Some (10, 5, 15)) (120 # 1)%Q
           eq_refl eq_refl
           (fun i _ Hi => match i as n return (n < 2)%nat ->
                            LLMGateway.fails
                              (if (0 + n <? 2)%nat
                               then LLMGateway.ApiRaise (Py.RuntimeError (py "busy"))
                               else LLMGateway.ApiResponse [Some (py "the answer")]
                                      (Some (10, 5, 15)) (120 # 1)%Q) with
                          | 0%nat | 1%nat => fun _ => I
                          | S (S n) => fun H => match Nat.nlt_0_r _ (proj2 (Nat.succ_lt_mono _ _)
                                                   (proj2 (Nat.succ_lt_mono _ _) H)) with end
                          end Hi)
           (fun _ => eq_refl)).
Defined.

(** ** Citations *)

Section Citations.

Import RAGPipeline.

Lemma get_citations_from_spec (results : list Retriever.RetrievalResult) :
  forall i,
    match get_citations_from i results with
    | Py.Ok cs =>
        Forall Citing.numeric_chunk_idx results
        /\ cit_index <$> cs = (fun n => i + Z.of_nat n) <$> seq 0 (length results)
        /\ Forall2 (fun r c =>
                      cit_document_id c
                      = Py.get_default (Retriever.metadata r) (py "document_id")
                          (Py.VStr (py "N/A"))
                      /\ cit_filename c
                         = Py.get_default (Retriever.metadata r) (py "filename")
                             (Py.VStr (py "Unknown"))
                      /\ exists chunk_idx,
                           Py.num (Py.get_default (Retriever.metadata r) (py "chunk_idx")
                                     (Py.VInt 0)) = Some chunk_idx
                           /\ cit_chunk c
                              = Py.str_of_int (chunk_idx + 1) ++ py "/"
                                ++ Py.str_of (Py.get_default (Retriever.metadata r)
                                                (py "total_chunks") (Py.VInt 1)))
             results cs
    | Py.Raise e =>
        e = Py.TypeError /\ Exists (fun r => ~ Citing.numeric_chunk_idx r) results
    end.
Proof.
  induction results as [|r rest IH]; intros i.
  - simpl. repeat split; constructor.
  - cbn [get_citations_from].
    destruct (Py.num (Py.get_default (Retriever.metadata r) (py "chunk_idx") (Py.VInt 0)))
      as [chunk_idx|] eqn:Hnum.
    + specialize (IH (i + 1)).
      destruct (get_citations_from (i + 1) rest) as [cs|e]; cbn [Py.bind].
      * destruct IH as (Hall & Hidx & Hrel). split; [|split].
        -- constructor; [|exact Hall]. unfold Citing.numeric_chunk_idx. congruence.
        -- cbn [length seq]. rewrite !fmap_cons. cbn [cit_index]. f_equal; [lia|].
           rewrite Hidx, <- fmap_S_seq, <- list_fmap_compose. apply list_fmap_ext.
           intros _ n _. simpl. lia.
        -- constructor; [|exact Hrel]. cbn [cit_document_id cit_filename cit_chunk].
           split; [reflexivity|]. split; [reflexivity|].
           exists chunk_idx. split; [exact Hnum|reflexivity].
      * destruct IH as (He & Hex). split; [exact He|]. apply Exists_cons_tl. exact Hex.
    + split; [reflexivity|]. apply Exists_cons_hd.
      unfold Citing.numeric_chunk_idx. intros H. apply H. exact Hnum.
Qed.

(** X19: [get_citations] returns one citation per result, numbered 1, 2, 3,
    ... in the order of the results, exactly when the [chunk_idx] of every
    result is absent or a number; otherwise it raises TypeError. *)
Theorem get_citations_numbered (results : list Retriever.RetrievalResult) :
  match get_citations results with
  | Py.Ok cs =>
      Forall Citing.numeric_chunk_idx results
      /\ length cs = length results
      /\ cit_index <$> cs = (fun n => Z.of_nat n + 1) <$> seq 0 (length results)
  | Py.Raise e =>
      e = Py.TypeError /\ Exists (fun r => ~ Citing.numeric_chunk_idx r) results
  end.
Proof.
  unfold get_citations. pose proof (get_citations_from_spec results 1) as H.
  destruct (get_citations_from 1 results) as [cs|e]; [|exact H].
  destruct H as (Hall & Hidx & Hrel). split; [exact Hall|].
  split; [symmetry; exact (Forall2_length _ _ _ Hrel)|].
  rewrite Hidx. apply list_fmap_ext. intros _ n _. lia.
Qed.

(** X20: each citation carries the document id and file name of its result
    ("N/A" and "Unknown" when the record lacks them), and its chunk label is
    the result's [chunk_idx] plus one (1 when absent), a slash, and the
    result's [total_chunks] (1 when absent). *)
Theorem get_citations_fields (results : list Retriever.RetrievalResult)
    (cs : list citation) :
  get_citations results = Py.Ok cs ->
  Forall2 (fun r c =>
             cit_document_id c
             = Py.get_default (Retriever.metadata r) (py "document_id")
                 (Py.VStr (py "N/A"))
             /\ cit_filename c
                = Py.get_default (Retriever.metadata r) (py "filename")
                    (Py.VStr (py "Unknown"))
             /\ exists chunk_idx,
                  Py.num (Py.get_default (Retriever.metadata r) (py "chunk_idx")
                            (Py.VInt 0)) = Some chunk_idx
                  /\ cit_chunk c
                     = Py.str_of_int (chunk_idx + 1) ++ py "/"
                       ++ Py.str_of (Py.get_default (Retriever.metadata r)
                                       (py "total_chunks") (Py.VInt 1)))
    results cs.
Proof.
  unfold get_citations. intros H. pose proof (get_citations_from_spec results 1) as Hs.
  rewrite H in Hs. exact (proj2 (proj2 Hs)).
Qed.

End Citations.

Lemma get_citations_fields_witness :
  let results := [{| Retriever.score := (12345 # 100000)%Q; Retriever.content := py "alpha";
                     Retriever.metadata := Demo.record "X" "alpha" |};
                  {| Retriever.score := (1 # 10)%Q; Retriever.content := py "beta";
                     Retriever.metadata :=
                       <[py "chunk_idx" := Py.VInt 2]>
                         (<[py "total_chunks" := Py.VInt 5]> (Demo.record "Y" "beta")) |}] in
  exists cs,
    RAGPipeline.get_citations results = Py.Ok cs
    /\ RAGPipeline.cit_chunk <$> cs = [py "1/1"; py "3/5"]
    /\ Forall2 (fun r c =>
                  RAGPipeline.cit_document_id c
                  = Py.get_default (Retriever.metadata r) (py "document_id")
                      (Py.VStr (py "N/A"))
                  /\ RAGPipeline.cit_filename c
                     = Py.get_default (Retriever.metadata r) (py "filename")
                         (Py.VStr (py "Unknown"))
                  /\ exists chunk_idx,
                       Py.num (Py.get_default (Retriever.metadata r) (py "chunk_idx")
                                 (Py.VInt 0)) = Some chunk_idx
                       /\ RAGPipeline.cit_chunk c
                          = Py.str_of_int (chunk_idx + 1) ++ py "/"
                            ++ Py.str_of (Py.get_default (Retriever.metadata r)
                                            (py "total_chunks") (Py.VInt 1)))
         results cs.
Proof.
  intros results. eexists. split; [vm_compute; reflexivity|].
  split; [vm_compute; reflexivity|].
  apply (get_citations_fields results). vm_compute. reflexivity.
Defined.

(** ** More on the pipeline *)

Section PipelineMore.

Import RAGPipeline.

Variable encode : nat -> list N -> IndexBuilder.vec.
Variable ivf_train : Z -> list IndexBuilder.vec -> bool.
Variable search :
  IndexBuilder.faiss_index -> IndexBuilder.vec -> Z -> Py.result (list (Z * Q)).
Variable api : nat -> LLMGateway.request -> LLMGateway.api_outcome.

Lemma query_keeps_flag (self : t) (question : list N) (k : option Z)
    (filters : option (gmap (list N) Py.value)) (key : list N) :
  _is_initialized (snd (query encode search api self question k filters key))
  = _is_initialized self.
Proof.
  unfold query. destruct (_is_initialized self) eqn:Hinit; cbn [negb]; [|exact Hinit].
  destruct (Retriever.retrieve _ _ _ _ _ _ _ _) as [[[|r rs]|e] [ib rt]];
    try exact Hinit.
  destruct (get_citations (r :: rs)); [|exact Hinit].
  destruct (LLMGateway.generate _ _ _ _ _ _ _). exact Hinit.
Qed.

(** X21: the initialized flag is permanent: once set, neither a further
    [load_index] (whether it succeeds or fails), nor indexing a document
    (whether it succeeds or raises), nor a query clears it. *)
Theorem initialized_is_permanent (self : t) :
  _is_initialized self = true ->
  (forall fs, _is_initialized (snd (load_index self fs)) = true)
  /\ (forall doc,
        _is_initialized (snd (process_and_index_file encode ivf_train self doc)) = true)
  /\ (forall question k filters key,
        _is_initialized (snd (query encode search api self question k filters key))
        = true).
Proof.
  intros Hinit. split; [|split].
  - intros fs. unfold load_index.
    destruct (has_paths self && index_exists fs && metadata_exists fs); [|exact Hinit].
    destruct (IndexBuilder.load _ _ _) as [ok ib]. simpl. rewrite Hinit.
    destruct ok; reflexivity.
  - intros doc.
    destruct (process_and_index_file encode ivf_train self doc) as [res self'] eqn:H.
    cbn [snd]. rewrite (process_and_index_file_initialized _ _ _ _ _ _ H), Hinit.
    destruct res; reflexivity.
  - intros question k filters key. rewrite query_keeps_flag. exact Hinit.
Qed.

(** X22: a call of [process_and_index_file] that returns, on a pipeline
    whose rows and records are in step, has indexed the document: it
    returns the number of chunks, which is not 0, the initialized flag is
    set, rows and records are still in step and the document count has
    grown by the number of chunks. *)
Theorem process_and_index_file_adds (self self' : t) (doc : ProcessedDocument)
    (n : Z) :
  IndexBuilder.in_sync (index_builder self) ->
  process_and_index_file encode ivf_train self doc = (Py.Ok n, self') ->
  n = Py.len (chunks doc)
  /\ chunks doc <> []
  /\ _is_initialized self' = true
  /\ IndexBuilder.in_sync (index_builder self')
  /\ document_count self' = document_count self + Py.len (chunks doc).
Proof.
  intros Hsync Hcall.
  pose proof (process_and_index_file_initialized _ _ _ _ _ _ Hcall) as Hflag.
  unfold process_and_index_file in Hcall.
  destruct (prepare_one_lengths doc) as [Ht Hm].
  destruct (prepare_for_indexing doc) as [texts metas]. cbn [fst snd] in Ht, Hm.
  destruct (IndexBuilder.add_documents encode ivf_train (index_builder self) texts metas)
    as [[[]|e] ib] eqn:Hadd; [|discriminate].
  injection Hcall as <- <-.
  destruct (add_documents_in_step_aux encode ivf_train _ _ _ _ Hsync
              (eq_trans Ht (eq_sym Hm)) Hadd) as [Hs Hc].
  split; [reflexivity|]. split; [|split; [exact Hflag|split; [exact Hs|]]].
  - intros Hnil. rewrite Hnil in Ht. destruct texts; [|discriminate].
    destruct (add_documents_empty encode ivf_train (index_builder self) metas)
      as (msg & s & H & _).
    rewrite H in Hadd. discriminate.
  - unfold document_count. cbn [index_builder with_index]. rewrite Hc.
    unfold Py.len. rewrite Ht. reflexivity.
Qed.

End PipelineMore.

Section Queries.

Import RAGPipeline.

Variable encode : nat -> list N -> IndexBuilder.vec.
Variable search :
  IndexBuilder.faiss_index -> IndexBuilder.vec -> Z -> Py.result (list (Z * Q)).
Variable api : nat -> LLMGateway.request -> LLMGateway.api_outcome.

(** The shapes a returned response can have. *)
Lemma query_cases (self self' : t) (question : list N) (k : option Z)
    (filters : option (gmap (list N) Py.value)) (key : list N) (resp : RAGResponse) :
  query encode search api self question k filters key = (Py.Ok resp, self') ->
  (sources resp = [] /\ citations resp = []
   /\ llm_gateway self' = llm_gateway self
   /\ match llm_response resp with OfResponse _ => False | _ => True end)
  \/ (exists results cs llm gw,
        results <> []
        /\ get_citations results = Py.Ok cs
        /\ sources resp = results /\ citations resp = cs
        /\ llm_response resp = OfResponse llm
        /\ answer resp = LLMGateway.content llm
        /\ success resp = LLMGateway.success llm
        /\ error resp = LLMGateway.error llm
        /\ llm_gateway self' = gw).
Proof.
  unfold query. destruct (_is_initialized self); cbn [negb].
  2:{ intros [= <- <-]. left. repeat split. }
  destruct (Retriever.retrieve _ _ _ _ _ _ _ _) as [[[|r rs]|e] [ib rt]].
  - intros [= <- <-]. left. repeat split.
  - destruct (get_citations (r :: rs)) as [cs|e] eqn:Hc; [|discriminate].
    destruct (LLMGateway.generate _ _ _ _ _ _ _) as [llm gw].
    intros [= <- <-]. right. exists (r :: rs), cs, llm, gw.
    repeat split; [discriminate|exact Hc].
  - intros [= <- <-]. left. repeat split.
Qed.

(** X23: a response without sources never involved the language model: the
    gateway is exactly as before the query (no call, no sleep), the response
    has no citations and its [llm_response] is not a gateway response. *)
Theorem query_without_sources_skips_llm (self self' : t) (question : list N)
    (k : option Z) (filters : option (gmap (list N) Py.value)) (key : list N)
    (resp : RAGResponse) :
  query encode search api self question k filters key = (Py.Ok resp, self') ->
  sources resp = [] ->
  llm_gateway self' = llm_gateway self
  /\ citations resp = []
  /\ match llm_response resp with OfResponse _ => False | _ => True end.
Proof.
  intros H Hsrc. destruct (query_cases _ _ _ _ _ _ _ H)
    as [(_ & Hc & Hgw & Hllm) | (results & cs & llm & gw & Hne & _ & Hs & _)].
  - repeat split; assumption.
  - congruence.
Qed.

(** X24: in every response that [query] returns, the citations and the
    sources go together: there are as many citations as sources, and the
    citations are numbered 1, 2, 3, ... in the order of the sources. *)
Theorem query_citations_match_sources (self self' : t) (question : list N)
    (k : option Z) (filters : option (gmap (list N) Py.value)) (key : list N)
    (resp : RAGResponse) :
  query encode search api self question k filters key = (Py.Ok resp, self') ->
  length (citations resp) = length (sources resp)
  /\ cit_index <$> citations resp
     = (fun n => Z.of_nat n + 1) <$> seq 0 (length (sources resp)).
Proof.
  intros H. destruct (query_cases _ _ _ _ _ _ _ H)
    as [(-> & -> & _) | (results & cs & llm & gw & _ & Hc & -> & -> & _)].
  - split; reflexivity.
  - unfold get_citations in Hc. pose proof (get_citations_from_spec results 1) as Hs.
    rewrite Hc in Hs. destruct Hs as (_ & Hidx & Hrel).
    split; [symmetry; exact (Forall2_length _ _ _ Hrel)|].
    rewrite Hidx. apply list_fmap_ext. intros _ n _. lia.
Qed.

(** X25: a query on a pipeline that is initialized but whose index is not
    ready (absent or without vectors) returns the successful response "No
    relevant information found in the indexed documents for your query."
    with no citations and no sources, and changes no state: no embedding,
    no search, no metrics record, no call of the language model. *)
Theorem query_nothing_indexed (self : t) (question : list N) (k : option Z)
    (filters : option (gmap (list N) Py.value)) (key : list N) :
  _is_initialized self = true ->
  IndexBuilder.is_ready (index_builder self) = false ->
  query encode search api self question k filters key
  = (Py.Ok {| answer := py "No relevant information found in the indexed documents for your query.";
              citations := []; sources := [];
              llm_response := ContentSuccess [] true;
              success := true; error := None |},
     self).
Proof.
  intros Hinit Hready. unfold query, Retriever.retrieve. rewrite Hinit, Hready.
  cbn [negb]. destruct self. reflexivity.
Qed.

End Queries.

Lemma initialized_is_permanent_witness :
  RAGPipeline._is_initialized
    (snd (RAGPipeline.load_index Demo.ready_pipeline Demo.no_files)) = true
  /\ RAGPipeline._is_initialized
       (snd (RAGPipeline.query Demo.encode Retriever.flat_search Demo.failing_api
               Demo.ready_pipeline (py "what is the budget?") None None (py "default")))
     = true.
Proof.
  destruct (initialized_is_permanent Demo.encode (fun _ _ => true) Retriever.flat_search
              Demo.failing_api Demo.ready_pipeline eq_refl) as (H1 & _ & H3).
  split; [apply H1 | apply H3].
Defined.

Lemma process_and_index_file_adds_witness :
  let self' := snd (RAGPipeline.process_and_index_file Demo.encode (fun _ _ => true)
                      Demo.ready_pipeline Demo.document) in
  RAGPipeline._is_initialized self' = true
  /\ IndexBuilder.in_sync (RAGPipeline.index_builder self')
  /\ RAGPipeline.document_count self' = 5 + 2.
Proof.
  intros self'.
  destruct (process_and_index_file_adds Demo.encode (fun _ _ => true)
              Demo.ready_pipeline self' Demo.document 2 eq_refl
              ltac:(vm_compute; reflexivity))
    as (_ & _ & Hflag & Hsync & Hcount).
  split; [exact Hflag|]. split; [exact Hsync | exact Hcount].
Defined.

Lemma query_without_sources_skips_llm_witness :
  let out := RAGPipeline.query Demo.encode Retriever.flat_search Demo.answering_api
               Demo.ready_pipeline (py "what is the budget?") None
               (Some (<[py "document_id" := Py.VStr (py "nowhere")]> ∅)) (py "default") in
  RAGPipeline.llm_gateway (snd out) = RAGPipeline.llm_gateway Demo.ready_pipeline.
Proof.
  intros out.
  assert (Hout : exists resp, out = (Py.Ok resp, snd out) /\ RAGPipeline.sources resp = []).
  { eexists. split; vm_compute; reflexivity. }
  destruct Hout as (resp & Hout & Hsrc). unfold out in *. clear out.
  set (self' := snd (RAGPipeline.query _ _ _ _ _ _ _ _)) in *. clearbody self'.
  exact (proj1 (query_without_sources_skips_llm Demo.encode Retriever.flat_search
                  Demo.answering_api Demo.ready_pipeline self'
                  (py "what is the budget?") None
                  (Some (<[py "document_id" := Py.VStr (py "nowhere")]> ∅))
                  (py "default") resp Hout Hsrc)).
Defined.

Lemma query_citations_match_sources_witness :
  let out := RAGPipeline.query Demo.encode Retriever.flat_search Demo.answering_api
               Demo.ready_pipeline (py "what is the budget?") (Some 3) None
               (py "default") in
  exists resp,
    fst out = Py.Ok resp
    /\ RAGPipeline.answer resp = py "the answer"
    /\ length (RAGPipeline.sources resp) = 3%nat
    /\ RAGPipeline.cit_index <$> RAGPipeline.citations resp = [1; 2; 3].
Proof.
  intros out.
  assert (Hout : exists resp, out = (Py.Ok resp, snd out)
                              /\ RAGPipeline.answer resp = py "the answer"
                              /\ length (RAGPipeline.sources resp) = 3%nat).
  { eexists. split; [vm_compute; reflexivity|]. split; vm_compute; reflexivity. }
  destruct Hout as (resp & Hout & Hans & Hlen). unfold out in *. clear out.
  set (self' := snd (RAGPipeline.query _ _ _ _ _ _ _ _)) in *. clearbody self'.
  exists resp. split; [rewrite Hout; reflexivity|]. split; [exact Hans|].
  split; [exact Hlen|].
  rewrite (proj2 (query_citations_match_sources Demo.encode Retriever.flat_search
                    Demo.answering_api Demo.ready_pipeline self'
                    (py "what is the budget?") (Some 3) None (py "default") resp Hout)).
  rewrite Hlen. reflexivity.
Defined.

Lemma query_nothing_indexed_witness :
  RAGPipeline._is_initialized Demo.restored_empty_pipeline = true
  /\ RAGPipeline.success
       (match fst (RAGPipeline.query Demo.encode Retriever.flat_search Demo.answering_api
                     Demo.restored_empty_pipeline (py "what is the budget?") None None
                     (py "default")) with
        | Py.Ok resp => resp
        | Py.Raise _ =>
            {| RAGPipeline.answer := []; RAGPipeline.citations := [];
               RAGPipeline.sources := []; RAGPipeline.llm_response := RAGPipeline.EmptyDict;
               RAGPipeline.success := false; RAGPipeline.error := None |}
        end) = true.
Proof.
  split; [reflexivity|].
  rewrite (query_nothing_indexed Demo.encode Retriever.flat_search Demo.answering_api
             Demo.restored_empty_pipeline (py "what is the budget?") None None
             (py "default") eq_refl eq_refl).
  reflexivity.
Defined.

(** ** Size and order of the results, and when a query can raise *)

Section Ranking.

Import Retriever.

Variable encode : nat -> list N -> IndexBuilder.vec.
Variable search :
  IndexBuilder.faiss_index -> IndexBuilder.vec -> Z -> Py.result (list (Z * Q)).
Variable api : nat -> LLMGateway.request -> LLMGateway.api_outcome.

(** The results of a retrieval on a ready index are what the loop collects
    from the candidates of one search. *)
Lemma retrieve_collects (ib : IndexBuilder.t) (self : t) (q : list N) (k : option Z)
    (filters : option (gmap (list N) Py.value)) (min_score : Q)
    (results : list RetrievalResult) (st : IndexBuilder.t * t) :
  retrieve encode search ib self q k filters min_score = (Py.Ok results, st) ->
  results = []
  \/ exists self1 idx v n candidates,
       search idx v n = Py.Ok candidates
       /\ collect self1 (IndexBuilder.metadata ib) filters min_score (resolve_k self k)
            candidates [] = Py.Ok results.
Proof.
  intros H. destruct (IndexBuilder.is_ready ib) eqn:Hready.
  - destruct (retrieve_ready encode search _ _ _ _ _ _ _ _ Hready H)
      as (v & ib1 & self1 & idx & candidates & Hemb & _ & Hsearch & Hcol & _).
    destruct (embed_query_frame _ _ _ _ _ _ _ Hemb) as (_ & Hmd & _ & _).
    rewrite Hmd in Hcol. right. eauto 10.
  - unfold retrieve in H. rewrite Hready in H. injection H as <- _. left. reflexivity.
Qed.

(** X26: with or without filters, [retrieve] returns at most as many
    results as the resolved [k] (the argument when it is a non-zero int,
    else [retrieval_k]), and at most one when that number is not positive. *)
Theorem retrieve_at_most_k (ib : IndexBuilder.t) (self : t) (q : list N)
    (k : option Z) (filters : option (gmap (list N) Py.value)) (min_score : Q)
    (results : list RetrievalResult) (st : IndexBuilder.t * t) :
  retrieve encode search ib self q k filters min_score = (Py.Ok results, st) ->
  Py.len results <= Z.max 1 (resolve_k self k).
Proof.
  intros H. destruct (retrieve_collects _ _ _ _ _ _ _ _ H)
    as [-> | (self1 & idx & v & n & candidates & _ & Hcol)].
  - unfold Py.len. simpl. lia.
  - destruct (collect_spec _ _ _ _ _ _ _ _ Hcol) as (new & _ & _ & _ & _ & Hlen).
    unfold Py.len in *. simpl in Hlen. lia.
Qed.

(** X27: when the index search returns its candidates in descending order
    of score, the results of [retrieve] are in descending order of score as
    well, with or without filters. *)
Theorem retrieve_descending (ib : IndexBuilder.t) (self : t) (q : list N)
    (k : option Z) (filters : option (gmap (list N) Py.value)) (min_score : Q)
    (results : list RetrievalResult) (st : IndexBuilder.t * t) :
  (forall idx v n candidates,
      search idx v n = Py.Ok candidates ->
      StronglySorted (fun a b => (b <= a)%Q) (snd <$> candidates)) ->
  retrieve encode search ib self q k filters min_score = (Py.Ok results, st) ->
  StronglySorted (fun a b => (b <= a)%Q) (score <$> results).
Proof.
  intros Hsorted H. destruct (retrieve_collects _ _ _ _ _ _ _ _ H)
    as [-> | (self1 & idx & v & n & candidates & Hsearch & Hcol)].
  - constructor.
  - destruct (collect_spec _ _ _ _ _ _ _ _ Hcol) as (new & Hout & Hsub & _).
    simpl in Hout. subst new.
    exact (sublist_descending _ _ Hsub (Hsorted _ _ _ _ Hsearch)).
Qed.

Lemma index_elem_of {A} (l : list A) (i : Z) (x : A) :
  Py.index l i = Some x -> x ∈ l.
Proof.
  unfold Py.index. destruct (i <? 0); [destruct (0 <=? i + Py.len l); [|discriminate]|];
    intros H; eapply list_elem_of_lookup_2; exact H.
Qed.

(** X28: [query] can raise only TypeError, and only when the metadata store
    holds a record whose [chunk_idx] is present and not a number; any other
    failure, of the retrieval or of the language model, comes back as a
    response. *)
Theorem query_raises_only_on_chunk_idx (self : RAGPipeline.t) (question : list N)
    (k : option Z) (filters : option (gmap (list N) Py.value)) (key : list N) :
  match fst (RAGPipeline.query encode search api self question k filters key) with
  | Py.Ok _ => True
  | Py.Raise e =>
      e = Py.TypeError
      /\ Exists (fun md =>
                   Py.num (Py.get_default md (py "chunk_idx") (Py.VInt 0)) = None)
           (IndexBuilder.metadata (RAGPipeline.index_builder self))
  end.
Proof.
  unfold RAGPipeline.query. destruct (RAGPipeline._is_initialized self); cbn [negb];
    [|exact I].
  destruct (retrieve encode search (RAGPipeline.index_builder self)
              (RAGPipeline.retriever self) question k filters 0%Q)
    as [[[|r rs]|e] [ib rt]] eqn:Hret; try exact I.
  unfold RAGPipeline.get_citations.
  pose proof (get_citations_from_spec (r :: rs) 1) as Hs.
  destruct (RAGPipeline.get_citations_from 1 (r :: rs)) as [cs|e].
  - destruct (LLMGateway.generate _ _ _ _ _ _ _). exact I.
  - cbn [fst]. destruct Hs as (-> & Hex). split; [reflexivity|].
    destruct (retrieve_collects _ _ _ _ _ _ _ _ Hret)
      as [Hnil | (self1 & idx & v & n & candidates & _ & Hcol)]; [discriminate|].
    destruct (collect_origin _ _ _ _ _ _ _ _ Hcol) as (new & Hout & Hall).
    simpl in Hout. subst new.
    apply Exists_exists in Hex as (res & Hin & Hbad).
    rewrite Forall_forall in Hall.
    destruct (Hall res Hin) as (i & full & _ & _ & Hidx & _).
    apply Exists_exists. exists (metadata res).
    split; [exact (index_elem_of _ _ _ Hidx)|].
    unfold Citing.numeric_chunk_idx in Hbad.
    destruct (Py.num _); [exfalso; apply Hbad; discriminate|reflexivity].
Qed.

End Ranking.

Lemma retrieve_at_most_k_witness :
  let out := Retriever.retrieve Demo.encode Retriever.flat_search Demo.builder
               Retriever.default (py "what is the budget?") (Some 2) None 0%Q in
  Py.len (match fst out with Py.Ok r => r | Py.Raise _ => [] end) <= Z.max 1 2.
Proof.
  intros out.
  exact (retrieve_at_most_k Demo.encode Retriever.flat_search Demo.builder
           Retriever.default (py "what is the budget?") (Some 2) None 0%Q
           _ (snd out) ltac:(vm_compute; reflexivity)).
Defined.

Lemma retrieve_descending_witness :
  let search := fun (_ : IndexBuilder.faiss_index) (_ : IndexBuilder.vec) (_ : Z) =>
                  Py.Ok [(0, 1%Q); (2, (1 # 2)%Q); (4, 0%Q); (-1, (-1)%Q)] in
  let out := Retriever.retrieve Demo.encode search Demo.builder
               Retriever.default (py "what is the budget?") None (Some Demo.only_X) 0%Q in
  StronglySorted (fun a b => (b <= a)%Q)
    (Retriever.score <$> match fst out with Py.Ok r => r | Py.Raise _ => [] end).
Proof.
  intros search out.
  refine (retrieve_descending Demo.encode search Demo.builder
            Retriever.default (py "what is the budget?") None (Some Demo.only_X) 0%Q
            _ (snd out) _ ltac:(vm_compute; reflexivity)).
  intros idx v n candidates [= <-].
  repeat constructor; vm_compute; discriminate.
Defined.
